(** * flexiManage: intent validation and DHCP job reconciliation

    A shallow embedding of the parts of the flexiManage back end that
    validate operator intents and reconcile job outcomes into the stored
    device documents:

    - [backend/deviceLogic/dhcp.js]        (module [dhcp])
    - [backend/deviceLogic/validators.js]  (module [validators])
    - [backend/services/DevicesService.js] (module [DevicesService])
    - the tunnel deactivation of the tunnels service (module [TunnelsService])

    Documents are records, collections are lists of documents in their
    natural order, strings stay strings.  Asynchronous calls are run in
    program order; a thrown exception is the [Throw] constructor of
    [result]. *)

From Stdlib Require Import List String Ascii Bool Arith NArith ZArith Lia.
Import ListNotations.
Open Scope string_scope.
Open Scope list_scope.

Set Implicit Arguments.

(** ** Exceptions *)

(** A JavaScript error object: its [message] and its optional [status]. *)
Record Error := mkError { message : string; status : option nat }.

(** [new Error(msg)] *)
Definition newError (msg : string) : Error := mkError msg None.

Inductive result (A : Type) : Type :=
| Ok (a : A)
| Throw (e : Error).
Arguments Ok {A} a.
Arguments Throw {A} e.

Definition bind {A B} (r : result A) (k : A -> result B) : result B :=
  match r with
  | Ok a => k a
  | Throw e => Throw e
  end.

Declare Scope js_scope.
Delimit Scope js_scope with js.
Notation "'let*' x ':=' c 'in' k" := (bind c (fun x => k))
  (at level 10, x name, c at level 100, k at level 200) : js_scope.
Notation "c ';;;' k" := (bind c (fun _ => k))
  (at level 100, k at level 200, right associativity) : js_scope.
Open Scope js_scope.

(** [throwIf c msg] is [if (c) throw new Error(msg)]. *)
Definition throwIf (c : bool) (msg : string) : result unit :=
  if c then Throw (newError msg) else Ok tt.

(** ** Identifiers *)

(** A value of [ObjectId] stands for a well-formed document id in the
    canonical form the driver prints; [mongoose.Types.ObjectId(x)] and
    [x.toString()] are the identity on such values. *)
Definition ObjectId := string.

Definition includes (xs : list string) (x : string) : bool :=
  existsb (String.eqb x) xs.

(** ** Documents *)

Record MacAssign := mkMacAssign {
  host : string;
  mac : string;
  ipv4 : string
}.

(** An element of the [dhcp] array of a device. *)
Record Dhcp := mkDhcp {
  dhcp_id : ObjectId;
  dhcp_interface : string;
  rangeStart : string;
  rangeEnd : string;
  dns : list string;
  macAssign : list MacAssign;
  dhcp_status : string
}.

(** An element of the [staticroutes] array of a device. *)
Record StaticRoute := mkStaticRoute {
  route_id : ObjectId;
  destination : string;
  route_gateway : string;
  ifname : string;
  route_metric : string;
  route_status : string
}.

Record PathLabel := mkPathLabel {
  label_id : ObjectId;
  label_name : string
}.

(** An element of the [interfaces] array, stored or as sent in a request.
    [pathlabels] is [None] where the field is not an array. *)
Record Interface := mkInterface {
  if_id : ObjectId;
  if_name : string;
  pciaddr : string;
  isAssigned : bool;
  type : string;
  IPv4 : string;
  IPv4Mask : string;
  gateway : string;
  routing : string;
  if_dhcp : string;
  metric : string;
  pathlabels : option (list PathLabel);
  useStun : bool;
  PublicPort : string;
  NatType : string;
  internetAccess : string;
  modified : bool
}.

Record Device := mkDevice {
  dev_id : ObjectId;
  org : ObjectId;
  account : ObjectId;
  machineId : string;
  dev_name : string;
  hostname : string;
  isApproved : bool;
  agentVersion : string;
  interfaces : list Interface;
  staticroutes : list StaticRoute;
  dhcp : list Dhcp
}.

Definition set_staticroutes (f : list StaticRoute -> list StaticRoute) (d : Device) : Device :=
  mkDevice d.(dev_id) d.(org) d.(account) d.(machineId) d.(dev_name) d.(hostname)
           d.(isApproved) d.(agentVersion) d.(interfaces) (f d.(staticroutes)) d.(dhcp).

Definition set_dhcp (f : list Dhcp -> list Dhcp) (d : Device) : Device :=
  mkDevice d.(dev_id) d.(org) d.(account) d.(machineId) d.(dev_name) d.(hostname)
           d.(isApproved) d.(agentVersion) d.(interfaces) d.(staticroutes) (f d.(dhcp)).

Definition set_route_status (s : string) (r : StaticRoute) : StaticRoute :=
  mkStaticRoute r.(route_id) r.(destination) r.(route_gateway) r.(ifname) r.(route_metric) s.

Definition set_dhcp_status (s : string) (h : Dhcp) : Dhcp :=
  mkDhcp h.(dhcp_id) h.(dhcp_interface) h.(rangeStart) h.(rangeEnd) h.(dns) h.(macAssign) s.

(** ** The document store *)

Module Mongo.

(** [coll.findOne(q)]: the first document that matches. *)
Definition findOne {A} (q : A -> bool) (coll : list A) : option A := find q coll.

(** [coll.find(q)] *)
Definition find_ {A} (q : A -> bool) (coll : list A) : list A := filter q coll.

(** [coll.countDocuments(q)] *)
Definition countDocuments {A} (q : A -> bool) (coll : list A) : nat :=
  List.length (filter q coll).

(** [coll.findOneAndUpdate(q, u)] with [upsert: false]: the update is
    applied to the first document that matches, and to no other. *)
Fixpoint findOneAndUpdate {A} (q : A -> bool) (u : A -> A) (coll : list A) : list A :=
  match coll with
  | [] => []
  | d :: rest => if q d then u d :: rest else d :: findOneAndUpdate q u rest
  end.

(** [coll.remove(q)]: every matching document goes. *)
Definition remove {A} (q : A -> bool) (coll : list A) : list A :=
  filter (fun d => negb (q d)) coll.

(** [{ $pull: { arr: { _id: x } } }] on an array whose elements have the
    id [key]. *)
Definition pull {A} (key : A -> ObjectId) (x : ObjectId) (arr : list A) : list A :=
  filter (fun e => negb (String.eqb (key e) x)) arr.

(** [{ $set: { 'arr.$[elem].f': v } }] with
    [arrayFilters: [{ 'elem._id': x }]]: [upd] is applied to every
    element whose id is [x]. *)
Definition setElem {A} (key : A -> ObjectId) (x : ObjectId) (upd : A -> A)
           (arr : list A) : list A :=
  map (fun e => if String.eqb (key e) x then upd e else e) arr.

(** [{ $push: { arr: e } }] *)
Definition push {A} (e : A) (arr : list A) : list A := arr ++ [e].

End Mongo.

(** The query [{ _id: x }] on the devices collection; an absent id matches
    no document. *)
Definition byId (x : option ObjectId) (d : Device) : bool :=
  match x with
  | Some i => String.eqb d.(dev_id) i
  | None => false
  end.

(** ** Jobs *)

(** The acting user, as far as the job layer reads it. *)
Record User := mkUser { username : string; defaultOrg : ObjectId }.

Record Task := mkTask {
  entity : string;
  task_message : string;
  task_interface : string;
  range_start : string;
  range_end : string;
  task_dns : list string;
  mac_assign : list MacAssign
}.

(** [job.data.response.data]: a field the object lacks (or holds as an
    empty value) is [None]; an empty [message] is the empty string. *)
Record JobResult := mkJobResult {
  deviceId : option ObjectId;
  routeId : option ObjectId;
  res_message : string
}.

Record Job := mkJob {
  job_machineId : string;
  job_user : string;
  job_org : string;
  title : string;
  tasks : list Task;
  response_method : string;
  response_data : JobResult;
  priority : string;
  attempts : nat;
  removeOnComplete : bool;
  _state : string
}.

(** The data a caller hands to [dhcp.apply] through the dispatcher. *)
Record DhcpData := mkDhcpData {
  data_id : ObjectId;
  data_interface : string;
  data_rangeStart : string;
  data_rangeEnd : string;
  data_dns : list string;
  data_macAssign : list MacAssign;
  action : string
}.

(** ** [backend/deviceLogic/dhcp.js] *)

Module dhcp.

(** [apply]: the job queued for an add or a delete of a DHCP server.
    [majorAgentVersion] is [getMajorVersion(device.versions.agent)];
    the job enters the queue in the state [inactive]. *)
Definition apply (majorAgentVersion : nat) (device : Device) (user : User)
           (data : DhcpData) : result (list Job) :=
  let userName := user.(username) in
  let org := user.(defaultOrg) in
  if Nat.eqb majorAgentVersion 0 then
    Throw (newError "Command is not supported for the current agent version")
  else
    let routeId := data.(data_id) in
    let del := String.eqb data.(action) "del" in
    let message := if del then "remove-dhcp-config" else "add-dhcp-config" in
    let titlePrefix := if del then "Delete" else "Add" in
    let tasks := [mkTask "agent" message data.(data_interface) data.(data_rangeStart)
                         data.(data_rangeEnd) data.(data_dns) data.(data_macAssign)] in
    Ok [mkJob device.(machineId) userName org
              (titlePrefix ++ " DHCP in device " ++ device.(hostname)) tasks
              "dhcp" (mkJobResult (Some device.(dev_id)) (Some routeId) message)
              "low" 1 false "inactive"].

(** [complete]: the handler of a completed job. *)
Definition complete (jobId : nat) (res : option JobResult) (devices : list Device)
  : list Device :=
  match res with
  | None => devices
  | Some res =>
      match res.(deviceId), res.(routeId) with
      | Some _, Some rid =>
          if String.eqb res.(res_message) "" then devices
          else if String.eqb res.(res_message) "remove-route" then
            Mongo.findOneAndUpdate (byId res.(deviceId))
              (set_staticroutes (Mongo.pull route_id rid)) devices
          else
            Mongo.findOneAndUpdate (byId res.(deviceId))
              (set_staticroutes (Mongo.setElem route_id rid (set_route_status "complete")))
              devices
      | _, _ => devices
      end
  end.

(** The array filter [{ 'elem._id': ObjectId(x) }]: an absent [x] becomes
    a fresh id, which no element carries. *)
Definition setRouteStatus (x : option ObjectId) (s : string) (d : Device) : Device :=
  match x with
  | Some rid => set_staticroutes (Mongo.setElem route_id rid (set_route_status s)) d
  | None => d
  end.

(** [error]: the handler of a failed job.  A [res] that is not an object
    raises inside the [try] and only a warning is logged. *)
Definition error (jobId : nat) (res : option JobResult) (devices : list Device)
  : list Device :=
  match res with
  | None => devices
  | Some res =>
      if String.eqb res.(res_message) "remove-route" then
        Mongo.findOneAndUpdate (byId res.(deviceId))
          (setRouteStatus res.(routeId) "remove-failed") devices
      else
        Mongo.findOneAndUpdate (byId res.(deviceId))
          (setRouteStatus res.(routeId) "add-failed") devices
  end.

(** [remove]: the handler of a job that is removed from the queue. *)
Definition remove (job : Job) (devices : list Device) : list Device :=
  if includes ["inactive"; "delayed"; "active"] job.(_state) then
    let deviceId := job.(response_data).(deviceId) in
    let routeId := job.(response_data).(routeId) in
    Mongo.findOneAndUpdate (byId deviceId) (setRouteStatus routeId "job-deleted") devices
  else devices.

End dhcp.

(** ** Addresses and networks *)

(** The loop [for (const x of xs) { ... }] whose body may leave the
    function: [Some r] is a [return] (or a [throw]) of the body, [None]
    lets the loop go on. *)
Fixpoint forOf {A R} (xs : list A) (body : A -> option R) : option R :=
  match xs with
  | [] => None
  | x :: rest =>
      match body x with
      | Some r => Some r
      | None => forOf rest body
      end
  end.

Module net.

Definition digit (c : ascii) : option N :=
  let n := N_of_ascii c in
  if ((48 <=? n) && (n <=? 57))%N then Some (n - 48)%N else None.

Fixpoint decimal (s : string) (acc : N) : option N :=
  match s with
  | EmptyString => Some acc
  | String c rest =>
      match digit c with
      | Some d => decimal rest (10 * acc + d)%N
      | None => None
      end
  end.

(** A decimal number of at most [width] digits, without a leading zero
    and at most [bound]. *)
Definition number (width : nat) (bound : N) (s : string) : option N :=
  match s with
  | EmptyString => None
  | String c rest =>
      if Nat.ltb width (String.length s) then None
      else if Ascii.eqb c "0" && negb (String.eqb rest "") then None
      else match decimal s 0 with
           | Some n => if (n <=? bound)%N then Some n else None
           | None => None
           end
  end.

(** [s.split(sep)] for a separator of one character. *)
Fixpoint split (sep : ascii) (s : string) : list string :=
  match s with
  | EmptyString => [EmptyString]
  | String c rest =>
      if Ascii.eqb c sep then EmptyString :: split sep rest
      else match split sep rest with
           | [] => [String c EmptyString]
           | w :: ws => String c w :: ws
           end
  end.

(** The numeric value of a dotted quad: four numbers 0..255. *)
Definition parseIPv4 (s : string) : option N :=
  match map (number 3 255) (split "." s) with
  | [Some a; Some b; Some c; Some d] => Some (((a * 256 + b) * 256 + c) * 256 + d)%N
  | _ => None
  end.

(** [net.isIPv4(s)] *)
Definition isIPv4 (s : string) : bool :=
  match parseIPv4 s with Some _ => true | None => false end.

End net.

(** The [cidr-tools] package, for IPv4 networks: a network is the range
    of addresses from its first to its last, and two networks overlap when
    the ranges meet. *)
Module cidr.

Record Network := mkNetwork { start : N; end_ : N }.

Definition network (ip prefix : N) : Network :=
  let hostBits := (32 - prefix)%N in
  let first := N.shiftl (N.shiftr ip hostBits) hostBits in
  mkNetwork first (first + 2 ^ hostBits - 1)%N.

(** [parse]: [a.b.c.d/n] with [n] in 0..32, or a bare address, which
    is the network of that one address; anything else raises. *)
Definition parse (str : string) : result Network :=
  match net.split "/" str with
  | [ip; prefix] =>
      match net.parseIPv4 ip, net.number 2 32 prefix with
      | Some a, Some n => Ok (network a n)
      | _, _ => Throw (newError ("Network is not a CIDR or IP: " ++ str))
      end
  | [ip] =>
      match net.parseIPv4 ip with
      | Some a => Ok (network a 32)
      | None => Throw (newError ("Network is not a CIDR or IP: " ++ str))
      end
  | _ => Throw (newError ("Network is not a CIDR or IP: " ++ str))
  end.

Definition doNetsOverlap (a b : Network) : bool :=
  if (b.(end_) <? a.(start))%N then false
  else if (a.(end_) <? b.(start))%N then false
  else true.

(** [cidr.overlap(a, b)] *)
Definition overlap (a b : string) : result bool :=
  let* aParsed := parse a in
  let* bParsed := parse b in
  Ok (doNetsOverlap aParsed bParsed).

End cidr.

(** ** [backend/deviceLogic/validators.js] *)

Record Validation := mkValidation { valid : bool; err : string }.

(** An element of [organizationLanSubnets]. *)
Record OrgSubnet := mkOrgSubnet { subnet_name : string; subnet : string }.

Module validators.

Definition invalid (msg : string) : option (result Validation) :=
  Some (Ok (mkValidation false msg)).

Definition subnetOf (ifc : Interface) : string :=
  ifc.(IPv4) ++ "/" ++ ifc.(IPv4Mask).

(** The body of the loop over the assigned interfaces. *)
Definition checkInterface (ifc : Interface) : option (result Validation) :=
  if negb (includes ["WAN"; "LAN"] ifc.(type)) then
    invalid ("Invalid interface type for " ++ ifc.(if_name) ++ ": " ++ ifc.(type))
  else if negb (net.isIPv4 ifc.(IPv4)) || String.eqb ifc.(IPv4Mask) "" then
    invalid ("Interface " ++ ifc.(if_name) ++ " does not have an " ++
             (if String.eqb ifc.(IPv4Mask) "" then "IPv4 mask" else "IP address"))
  else
    let lan : option (result Validation) :=
      if String.eqb ifc.(type) "LAN" then
        match ifc.(pathlabels) with
        | None => Some (Throw (newError "Cannot read property 'length' of undefined"))
        | Some labels =>
            if negb (Nat.eqb (List.length labels) 0) then
              invalid "Path Labels are not allowed on LAN interfaces"
            else if negb (String.eqb ifc.(gateway) "") then
              invalid "LAN interfaces should not be assigned a default GW"
            else None
        end
      else None in
    match lan with
    | Some r => Some r
    | None =>
        if String.eqb ifc.(type) "WAN" then
          if String.eqb ifc.(routing) "OSPF" then
            invalid "OSPF should not be configured on WAN interface"
          else if negb (net.isIPv4 ifc.(gateway)) then
            invalid "All WAN interfaces should be assigned a default GW"
          else None
        else None
    end.

(** The body of the two loops over the WAN and the LAN interfaces. *)
Definition checkWanLan (wanIfc lanIfc : Interface) : option (result Validation) :=
  let wanSubnet := subnetOf wanIfc in
  let lanSubnet := subnetOf lanIfc in
  match cidr.overlap wanSubnet lanSubnet with
  | Throw e => Some (Throw e)
  | Ok true => invalid "WAN and LAN IP addresses have an overlap"
  | Ok false => None
  end.

(** The body of the loops over the subnets of the organization. *)
Definition checkOrgSubnet (device : Device) (orgDevice : OrgSubnet)
           (currentLanIfc : Interface) : option (result Validation) :=
  let orgSubnet := orgDevice.(subnet) in
  let currentSubnet := subnetOf currentLanIfc in
  if String.eqb currentSubnet orgSubnet then None
  else match cidr.overlap currentSubnet orgSubnet with
       | Throw e => Some (Throw e)
       | Ok true =>
           invalid ("The device " ++ device.(dev_name) ++
                    " has a LAN subnet overlap with " ++ orgDevice.(subnet_name))
       | Ok false => None
       end.

Definition orElse {R} (a : option R) (b : option R) : option R :=
  match a with Some r => Some r | None => b end.

(** [validateDevice(device, checkOverlap, organizationLanSubnets)] *)
Definition validateDevice (device : Device) (checkOverlap : bool)
           (organizationLanSubnets : list OrgSubnet) : result Validation :=
  let interfaces := device.(interfaces) in
  let assignedIfs := filter isAssigned interfaces in
  let wanIfcs := filter (fun ifc => String.eqb ifc.(type) "WAN") assignedIfs in
  let lanIfcs := filter (fun ifc => String.eqb ifc.(type) "LAN") assignedIfs in
  if Nat.ltb (List.length assignedIfs) 2
     || (Nat.eqb (List.length wanIfcs) 0 || Nat.eqb (List.length lanIfcs) 0) then
    Ok (mkValidation false "There should be at least one LAN and one WAN interfaces")
  else
    let returned :=
      orElse (forOf assignedIfs checkInterface)
     (orElse (forOf wanIfcs (fun wanIfc => forOf lanIfcs (checkWanLan wanIfc)))
             (if checkOverlap && Nat.ltb 0 (List.length organizationLanSubnets) then
                forOf organizationLanSubnets (fun orgDevice =>
                  forOf lanIfcs (checkOrgSubnet device orgDevice))
              else None)) in
    match returned with
    | Some r => r
    | None => Ok (mkValidation true "")
    end.

End validators.

(** [const { valid, err } = ...; if (!valid) ...]: whether a validation
    came back with [valid: true]. *)
Definition accepted (r : result Validation) : bool :=
  match r with
  | Ok v => v.(valid)
  | Throw _ => false
  end.

(** The rules on one assigned interface, in the words of the data model:
    it is a WAN or a LAN interface with an IPv4 address and a mask; a LAN
    interface carries no path label and no gateway; a WAN interface does not
    run OSPF and carries a gateway. *)
Definition interfaceRules (ifc : Interface) : Prop :=
  (ifc.(type) = "WAN" \/ ifc.(type) = "LAN")
  /\ net.isIPv4 ifc.(IPv4) = true
  /\ ifc.(IPv4Mask) <> ""
  /\ (ifc.(type) = "LAN" -> ifc.(pathlabels) = Some [] /\ ifc.(gateway) = "")
  /\ (ifc.(type) = "WAN" -> ifc.(routing) <> "OSPF" /\ net.isIPv4 ifc.(gateway) = true).

(** The assigned interfaces of a type. *)
Definition assignedOf (ty : string) (device : Device) : list Interface :=
  filter (fun ifc => String.eqb ifc.(type) ty) (filter isAssigned device.(interfaces)).

(** ** The rest of the system *)

Record Tunnel := mkTunnel {
  tunnel_id : ObjectId;
  tunnel_org : ObjectId;
  num : nat;
  isActive : bool;
  deviceA : ObjectId;
  deviceB : ObjectId;
  interfaceA : ObjectId;
  interfaceB : ObjectId;
  pathlabel : option ObjectId
}.

Definition set_isActive (b : bool) (t : Tunnel) : Tunnel :=
  mkTunnel t.(tunnel_id) t.(tunnel_org) t.(num) b t.(deviceA) t.(deviceB)
           t.(interfaceA) t.(interfaceB) t.(pathlabel).

(** What the deactivation of the tunnels [ids] by a caller with the
    organizations [orgList] makes of a tunnel. *)
Definition deactivated (ids orgList : list ObjectId) (t : Tunnel) : Tunnel :=
  if includes ids t.(tunnel_id) && includes orgList t.(tunnel_org)
  then set_isActive false t else t.

(** The body of a [PUT] on a device; a field the request lacks is [None]. *)
Record DeviceRequest := mkDeviceRequest {
  rq_name : option string;
  rq_isApproved : option bool;
  rq_interfaces : option (list Interface);
  rq_dhcp : option (list Dhcp)
}.

(** The body of a [POST] of a DHCP server. *)
Record DhcpRequest := mkDhcpRequest {
  req_interface : string;
  req_rangeStart : string;
  req_rangeEnd : string;
  req_dns : list string;
  req_macAssign : list MacAssign
}.

Definition asDhcpRequest (h : Dhcp) : DhcpRequest :=
  mkDhcpRequest h.(dhcp_interface) h.(rangeStart) h.(rangeEnd) h.(dns) h.(macAssign).

(** The interface a DHCP request names: the first of the device with that
    PCI address. *)
Definition targetInterface (device : Device) (dhcpRequest : DhcpRequest) : option Interface :=
  find (fun i => String.eqb i.(pciaddr) dhcpRequest.(req_interface)) device.(interfaces).

(** An active tunnel runs over the interface [x]. *)
Definition tunnelOn (x : ObjectId) (t : Tunnel) : Prop :=
  t.(isActive) = true /\ (t.(interfaceA) = x \/ t.(interfaceB) = x).

(** The interface carries the path label. *)
Definition hasLabel (ifc : Interface) (label : ObjectId) : Prop :=
  exists labels, ifc.(pathlabels) = Some labels /\ In label (map label_id labels).

(** No two DHCP servers of the device are for the same interface. *)
Definition oneDhcpPerInterface (d : Device) : Prop :=
  NoDup (map dhcp_interface d.(dhcp)).

(** A tunnel has the device [id] on one of its sides. *)
Definition references (id : ObjectId) (t : Tunnel) : Prop :=
  t.(deviceA) = id \/ t.(deviceB) = id.

(** The fourth argument of [dispatcher.apply]. *)
Inductive DispatchData :=
| ModifyData (org : option ObjectId) (newDevice : option Device)
| DhcpJobData (org : option ObjectId) (data : DhcpData).

(** One call of [dispatcher.apply(devices, method, user, data)]. *)
Record DispatchCall := mkDispatchCall {
  call_devices : list Device;
  call_method : string;
  call_user : User;
  call_data : DispatchData
}.

(** What a service method answers. *)
Inductive Payload :=
| PNull
| PEmpty
| PDevice (d : Device)
| PDhcp (d : Dhcp).

Inductive Response :=
| successResponse (payload : Payload) (code : nat)
| rejectResponse (error : string) (code : nat).

Definition isReject (r : Response) : bool :=
  match r with
  | rejectResponse _ _ => true
  | successResponse _ _ => false
  end.

(** The modules the services call and that stay outside this development:
    membership, billing, the dispatcher, configuration, the in-memory
    device status, schema validation, the generator of document ids. *)
Class Collaborators : Type := {
  (** the state of the billing records *)
  Billing : Type;
  (** [flexibilling.registerDevice({ account, count, increment }, session)] *)
  registerDevice : ObjectId -> nat -> Z -> Billing -> result Billing;
  (** [getAccessTokenOrgList(user, org, orgIdRequired)] *)
  getAccessTokenOrgList : User -> option string -> bool -> result (list ObjectId);
  (** [dispatcher.apply]: the ids it answers and what it does to the queue *)
  dispatcherApply : DispatchCall -> list Job -> result (list string) * list Job;
  (** [validateDhcpConfig(device, modifiedInterfaces)] *)
  validateDhcpConfig : Device -> list string -> Validation;
  (** [getAllOrganizationLanSubnets(org)] *)
  getAllOrganizationLanSubnets : ObjectId -> list Device -> list OrgSubnet;
  (** [getMajorVersion(version)] *)
  getMajorVersion : string -> nat;
  (** [configs.get('tunnelPort')] *)
  tunnelPort : string;
  (** [configs.get('forbidLanSubnetOverlaps', 'boolean')] *)
  forbidLanSubnetOverlaps : bool;
  (** the [state] of [deviceStatus.getDeviceStatus(machineId)] *)
  getDeviceState : string -> option string;
  (** the schema validators that [runValidators: true] runs on an update *)
  runValidators : DeviceRequest -> result unit;
  (** the id of the n-th document made with [new Model(...)] *)
  newObjectId : nat -> ObjectId
}.

Section World.

Context {C : Collaborators}.

(** Everything a service method can read or change. *)
Record World := mkWorld {
  devices : list Device;
  tunnels : list Tunnel;
  billing : Billing;
  created : nat;
  queue : list Job;
  dispatched : list DispatchCall;
  disconnected : list string
}.

(** A service body: it runs on a world and answers or raises; what it
    did before raising stays done. *)
Definition M (A : Type) : Type := World -> result A * World.

Definition ret {A} (a : A) : M A := fun w => (Ok a, w).

Definition raise {A} (e : Error) : M A := fun w => (Throw e, w).

Definition bindM {A B} (m : M A) (k : A -> M B) : M B :=
  fun w =>
    match m w with
    | (Ok a, w') => k a w'
    | (Throw e, w') => (Throw e, w')
    end.

Definition lift {A} (r : result A) : M A := fun w => (r, w).

Definition get : M World := fun w => (Ok w, w).

Definition withDevices (ds : list Device) (w : World) : World :=
  mkWorld ds w.(tunnels) w.(billing) w.(created) w.(queue) w.(dispatched) w.(disconnected).

Definition withTunnels (ts : list Tunnel) (w : World) : World :=
  mkWorld w.(devices) ts w.(billing) w.(created) w.(queue) w.(dispatched) w.(disconnected).

Definition withBilling (b : Billing) (w : World) : World :=
  mkWorld w.(devices) w.(tunnels) b w.(created) w.(queue) w.(dispatched) w.(disconnected).

Definition setDevices (ds : list Device) : M unit := fun w => (Ok tt, withDevices ds w).

Definition setTunnels (ts : list Tunnel) : M unit := fun w => (Ok tt, withTunnels ts w).

Definition setBilling (b : Billing) : M unit := fun w => (Ok tt, withBilling b w).

(** [new Model(...)]: the document gets the next fresh id. *)
Definition newId : M ObjectId :=
  fun w => (Ok (newObjectId w.(created)),
            mkWorld w.(devices) w.(tunnels) w.(billing) (S w.(created)) w.(queue)
                    w.(dispatched) w.(disconnected)).

(** [connections.deviceDisconnect(machineId)] *)
Definition deviceDisconnect (machine : string) : M unit :=
  fun w => (Ok tt, mkWorld w.(devices) w.(tunnels) w.(billing) w.(created) w.(queue)
                           w.(dispatched) (w.(disconnected) ++ [machine])).

(** [dispatcher.apply(...)]: the call is on record whatever it answers. *)
Definition dispatch (call : DispatchCall) : M (list string) :=
  fun w =>
    let (ids, q) := dispatcherApply call w.(queue) in
    (ids, mkWorld w.(devices) w.(tunnels) w.(billing) w.(created) q
                  (w.(dispatched) ++ [call]) w.(disconnected)).

(** [session.abortTransaction()]: the documents are again what they were
    when the transaction started; what happened outside the store is not
    undone. *)
Definition abortTransaction (snapshot w : World) : World :=
  mkWorld snapshot.(devices) snapshot.(tunnels) snapshot.(billing) w.(created)
          w.(queue) w.(dispatched) w.(disconnected).

(** [Service.rejectResponse(e.message || 'Internal Server Error',
    e.status || 500)] *)
Definition rejectOf (e : Error) : Response :=
  rejectResponse
    (if String.eqb e.(message) "" then "Internal Server Error" else e.(message))
    (match e.(status) with
     | Some (S n) => S n
     | _ => 500
     end).

(** A method that opens a session: [inTransaction] runs up to
    [commitTransaction], [afterCommit] from there to the [return]; the
    [catch] aborts the session when it is still open. *)
Definition withSession {A} (inTransaction : M A) (afterCommit : A -> M Response)
  : World -> Response * World :=
  fun w =>
    match inTransaction w with
    | (Throw e, w') => (rejectOf e, abortTransaction w w')
    | (Ok a, w') =>
        match afterCommit a w' with
        | (Throw e, w'') => (rejectOf e, w'')
        | (Ok r, w'') => (r, w'')
        end
    end.

(** A method without a session: [try { ... } catch (e) { reject }]. *)
Definition tryCatch (body : M Response) : World -> Response * World :=
  fun w =>
    match body w with
    | (Throw e, w') => (rejectOf e, w')
    | (Ok r, w') => (r, w')
    end.

End World.

Declare Scope service_scope.
Delimit Scope service_scope with service.
Notation "x '<-' c ';;' k" := (bindM c (fun x => k))
  (at level 100, c at next level, right associativity) : service_scope.
Notation "c ';;' k" := (bindM c (fun _ => k))
  (at level 100, right associativity) : service_scope.

(** ** lodash *)

Module lodash.

(** [uniqBy(array, key)]: the first element of every key, in order;
    [seen] holds the keys met so far. *)
Fixpoint uniqByFrom {A} (key : A -> string) (seen : list string) (array : list A) : list A :=
  match array with
  | [] => []
  | x :: rest =>
      if includes seen (key x) then uniqByFrom key seen rest
      else x :: uniqByFrom key (key x :: seen) rest
  end.

Definition uniqBy {A} (array : list A) (key : A -> string) : list A :=
  uniqByFrom key [] array.

End lodash.

(** [Promise.all(xs.map(async x => ...))], the callbacks taken in order. *)
Fixpoint mapResult {A B} (f : A -> result B) (xs : list A) : result (list B) :=
  match xs with
  | [] => Ok []
  | x :: rest =>
      let* y := f x in
      let* ys := mapResult f rest in
      Ok (y :: ys)
  end.

(** [for (const x of xs) f(x)] where [f] answers nothing but may raise. *)
Fixpoint forEachResult {A} (f : A -> result unit) (xs : list A) : result unit :=
  match xs with
  | [] => Ok tt
  | x :: rest => f x ;;; forEachResult f rest
  end.

(** ** The tunnels service *)

Module TunnelsService.
Section Methods.

Context {C : Collaborators}.
Open Scope service_scope.

(** [tunnelsIdDELETE]: the tunnel is kept and marked inactive. *)
Definition tunnelsIdDELETE (id : ObjectId) (org' : option string) (user : User)
  : World -> Response * World :=
  tryCatch
    (orgList <- lift (getAccessTokenOrgList user org' true) ;;
     w <- get ;;
     let query := fun t : Tunnel =>
       String.eqb t.(tunnel_id) id && includes orgList t.(tunnel_org) in
     match Mongo.findOne query w.(tunnels) with
     | Some _ =>
         setTunnels (Mongo.findOneAndUpdate query (set_isActive false) w.(tunnels)) ;;
         ret (successResponse PNull 204)
     | None => ret (rejectResponse "404" 500)
     end).

(** The operator deactivates the tunnels [ids], one request each. *)
Definition deactivateAll (ids : list ObjectId) (org' : option string) (user : User)
           (w : World) : World :=
  fold_left (fun w id => snd (tunnelsIdDELETE id org' user w)) ids w.

End Methods.
End TunnelsService.

(** ** [backend/services/DevicesService.js] *)

Module DevicesService.
Section Methods.

Context {C : Collaborators}.
Open Scope service_scope.

(** *** [devicesIdDELETE] *)

Definition devicesIdDELETE (id : ObjectId) (org' : option string) (user : User)
  : World -> Response * World :=
  withSession
    (orgList <- lift (getAccessTokenOrgList user org' true) ;;
     w <- get ;;
     let tunnelCount :=
       Mongo.countDocuments
         (fun t : Tunnel =>
            (String.eqb t.(deviceA) id || String.eqb t.(deviceB) id)
            && t.(isActive) && includes orgList t.(tunnel_org))
         w.(tunnels) in
     lift (throwIf (Nat.ltb 0 tunnelCount)
             "All device tunnels must be deleted before deleting a device") ;;
     let delDevices :=
       Mongo.find_ (fun d : Device => String.eqb d.(dev_id) id && includes orgList d.(org))
                   w.(devices) in
     match delDevices with
     | [] => raise (newError "Device for deletion not found")
     | first :: _ =>
         deviceDisconnect first.(machineId) ;;
         let deviceCount :=
           Mongo.countDocuments (fun d : Device => String.eqb d.(account) first.(account))
                                w.(devices) in
         b <- lift (registerDevice first.(account) deviceCount (-1)%Z w.(billing)) ;;
         setBilling b ;;
         setDevices
           (Mongo.remove
              (fun d : Device => String.eqb d.(dev_id) id && includes orgList d.(org))
              w.(devices))
     end)
    (fun _ => ret (successResponse PNull 204)).

(** *** [validateDhcpRequest] *)

Definition validateDhcpRequest (device : Device) (dhcpRequest : DhcpRequest) : result unit :=
  throwIf (String.eqb dhcpRequest.(req_interface) "")
          "Interface is required to define DHCP" ;;;
  match find (fun i => String.eqb i.(pciaddr) dhcpRequest.(req_interface))
             device.(interfaces) with
  | None =>
      Throw (newError ("Unknown interface: " ++ dhcpRequest.(req_interface)
                       ++ " in DHCP parameters"))
  | Some interfaceObj =>
      throwIf (negb (String.eqb interfaceObj.(type) "LAN"))
              "DHCP can be defined only for LAN interfaces" ;;;
      let macLen := List.length dhcpRequest.(req_macAssign) in
      let uniqMacs := lodash.uniqBy dhcpRequest.(req_macAssign) mac in
      let uniqHosts := lodash.uniqBy dhcpRequest.(req_macAssign) host in
      let uniqIPs := lodash.uniqBy dhcpRequest.(req_macAssign) ipv4 in
      throwIf (negb (Nat.eqb (List.length uniqMacs) macLen))
              "MAC bindings MACs are not unique" ;;;
      throwIf (negb (Nat.eqb (List.length uniqHosts) macLen))
              "MAC bindings hosts are not unique" ;;;
      throwIf (negb (Nat.eqb (List.length uniqIPs) macLen))
              "MAC bindings IPs are not unique"
  end.

(** *** [devicesIdDhcpPOST] *)

Definition devicesIdDhcpPOST (id : ObjectId) (org' : option string)
           (dhcpRequest : DhcpRequest) (user : User) : World -> Response * World :=
  withSession
    (orgList <- lift (getAccessTokenOrgList user org' true) ;;
     w <- get ;;
     match Mongo.findOne
             (fun d : Device => String.eqb d.(dev_id) id && includes orgList d.(org))
             w.(devices) with
     | None => raise (newError "Device not found")
     | Some deviceObject =>
         lift (throwIf (negb deviceObject.(isApproved)) "Device must be first approved") ;;
         lift (validateDhcpRequest deviceObject dhcpRequest) ;;
         let dhcpObject :=
           filter (fun s => String.eqb s.(dhcp_interface) dhcpRequest.(req_interface))
                  deviceObject.(dhcp) in
         lift (throwIf (Nat.ltb 0 (List.length dhcpObject))
                 "DHCP already configured for that interface") ;;
         fresh <- newId ;;
         let dhcp := mkDhcp fresh dhcpRequest.(req_interface) dhcpRequest.(req_rangeStart)
                            dhcpRequest.(req_rangeEnd) dhcpRequest.(req_dns)
                            dhcpRequest.(req_macAssign) "add-wait" in
         setDevices
           (Mongo.findOneAndUpdate
              (fun d : Device => String.eqb d.(dev_id) deviceObject.(dev_id))
              (set_dhcp (Mongo.push dhcp)) w.(devices)) ;;
         ret (orgList, deviceObject, dhcp)
     end)
    (fun '(orgList, deviceObject, dhcp) =>
       let copy := mkDhcpData dhcp.(dhcp_id) dhcpRequest.(req_interface)
                              dhcpRequest.(req_rangeStart) dhcpRequest.(req_rangeEnd)
                              dhcpRequest.(req_dns) dhcpRequest.(req_macAssign) "add" in
       _ <- dispatch (mkDispatchCall [deviceObject] "dhcp" user
                                     (DhcpJobData (hd_error orgList) copy)) ;;
       ret (successResponse (PDhcp dhcp) 202)).

(** *** [devicesIdPUT] *)

Definition set_public (port nat_ access : string) (i : Interface) : Interface :=
  mkInterface i.(if_id) i.(if_name) i.(pciaddr) i.(isAssigned) i.(type) i.(IPv4)
              i.(IPv4Mask) i.(gateway) i.(routing) i.(if_dhcp) i.(metric) i.(pathlabels)
              i.(useStun) port nat_ access i.(modified).

Definition set_address (ip mask gw : string) (i : Interface) : Interface :=
  mkInterface i.(if_id) i.(if_name) i.(pciaddr) i.(isAssigned) i.(type) ip
              mask gw i.(routing) i.(if_dhcp) i.(metric) i.(pathlabels)
              i.(useStun) i.(PublicPort) i.(NatType) i.(internetAccess) i.(modified).

Definition set_metric (m : string) (i : Interface) : Interface :=
  mkInterface i.(if_id) i.(if_name) i.(pciaddr) i.(isAssigned) i.(type) i.(IPv4)
              i.(IPv4Mask) i.(gateway) i.(routing) i.(if_dhcp) m i.(pathlabels)
              i.(useStun) i.(PublicPort) i.(NatType) i.(internetAccess) i.(modified).

Definition set_modified (b : bool) (i : Interface) : Interface :=
  mkInterface i.(if_id) i.(if_name) i.(pciaddr) i.(isAssigned) i.(type) i.(IPv4)
              i.(IPv4Mask) i.(gateway) i.(routing) i.(if_dhcp) i.(metric) i.(pathlabels)
              i.(useStun) i.(PublicPort) i.(NatType) i.(internetAccess) b.

(** The query [{ isActive: true, $or: [{ interfaceA: x }, { interfaceB: x }] }] *)
Definition activeOn (x : ObjectId) (t : Tunnel) : bool :=
  t.(isActive) && (String.eqb t.(interfaceA) x || String.eqb t.(interfaceB) x).

(** The same with [pathlabel: { $in: labels }]. *)
Definition activeOnWith (x : ObjectId) (labels : list ObjectId) (t : Tunnel) : bool :=
  activeOn x t &&
  match t.(pathlabel) with
  | Some p => includes labels p
  | None => false
  end.

(** "Check tunnels connectivity": the guard on an interface that is
    assigned in the stored device. *)
Definition checkTunnels (tunnels : list Tunnel) (origIntf updIntf : Interface)
  : result unit :=
  if origIntf.(isAssigned) then
    if negb updIntf.(isAssigned) then
      let numTunnels := Mongo.countDocuments (activeOn origIntf.(if_id)) tunnels in
      throwIf (Nat.ltb 0 numTunnels)
        "Unassigned interface used by existing tunnels, please delete related tunnels before"
    else
      let pathlabels' :=
        match updIntf.(pathlabels) with
        | Some ps => map label_id ps
        | None => []
        end in
      let remLabels :=
        match origIntf.(pathlabels) with
        | Some ps => filter (fun p => negb (includes pathlabels' p.(label_id))) ps
        | None => []
        end in
      if Nat.ltb 0 (List.length remLabels) then
        let remLabelsArray := map label_id remLabels in
        let numTunnels :=
          Mongo.countDocuments (activeOnWith origIntf.(if_id) remLabelsArray) tunnels in
        throwIf (Nat.ltb 0 numTunnels)
          "Removed label used by existing tunnels, please delete related tunnels before"
      else Ok tt
  else Ok tt.

(** The callback of [origDevice.interfaces.map]: the interface that goes
    into the request in the place of [origIntf]. *)
Definition mergeInterface (tunnels : list Tunnel) (requested : list Interface)
           (origIntf : Interface) : result Interface :=
  match find (fun rif => String.eqb origIntf.(if_id) rif.(if_id)) requested with
  | Some updIntf =>
      let updIntf :=
        set_public (if updIntf.(useStun) then origIntf.(PublicPort) else tunnelPort)
                   (if updIntf.(useStun) then origIntf.(NatType) else "Static")
                   origIntf.(internetAccess) updIntf in
      checkTunnels tunnels origIntf updIntf ;;;
      let updIntf :=
        if negb updIntf.(isAssigned) || String.eqb updIntf.(if_dhcp) "yes" then
          set_address origIntf.(IPv4) origIntf.(IPv4Mask) origIntf.(gateway) updIntf
        else updIntf in
      let updIntf :=
        if negb updIntf.(isAssigned) then set_metric origIntf.(metric) updIntf
        else updIntf in
      let updIntf :=
        if negb (Bool.eqb updIntf.(isAssigned) origIntf.(isAssigned))
           || negb (String.eqb updIntf.(type) origIntf.(type))
           || negb (String.eqb updIntf.(if_dhcp) origIntf.(if_dhcp))
           || negb (String.eqb updIntf.(IPv4) origIntf.(IPv4))
           || negb (String.eqb updIntf.(IPv4Mask) origIntf.(IPv4Mask))
           || negb (String.eqb updIntf.(gateway) origIntf.(gateway))
        then set_modified true updIntf
        else updIntf in
      Ok updIntf
  | None => Ok origIntf
  end.

(** "Make sure interfaces are not deleted, only modified": the request
    with its [interfaces] replaced, when it has any. *)
Definition mergeInterfaces (tunnels : list Tunnel) (origDevice : Device)
           (deviceRequest : DeviceRequest) : result DeviceRequest :=
  match deviceRequest.(rq_interfaces) with
  | Some requested =>
      let* merged := mapResult (mergeInterface tunnels requested) origDevice.(interfaces) in
      Ok (mkDeviceRequest deviceRequest.(rq_name) deviceRequest.(rq_isApproved)
                          (Some merged) deviceRequest.(rq_dhcp))
  | None => Ok deviceRequest
  end.

(** [deviceToValidate]: the request under the id of the stored device,
    with the stored interfaces where the request has none.  The
    validators read its name and its interfaces; the other fields are
    filled from the stored device. *)
Definition deviceToValidate (origDevice : Device) (deviceRequest : DeviceRequest) : Device :=
  mkDevice origDevice.(dev_id) origDevice.(org) origDevice.(account) origDevice.(machineId)
           (match deviceRequest.(rq_name) with Some n => n | None => "undefined" end)
           origDevice.(hostname)
           (match deviceRequest.(rq_isApproved) with Some b => b | None => false end)
           origDevice.(agentVersion)
           (match deviceRequest.(rq_interfaces) with
            | Some ifs => ifs
            | None => origDevice.(interfaces)
            end)
           origDevice.(staticroutes)
           (match deviceRequest.(rq_dhcp) with Some hs => hs | None => [] end).

(** "Don't allow to modify/assign/unassign interfaces that are assigned
    with DHCP" *)
Definition checkDhcpConfig (origDevice : Device) (deviceRequest : DeviceRequest)
  : result unit :=
  match deviceRequest.(rq_interfaces) with
  | Some requested =>
      let dhcp' :=
        match deviceRequest.(rq_dhcp) with
        | Some upds =>
            filter (fun orig =>
                      match find (fun upd => String.eqb orig.(dhcp_interface)
                                                        upd.(dhcp_interface)) upds with
                      | Some _ => true
                      | None => false
                      end)
                   origDevice.(dhcp)
        | None => origDevice.(dhcp)
        end in
      let modifiedInterfaces := map pciaddr (filter modified requested) in
      let v := validateDhcpConfig (set_dhcp (fun _ => dhcp') origDevice) modifiedInterfaces in
      if negb v.(valid) then Throw (newError v.(err)) else Ok tt
  | None => Ok tt
  end.

(** The update document [{ ...deviceRequest }] applied to a device. *)
Definition applyRequest (deviceRequest : DeviceRequest) (d : Device) : Device :=
  mkDevice d.(dev_id) d.(org) d.(account) d.(machineId)
           (match deviceRequest.(rq_name) with Some n => n | None => d.(dev_name) end)
           d.(hostname)
           (match deviceRequest.(rq_isApproved) with Some b => b | None => d.(isApproved) end)
           d.(agentVersion)
           (match deviceRequest.(rq_interfaces) with
            | Some ifs => ifs
            | None => d.(interfaces)
            end)
           d.(staticroutes)
           (match deviceRequest.(rq_dhcp) with Some hs => hs | None => d.(dhcp) end).

(** [isRunning]: the device reports the state [running]. *)
Definition isRunning (origDevice : Device) : bool :=
  match getDeviceState origDevice.(machineId) with
  | Some st => String.eqb st "running"
  | None => false
  end.

(** "check LAN subnet overlap if updated device is running" *)
Definition orgLanSubnets (origDevice : Device) (w : World) : list OrgSubnet :=
  if isRunning origDevice && forbidLanSubnetOverlaps
  then getAllOrganizationLanSubnets origDevice.(org) w.(devices)
  else [].

(** Everything [devicesIdPUT] checks before it touches the store or the
    dispatcher: up to and including the call of [validateDevice].  It
    answers the request it will write. *)
Definition checkIntent (origDevice : Device) (deviceRequest : DeviceRequest)
           (w : World) : result DeviceRequest :=
  throwIf (negb origDevice.(isApproved)
           && negb (match deviceRequest.(rq_isApproved) with Some b => b | None => false end))
          "Device must be first approved" ;;;
  let orgLanSubnets := orgLanSubnets origDevice w in
  let* deviceRequest := mergeInterfaces w.(tunnels) origDevice deviceRequest in
  let toValidate := deviceToValidate origDevice deviceRequest in
  match deviceRequest.(rq_dhcp) with
  | Some dhcpRequests =>
      forEachResult (fun h => validateDhcpRequest toValidate (asDhcpRequest h)) dhcpRequests
  | None => Ok tt
  end ;;;
  checkDhcpConfig origDevice deviceRequest ;;;
  let* v := validators.validateDevice toValidate (isRunning origDevice) orgLanSubnets in
  if negb v.(valid) then Throw (newError v.(err)) else Ok deviceRequest.

Definition devicesIdPUT (id : ObjectId) (org' : option string)
           (deviceRequest : DeviceRequest) (user : User) : World -> Response * World :=
  withSession
    (orgList <- lift (getAccessTokenOrgList user org' true) ;;
     w <- get ;;
     let query := fun d : Device => String.eqb d.(dev_id) id && includes orgList d.(org) in
     match Mongo.findOne query w.(devices) with
     | None => raise (newError "Cannot read property 'isApproved' of null")
     | Some origDevice =>
         deviceRequest <- lift (checkIntent origDevice deviceRequest w) ;;
         (match deviceRequest.(rq_isApproved) with
          | Some false => deviceDisconnect origDevice.(machineId)
          | _ => ret tt
          end) ;;
         lift (runValidators deviceRequest) ;;
         let updated := Mongo.findOneAndUpdate query (applyRequest deviceRequest) w.(devices) in
         setDevices updated ;;
         ret (orgList, origDevice, Mongo.findOne query updated)
     end)
    (fun '(orgList, origDevice, updDevice) =>
       ids <- dispatch (mkDispatchCall [origDevice] "modify" user
                                       (ModifyData (hd_error orgList) updDevice)) ;;
       let status := if Nat.ltb 0 (List.length ids) then 202 else 200 in
       match updDevice with
       | Some d => ret (successResponse (PDevice d) status)
       | None => raise (newError "Cannot read property '_id' of null")
       end).

End Methods.
End DevicesService.

(** ** A small installation *)

(** One organization, two devices, one tunnel between them, and simple
    stand-ins for the collaborators: the dispatcher hands a [dhcp] call to
    [dhcp.apply] and queues what it builds. *)
Module Fixture.

Definition majorOf (version : string) : nat :=
  match version with
  | String c _ =>
      match net.digit c with
      | Some d => N.to_nat d
      | None => 0
      end
  | EmptyString => 0
  end.

Definition orgA : ObjectId := "5e0000000000000000000001".

Definition admin : User := mkUser "admin" orgA.

Definition dispatcher (call : DispatchCall) (q : list Job) : result (list string) * list Job :=
  match call.(call_data), call.(call_devices) with
  | DhcpJobData _ data, [device] =>
      match dhcp.apply (majorOf device.(agentVersion)) device call.(call_user) data with
      | Ok jobs => (Ok (map (fun _ => "1") jobs), q ++ jobs)
      | Throw e => (Throw e, q)
      end
  | _, _ => (Ok [], q)
  end.

Definition office : Collaborators := {|
  Billing := Z;
  registerDevice := fun _ _ increment registered => Ok (registered + increment)%Z;
  getAccessTokenOrgList := fun user _ _ => Ok [user.(defaultOrg)];
  dispatcherApply := dispatcher;
  validateDhcpConfig := fun _ _ => mkValidation true "";
  getAllOrganizationLanSubnets := fun _ _ => [];
  getMajorVersion := majorOf;
  tunnelPort := "4789";
  forbidLanSubnetOverlaps := false;
  getDeviceState := fun _ => None;
  runValidators := fun _ => Ok tt;
  newObjectId := fun n => if Nat.eqb n 0 then "5f00000000000000000000d0"
                          else "5f00000000000000000000d1"
|}.

Definition green : PathLabel := mkPathLabel "5f00000000000000000000c1" "green".

Definition ifc (id name pci : string) (assigned : bool) (ty ip mask gw : string)
           (labels : list PathLabel) : Interface :=
  mkInterface id name pci assigned ty ip mask gw "NONE" "no" "0" (Some labels)
              false "4789" "Static" "yes" false.

Definition wan1 : Interface :=
  ifc "5f00000000000000000000a1" "eth0" "0000:00:03.00" true "WAN"
      "192.168.1.10" "24" "192.168.1.1" [green].

Definition lan1 : Interface :=
  ifc "5f00000000000000000000a2" "eth1" "0000:00:08.00" true "LAN"
      "10.0.0.0" "24" "" [].

Definition lan2 : Interface :=
  ifc "5f00000000000000000000a3" "eth2" "0000:00:09.00" true "LAN"
      "10.0.0.128" "25" "" [].

(** An interface the operator has not assigned. *)
Definition spare : Interface :=
  ifc "5f00000000000000000000a4" "eth3" "0000:00:0a.00" false "LAN"
      "172.16.0.1" "24" "" [].

Definition edge1 : Device :=
  mkDevice "5f0000000000000000000001" orgA "5d0000000000000000000001" "machine-1"
           "edge1" "edge1.local" true "1.2.3" [wan1; lan1; lan2; spare] [] [].

Definition edge2 : Device :=
  mkDevice "5f0000000000000000000002" orgA "5d0000000000000000000001" "machine-2"
           "edge2" "edge2.local" true "1.2.3"
           [ifc "5f00000000000000000000b1" "eth0" "0000:00:03.00" true "WAN"
                "192.168.2.10" "24" "192.168.2.1" [green];
            ifc "5f00000000000000000000b2" "eth1" "0000:00:08.00" true "LAN"
                "10.0.2.1" "24" "" []]
           [] [].

Definition tunnel1 : Tunnel :=
  mkTunnel "5f00000000000000000000e1" orgA 1 true edge1.(dev_id) edge2.(dev_id)
           wan1.(if_id) "5f00000000000000000000b1" (Some green.(label_id)).

Definition world0 : @World office :=
  @mkWorld office [edge1; edge2] [tunnel1] 2%Z 0 [] [] [].

(** The same installation without the tunnel. *)
Definition world1 : @World office :=
  @mkWorld office [edge1; edge2] [] 2%Z 0 [] [] [].

Definition dhcpLan1 : DhcpRequest :=
  mkDhcpRequest "0000:00:08.00" "10.0.0.50" "10.0.0.99" ["8.8.8.8"]
                [mkMacAssign "printer" "08:00:27:d0:d2:04" "10.0.0.20"].


(** A DHCP server for the interface that is not assigned. *)
Definition dhcpSpare : DhcpRequest :=
  mkDhcpRequest "0000:00:0a.00" "172.16.0.50" "172.16.0.99" [] [].

(** The installation after the operator has added [dhcpLan1] to [edge1]. *)
Definition afterAdd : @World office :=
  snd (DevicesService.devicesIdDhcpPOST edge1.(dev_id) None dhcpLan1 admin world0).

(** The entry as [devicesIdDhcpPOST] stores it, and as it stands once its
    deletion has been asked for. *)
Definition waiting : Dhcp :=
  mkDhcp "5f00000000000000000000d0" "0000:00:08.00" "10.0.0.50" "10.0.0.99" ["8.8.8.8"]
         [mkMacAssign "printer" "08:00:27:d0:d2:04" "10.0.0.20"] "add-wait".

Definition deleting : Dhcp := set_dhcp_status "del-wait" waiting.

(** What the two jobs carry back to the handlers. *)
Definition addResult : JobResult :=
  mkJobResult (Some edge1.(dev_id)) (Some waiting.(dhcp_id)) "add-dhcp-config".

Definition delResult : JobResult :=
  mkJobResult (Some edge1.(dev_id)) (Some waiting.(dhcp_id)) "remove-dhcp-config".

Definition delData : DhcpData :=
  mkDhcpData waiting.(dhcp_id) "0000:00:08.00" "10.0.0.50" "10.0.0.99" ["8.8.8.8"]
             [mkMacAssign "printer" "08:00:27:d0:d2:04" "10.0.0.20"] "del".

(** [edge1] with the entry waiting for its deletion. *)
Definition edge1Deleting : Device := set_dhcp (fun _ => [deleting]) edge1.


(** Two devices with one WAN and one LAN interface each: on [overlapping]
    the LAN subnet lies inside the WAN subnet, on [disjoint] the two are
    apart. *)
Definition overlapping : Device :=
  mkDevice "5f0000000000000000000003" orgA "5d0000000000000000000001" "machine-3"
           "edge3" "edge3.local" true "1.2.3"
           [ifc "5f00000000000000000000f1" "eth0" "0000:00:03.00" true "WAN"
                "10.0.0.0" "24" "10.0.0.254" [];
            ifc "5f00000000000000000000f2" "eth1" "0000:00:08.00" true "LAN"
                "10.0.0.128" "25" "" []]
           [] [].

Definition disjoint : Device :=
  mkDevice "5f0000000000000000000004" orgA "5d0000000000000000000001" "machine-4"
           "edge4" "edge4.local" true "1.2.3"
           [ifc "5f00000000000000000000f3" "eth0" "0000:00:03.00" true "WAN"
                "10.0.0.0" "24" "10.0.0.254" [];
            ifc "5f00000000000000000000f4" "eth1" "0000:00:08.00" true "LAN"
                "10.0.1.0" "24" "" []]
           [] [].


(** Three requests on [edge1]: the WAN interface taken out of
    assignment, the WAN interface without its path label, and the first
    LAN interface with a gateway. *)
Definition wan1Unassigned : Interface :=
  ifc "5f00000000000000000000a1" "eth0" "0000:00:03.00" false "WAN"
      "192.168.1.10" "24" "192.168.1.1" [green].

Definition wan1Unlabelled : Interface :=
  ifc "5f00000000000000000000a1" "eth0" "0000:00:03.00" true "WAN"
      "192.168.1.10" "24" "192.168.1.1" [].

Definition lan1Gateway : Interface :=
  ifc "5f00000000000000000000a2" "eth1" "0000:00:08.00" true "LAN"
      "10.0.0.0" "24" "10.0.0.254" [].

Definition unassignWan : DeviceRequest :=
  mkDeviceRequest None None (Some [wan1Unassigned]) None.

Definition unlabelWan : DeviceRequest :=
  mkDeviceRequest None None (Some [wan1Unlabelled]) None.

Definition gatewayOnLan : DeviceRequest :=
  mkDeviceRequest None None (Some [lan1Gateway]) None.

(** [gatewayOnLan] as [devicesIdPUT] completes it from the stored
    interfaces. *)
Definition gatewayOnLanMerged : DeviceRequest :=
  mkDeviceRequest None None
    (Some [wan1;
           mkInterface "5f00000000000000000000a2" "eth1" "0000:00:08.00" true "LAN"
                       "10.0.0.0" "24" "10.0.0.254" "NONE" "no" "0" (Some [])
                       false "4789" "Static" "yes" true;
           lan2; spare])
    None.

(** [edge1] once [dhcpLan1] is stored. *)
Definition edge1Waiting : Device := set_dhcp (fun _ => [waiting]) edge1.

End Fixture.

(** * More of the code *)

(** ** JavaScript strings and numbers *)

Module js.

(** [s.includes(needle)] on strings *)
Fixpoint includes (needle s : string) : bool :=
  String.prefix needle s ||
  match s with
  | EmptyString => false
  | String _ rest => includes needle rest
  end.

(** White space and line terminators among the code units below 256. *)
Definition isWhiteSpace (c : ascii) : bool :=
  existsb (N.eqb (N_of_ascii c)) [9; 10; 11; 12; 13; 32; 160]%N.

Fixpoint trimStart (s : string) : string :=
  match s with
  | EmptyString => EmptyString
  | String c rest => if isWhiteSpace c then trimStart rest else s
  end.

Fixpoint reverse (s acc : string) : string :=
  match s with
  | EmptyString => acc
  | String c rest => reverse rest (String c acc)
  end.

(** [s.trim()] *)
Definition trim (s : string) : string :=
  reverse (trimStart (reverse (trimStart s) EmptyString)) EmptyString.

(** [Number(s)] for a string of at most two code units, in tenths; [None]
    is [NaN].  Such a string is a number when, white space apart, it is
    empty, one or two digits, a digit and a point, or a sign and a digit.
    Longer strings are never asked for. *)
Definition numberOfShort (s : string) : option Z :=
  match trim s with
  | EmptyString => Some 0%Z
  | String c EmptyString =>
      match net.digit c with
      | Some d => Some (10 * Z.of_N d)%Z
      | None => None
      end
  | String a (String b EmptyString) =>
      match net.digit a, net.digit b with
      | Some x, Some y => Some (10 * (10 * Z.of_N x + Z.of_N y))%Z
      | Some x, None => if Ascii.eqb b "." then Some (10 * Z.of_N x)%Z else None
      | None, Some y =>
          if Ascii.eqb a "." then Some (Z.of_N y)
          else if Ascii.eqb a "+" then Some (10 * Z.of_N y)%Z
          else if Ascii.eqb a "-" then Some (- (10 * Z.of_N y))%Z
          else None
      | None, None => None
      end
  | _ => None
  end.

(** [array.slice(start, end)] *)
Definition slice {A} (start end_ : Z) (array : list A) : list A :=
  let len := Z.of_nat (List.length array) in
  let k := if (start <? 0)%Z then Z.max (len + start) 0 else Z.min start len in
  let final := if (end_ <? 0)%Z then Z.max (len + end_) 0 else Z.min end_ len in
  firstn (Z.to_nat (final - k)) (skipn (Z.to_nat k) array).

End js.

(** ** The rest of [backend/deviceLogic/validators.js] *)

(** One interface of a modify-device message; [addr] is [None] where the
    object has no such field. *)
Record ModifyInterface := mkModifyInterface { addr : option string }.

(** A modify-device message body: one interface or an array of them. *)
Inductive ModifyDeviceMsg :=
| oneInterface (ifc : ModifyInterface)
| interfaceArray (ifcs : list ModifyInterface).

Module validatorsMore.

(** [isEmpty(val)]: [null], [undefined] or the empty string *)
Definition isEmpty (val : option string) : bool :=
  match val with
  | None => true
  | Some s => String.eqb s ""
  end.

(** [validateIPv4Mask(mask)] *)
Definition validateIPv4Mask (mask : option string) : bool :=
  match mask with
  | None => false
  | Some m =>
      negb (isEmpty mask)
      && Nat.ltb (String.length m) 3
      && match js.numberOfShort m with
         | Some tenths => (0 <=? tenths)%Z && (tenths <=? 320)%Z
         | None => false
         end
  end.

(** The body of the loop of [validateModifyDeviceMsg]. *)
Definition checkAddress (ifc : ModifyInterface) : option Validation :=
  let parts :=
    net.split "/" (match ifc.(addr) with
                   | Some a => if String.eqb a "" then "/" else a
                   | None => "/"
                   end) in
  let ip := hd EmptyString parts in
  let mask := hd_error (tl parts) in
  if negb (net.isIPv4 ip) || negb (validateIPv4Mask mask) then
    Some (mkValidation false
            ("Bad request: Invalid IP address "
             ++ match ifc.(addr) with Some a => a | None => "undefined" end))
  else None.

(** [validateModifyDeviceMsg(modifyDeviceMsg)] *)
Definition validateModifyDeviceMsg (modifyDeviceMsg : ModifyDeviceMsg) : Validation :=
  let msg :=
    match modifyDeviceMsg with
    | interfaceArray ifcs => ifcs
    | oneInterface ifc => [ifc]
    end in
  match forOf msg checkAddress with
  | Some r => r
  | None => mkValidation true ""
  end.

(** [getAllOrganiztionLanSubnets(orgId)]: the aggregation over the devices
    of the organization, one entry for every assigned LAN interface. *)
Definition getAllOrganiztionLanSubnets (orgId : ObjectId) (devices : list Device)
  : list OrgSubnet :=
  let subnets :=
    map (fun d =>
           map (fun lanSubnet =>
                  mkOrgSubnet d.(dev_name) (lanSubnet.(IPv4) ++ "/" ++ lanSubnet.(IPv4Mask)))
               (filter (fun interface =>
                          Bool.eqb interface.(isAssigned) true
                          && String.eqb interface.(type) "LAN")
                       d.(interfaces)))
        (filter (fun d => String.eqb d.(org) orgId) devices) in
  fold_left (fun acc val => acc ++ val) subnets [].

End validatorsMore.

(** [device] with other interfaces. *)
Definition set_interfaces (ifs : list Interface) (d : Device) : Device :=
  mkDevice d.(dev_id) d.(org) d.(account) d.(machineId) d.(dev_name) d.(hostname)
           d.(isApproved) d.(agentVersion) ifs d.(staticroutes) d.(dhcp).

(** ** The other DHCP methods of [DevicesService.js] *)

(** What a method that lists DHCP servers answers. *)
Inductive ListResponse :=
| successList (payload : list Dhcp) (code : nat)
| rejectList (error : string) (code : nat).

Module DevicesServiceDhcp.
Section Methods.

Context {C : Collaborators}.
Open Scope service_scope.

(** The query [{ _id: id, org: { $in: orgList } }] *)
Definition inScope (id : ObjectId) (orgList : list ObjectId) (d : Device) : bool :=
  String.eqb d.(dev_id) id && includes orgList d.(org).

(** The job data made from a stored entry: [Object.assign({}, entry)] with
    [_id] and [action] set. *)
Definition jobData (id : ObjectId) (entry : Dhcp) (action : string) : DhcpData :=
  mkDhcpData id entry.(dhcp_interface) entry.(rangeStart) entry.(rangeEnd) entry.(dns)
             entry.(macAssign) action.

(** [devicesIdDhcpDhcpIdDELETE]: there is no session; the update returns
    the device as it was ([new: false]). *)
Definition devicesIdDhcpDhcpIdDELETE (id dhcpId : ObjectId) (force org' : option string)
           (user : User) : World -> Response * World :=
  tryCatch
    (let isForce := match force with Some f => String.eqb f "yes" | None => false end in
     orgList <- lift (getAccessTokenOrgList user org' true) ;;
     w <- get ;;
     let device := Mongo.findOne (inScope id orgList) w.(devices) in
     setDevices
       (Mongo.findOneAndUpdate (inScope id orgList)
          (set_dhcp (Mongo.setElem dhcp_id dhcpId (set_dhcp_status "del-wait")))
          w.(devices)) ;;
     match device with
     | None => raise (newError "Device not found")
     | Some device =>
         let deleteDhcp := filter (fun s => String.eqb s.(dhcp_id) dhcpId) device.(dhcp) in
         match deleteDhcp with
         | [deleteDhcpObj] =>
             (if negb (String.eqb deleteDhcpObj.(dhcp_status) "del-wait") then
                _ <- dispatch (mkDispatchCall [device] "dhcp" user
                                 (DhcpJobData (hd_error orgList)
                                              (jobData dhcpId deleteDhcpObj "del"))) ;;
                ret tt
              else ret tt) ;;
             (if isForce then
                w' <- get ;;
                setDevices
                  (Mongo.findOneAndUpdate
                     (fun d => String.eqb d.(dev_id) device.(dev_id))
                     (set_dhcp (Mongo.pull dhcp_id dhcpId)) w'.(devices))
              else ret tt) ;;
             ret (successResponse PEmpty 202)
         | _ => raise (newError "DHCP ID not found")
         end
     end).

(** [devicesIdDhcpDhcpIdGET] *)
Definition devicesIdDhcpDhcpIdGET (id dhcpId : ObjectId) (org' : option string)
           (user : User) : World -> Response * World :=
  tryCatch
    (orgList <- lift (getAccessTokenOrgList user org' true) ;;
     w <- get ;;
     match Mongo.findOne (inScope id orgList) w.(devices) with
     | None => raise (newError "Device not found")
     | Some device =>
         let resultDhcp := filter (fun s => String.eqb s.(dhcp_id) dhcpId) device.(dhcp) in
         match resultDhcp with
         | [entry] => ret (successResponse (PDhcp entry) 200)
         | _ => raise (newError "DHCP ID not found")
         end
     end).

(** [devicesIdDhcpDhcpIdPATCH]: a failed add or delete is sent again. *)
Definition devicesIdDhcpDhcpIdPATCH (id dhcpId : ObjectId) (org' : option string)
           (user : User) : World -> Response * World :=
  tryCatch
    (orgList <- lift (getAccessTokenOrgList user org' true) ;;
     w <- get ;;
     match Mongo.findOne (inScope id orgList) w.(devices) with
     | None => raise (newError "Device not found")
     | Some deviceObject =>
         lift (throwIf (negb deviceObject.(isApproved)) "Device must be first approved") ;;
         lift (throwIf (existsb (fun d => js.includes "wait" d.(dhcp_status))
                                deviceObject.(dhcp))
                       "Only one device change is allowed at any time") ;;
         let dhcpFiltered :=
           filter (fun s => String.eqb s.(dhcp_id) dhcpId) deviceObject.(dhcp) in
         match dhcpFiltered with
         | [dhcpObject] =>
             lift (throwIf (negb (String.eqb dhcpObject.(dhcp_status) "add-failed")
                            && negb (String.eqb dhcpObject.(dhcp_status) "remove-failed"))
                           "Only allowed for add or removed failed jobs") ;;
             let action :=
               if String.eqb dhcpObject.(dhcp_status) "add-failed" then "add" else "del" in
             _ <- dispatch (mkDispatchCall [deviceObject] "dhcp" user
                              (DhcpJobData (hd_error orgList)
                                           (jobData dhcpObject.(dhcp_id) dhcpObject action))) ;;
             ret (successResponse (PDhcp dhcpObject) 202)
         | _ => raise (newError "DHCP ID not found")
         end
     end).

(** [offset || 0] and [limit || device.dhcp.length] *)
Definition orElseZ (x : option Z) (default : Z) : Z :=
  match x with
  | Some z => if (z =? 0)%Z then default else z
  | None => default
  end.

(** The page of [devicesIdDhcpGET]. *)
Definition page (offset limit : option Z) (entries : list Dhcp) : list Dhcp :=
  let length := Z.of_nat (List.length entries) in
  let start := orElseZ offset 0 in
  let size := orElseZ limit length in
  if (0 <? length)%Z && (start <? length)%Z then
    let end_ := Z.min (start + size) length in
    js.slice start end_ entries
  else [].

(** [devicesIdDhcpGET] *)
Definition devicesIdDhcpGET (id : ObjectId) (offset limit : option Z) (org' : option string)
           (user : User) (w : World) : ListResponse :=
  match getAccessTokenOrgList user org' false with
  | Throw e =>
      match rejectOf e with
      | rejectResponse msg code => rejectList msg code
      | successResponse _ code => rejectList "" code
      end
  | Ok orgList =>
      match Mongo.findOne (inScope id orgList) w.(devices) with
      | None => rejectList "Device not found" 500
      | Some device => successList (page offset limit device.(dhcp)) 200
      end
  end.

End Methods.
End DevicesServiceDhcp.

(** ** [backend/migrations/1607600926132-pci_to_dev_id.js] *)

Module pci_to_dev_id.
Section Documents.

(** The fields of an interface document the migration does not read. *)
Variable Rest : Type.

(** An interface as [find({}).lean()] hands it over: a field the document
    lacks is [None]. *)
Record LeanInterface := mkLeanInterface {
  lean_pciaddr : option string;
  devId : option string;
  deviceType : option string;
  rest : Rest
}.

Record LeanDevice := mkLeanDevice {
  lean_id : ObjectId;
  lean_interfaces : option (list LeanInterface)
}.

(** [x || ''] *)
Definition orEmpty (x : option string) : string :=
  match x with Some s => s | None => EmptyString end.

(** [if (x) delete i.x]: the field goes when it holds a non-empty string. *)
Definition deleteIfSet (x : option string) : option string :=
  match x with
  | Some s => if String.eqb s "" then x else None
  | None => None
  end.

(** The callback of [interfaces.map] in [up]. *)
Definition upInterface (i : LeanInterface) : LeanInterface :=
  let devId := orEmpty i.(lean_pciaddr) in
  mkLeanInterface (deleteIfSet i.(lean_pciaddr)) (Some ("pci:" ++ devId)%string)
                  (Some (orEmpty i.(deviceType))) i.(rest).

(** The callback of [interfaces.map] in [down]. *)
Definition downInterface (i : LeanInterface) : LeanInterface :=
  let pciaddr := orEmpty i.(devId) in
  mkLeanInterface (Some pciaddr) (deleteIfSet i.(devId)) i.(deviceType) i.(rest).

(** The loop of both directions: every document read at the start has its
    interfaces, if it has any, written back through [updateOne]. *)
Definition migrate (f : LeanInterface -> LeanInterface) (devices : list LeanDevice)
  : list LeanDevice :=
  fold_left
    (fun store deviceDoc =>
       match deviceDoc.(lean_interfaces) with
       | Some interfaces =>
           let updated := map f interfaces in
           Mongo.findOneAndUpdate
             (fun d => String.eqb d.(lean_id) deviceDoc.(lean_id))
             (fun d => mkLeanDevice d.(lean_id) (Some updated)) store
       | None => store
       end)
    devices devices.

(** What one [updateOne] of the loop makes of the document it matches. *)
Definition onDocument (f : LeanInterface -> LeanInterface) (d : LeanDevice) : LeanDevice :=
  match d.(lean_interfaces) with
  | Some interfaces => mkLeanDevice d.(lean_id) (Some (map f interfaces))
  | None => d
  end.

Definition up (devices : list LeanDevice) : list LeanDevice := migrate upInterface devices.

Definition down (devices : list LeanDevice) : list LeanDevice := migrate downInterface devices.

End Documents.
End pci_to_dev_id.

(** ** What an update leaves alone *)

(** A device without its static routes, and a route without its status:
    what is left is what an update of the routes, or of a status, must not
    have touched. *)
Definition withoutRoutes (d : Device) : Device := set_staticroutes (fun _ => []) d.

Definition withoutStatus (r : StaticRoute) : StaticRoute := set_route_status "" r.

(** A DHCP entry without its status. *)
Definition withoutDhcpStatus (h : Dhcp) : Dhcp := set_dhcp_status "" h.

(** A device without its DHCP entries. *)
Definition withoutDhcp (d : Device) : Device := set_dhcp (fun _ => []) d.

(** The first step of [devicesIdDhcpDhcpIdDELETE]: the entries of the id
    are marked [del-wait]. *)
Definition markDeleting (dhcpId : ObjectId) : Device -> Device :=
  set_dhcp (Mongo.setElem dhcp_id dhcpId (set_dhcp_status "del-wait")).

(** [coll'] is [coll] with at most the first document that matches [q]
    replaced, by [u] of it. *)
Definition firstMatchUpdated {A} (q : A -> bool) (u : A -> A) (coll coll' : list A) : Prop :=
  coll' = coll
  \/ exists before d after,
      coll = before ++ d :: after
      /\ (forall x, In x before -> q x = false)
      /\ q d = true
      /\ coll' = before ++ u d :: after.

(** ** More of the small installation *)

Module Cases.

Import Fixture.

(** [edge1] with an agent of version 0, for which [dhcp.apply] raises. *)
Definition legacy : Device :=
  mkDevice "5f0000000000000000000001" orgA "5d0000000000000000000001" "machine-1"
           "edge1" "edge1.local" true "0.9.1" [wan1; lan1; lan2; spare] [] [].

Definition legacyWaiting : Device := set_dhcp (fun _ => [waiting]) legacy.

(** The entry of [dhcpLan1] after its job has failed. *)
Definition failed : Dhcp := set_dhcp_status "add-failed" waiting.

Definition edge1Failed : Device := set_dhcp (fun _ => [failed]) edge1.

(** A second entry of [edge1], for the second LAN interface. *)
Definition second : Dhcp :=
  mkDhcp "5f00000000000000000000d2" "0000:00:09.00" "10.0.0.150" "10.0.0.199" [] []
         "complete".

Definition edge1Both : Device := set_dhcp (fun _ => [failed; second]) edge1.

(** The installation with [device] in the place of [edge1], and no
    tunnel. *)
Definition worldOf (device : Device) : @World office :=
  @mkWorld office [device; edge2] [] 2%Z 1 [] [] [].

(** The job [dhcp.apply] queues for [delData] on [edge1]. *)
Definition delJob : Job :=
  mkJob "machine-1" "admin" orgA "Delete DHCP in device edge1.local"
        [mkTask "agent" "remove-dhcp-config" "0000:00:08.00" "10.0.0.50" "10.0.0.99"
                ["8.8.8.8"] [mkMacAssign "printer" "08:00:27:d0:d2:04" "10.0.0.20"]]
        "dhcp" delResult "low" 1 false "inactive".

(** [edge1] with a static route under the id of its DHCP entry. *)
Definition edge1Routed : Device :=
  set_staticroutes
    (fun _ => [mkStaticRoute waiting.(dhcp_id) "10.1.0.0/16" "192.168.1.1" "eth0" "" "add-wait"])
    edge1Waiting.

(** A LAN subnet of another device of the organization, inside the first
    LAN subnet of [edge1]. *)
Definition branch : OrgSubnet := mkOrgSubnet "edge9" "10.0.0.64/26".

(** Two bodies of a modify-device message. *)
Definition addressed : ModifyInterface := mkModifyInterface (Some "10.0.0.1/24").

Definition unaddressed : ModifyInterface := mkModifyInterface (Some "10.0.0.1").

(** Two device documents as they were before the migration: one with two
    interfaces, one without the [interfaces] field. *)
Definition leanEdge : pci_to_dev_id.LeanDevice nat :=
  pci_to_dev_id.mkLeanDevice "5f0000000000000000000001"
    (Some [pci_to_dev_id.mkLeanInterface (Some "0000:00:03.00") None None 0;
           pci_to_dev_id.mkLeanInterface (Some "0000:00:08.00") None (Some "dpdk") 1]).

Definition leanBare : pci_to_dev_id.LeanDevice nat :=
  pci_to_dev_id.mkLeanDevice "5f0000000000000000000002" None.

(** A second organization, which [admin] has no access to, and an active
    tunnel between [edge1] and [edge2] filed under it. *)
Definition orgB : ObjectId := "5e0000000000000000000002".

Definition strayTunnel : Tunnel :=
  mkTunnel "5f00000000000000000000e2" orgB 2 true edge1.(dev_id) edge2.(dev_id)
           wan1.(if_id) "5f00000000000000000000b1" (Some green.(label_id)).

Definition worldStray : @World office :=
  @mkWorld office [edge1; edge2] [strayTunnel] 2%Z 0 [] [] [].

(** Another DHCP server for the interface of [waiting], and the body of a
    [PUT] that carries both. *)
Definition third : Dhcp :=
  mkDhcp "5f00000000000000000000d3" "0000:00:08.00" "10.0.0.100" "10.0.0.120" [] []
         "complete".

Definition twoServers : DeviceRequest :=
  mkDeviceRequest None None None (Some [waiting; third]).

End Cases.

(** * Properties *)

(** ** The store *)

Section StoreFacts.

Variable A : Type.
Variables (q : A -> bool) (u : A -> A).

Lemma findOneAndUpdate_twice :
  (forall d, q (u d) = q d) ->
  (forall d, u (u d) = u d) ->
  forall coll,
    Mongo.findOneAndUpdate q u (Mongo.findOneAndUpdate q u coll)
    = Mongo.findOneAndUpdate q u coll.
Proof.
  intros Hq Hu coll.
  induction coll as [|d rest IH]; simpl; [reflexivity|].
  destruct (q d) eqn:Hd; simpl.
  - rewrite Hq, Hd, Hu. reflexivity.
  - rewrite Hd, IH. reflexivity.
Qed.

Lemma findOneAndUpdate_map (B : Type) (f : A -> B) :
  (forall d, f (u d) = f d) ->
  forall coll, map f (Mongo.findOneAndUpdate q u coll) = map f coll.
Proof.
  intros Hf coll.
  induction coll as [|d rest IH]; simpl; [reflexivity|].
  destruct (q d); simpl; [rewrite Hf|rewrite IH]; reflexivity.
Qed.

Lemma findOneAndUpdate_no_match :
  forall coll, (forall d, In d coll -> q d = false) ->
               Mongo.findOneAndUpdate q u coll = coll.
Proof.
  induction coll as [|d rest IH]; simpl; intros H; [reflexivity|].
  rewrite (H d (or_introl eq_refl)), IH; auto.
Qed.

End StoreFacts.

Lemma pull_twice (A : Type) (key : A -> ObjectId) (x : ObjectId) (arr : list A) :
  Mongo.pull key x (Mongo.pull key x arr) = Mongo.pull key x arr.
Proof.
  unfold Mongo.pull.
  induction arr as [|e rest IH]; simpl; [reflexivity|].
  destruct (String.eqb (key e) x) eqn:He; simpl; [exact IH|].
  rewrite He; simpl. rewrite IH. reflexivity.
Qed.

Lemma setElem_twice (A : Type) (key : A -> ObjectId) (x : ObjectId) (upd : A -> A)
      (arr : list A) :
  (forall e, key (upd e) = key e) ->
  (forall e, upd (upd e) = upd e) ->
  Mongo.setElem key x upd (Mongo.setElem key x upd arr) = Mongo.setElem key x upd arr.
Proof.
  intros Hk Hu. unfold Mongo.setElem. rewrite map_map.
  apply map_ext. intros e.
  destruct (String.eqb (key e) x) eqn:He.
  - rewrite Hk, He, Hu. reflexivity.
  - rewrite He. reflexivity.
Qed.

(** ** The job handlers of [dhcp.js] *)

Section Reconciliation.

Lemma byId_set_staticroutes x f d : byId x (set_staticroutes f d) = byId x d.
Proof. destruct x; reflexivity. Qed.

Lemma byId_setRouteStatus x rid s d : byId x (dhcp.setRouteStatus rid s d) = byId x d.
Proof. destruct rid; [apply byId_set_staticroutes | reflexivity]. Qed.

Lemma dhcp_setRouteStatus rid s d : dhcp (dhcp.setRouteStatus rid s d) = dhcp d.
Proof. destruct rid; reflexivity. Qed.

(** None of the three handlers writes to the [dhcp] array of any device:
    what they update is [staticroutes]. *)
Lemma complete_keeps_dhcp jobId res devices :
  map dhcp (dhcp.complete jobId res devices) = map dhcp devices.
Proof.
  unfold dhcp.complete.
  destruct res as [res|]; [|reflexivity].
  destruct (deviceId res); [|reflexivity].
  destruct (routeId res); [|reflexivity].
  destruct (String.eqb (res_message res) ""); [reflexivity|].
  destruct (String.eqb (res_message res) "remove-route");
    apply findOneAndUpdate_map; reflexivity.
Qed.

Lemma error_keeps_dhcp jobId res devices :
  map dhcp (dhcp.error jobId res devices) = map dhcp devices.
Proof.
  unfold dhcp.error.
  destruct res as [res|]; [|reflexivity].
  destruct (String.eqb (res_message res) "remove-route");
    apply findOneAndUpdate_map; intros d; apply dhcp_setRouteStatus.
Qed.

Lemma remove_keeps_dhcp job devices :
  map dhcp (dhcp.remove job devices) = map dhcp devices.
Proof.
  unfold dhcp.remove.
  destruct (includes _ _); [|reflexivity].
  apply findOneAndUpdate_map; intros d; apply dhcp_setRouteStatus.
Qed.

(** A job that has reached a final state is removed without any change
    of the store. *)
Lemma remove_finished job devices :
  includes ["inactive"; "delayed"; "active"] job.(_state) = false ->
  dhcp.remove job devices = devices.
Proof. unfold dhcp.remove. intros ->. reflexivity. Qed.

(** C9. Delivering the same completion a second time changes nothing:
    for every job id, result and store, [complete] applied twice leaves
    the devices as one application does. *)
Theorem complete_idempotent :
  forall (jobId : nat) (res : option JobResult) (devices : list Device),
    dhcp.complete jobId res (dhcp.complete jobId res devices)
    = dhcp.complete jobId res devices.
Proof.
  intros jobId res devices. unfold dhcp.complete.
  destruct res as [res|]; [|reflexivity].
  destruct (deviceId res) as [did|]; [|reflexivity].
  destruct (routeId res) as [rid|]; [|reflexivity].
  destruct (String.eqb (res_message res) ""); [reflexivity|].
  destruct (String.eqb (res_message res) "remove-route").
  - apply findOneAndUpdate_twice; intros d.
    + apply byId_set_staticroutes.
    + destruct d; unfold set_staticroutes; simpl. rewrite pull_twice. reflexivity.
  - apply findOneAndUpdate_twice; intros d.
    + apply byId_set_staticroutes.
    + destruct d; unfold set_staticroutes; simpl.
      rewrite setElem_twice; reflexivity.
Qed.

(** C1. At the completion of an add job the entry is still [add-wait],
    and at the completion of a delete job it is still in the array:
    [complete] looks for a static route under the id of the DHCP entry
    and compares the message with [remove-route]. *)
Theorem complete_misses_dhcp_entry :
  map response_data (queue Fixture.afterAdd) = [Fixture.addResult]
  /\ flat_map dhcp (dhcp.complete 1 (Some Fixture.addResult) (devices Fixture.afterAdd))
     = [Fixture.waiting]
  /\ option_map (map response_data)
       (match dhcp.apply 1 Fixture.edge1Deleting Fixture.admin Fixture.delData with
        | Ok jobs => Some jobs
        | Throw _ => None
        end) = Some [Fixture.delResult]
  /\ flat_map dhcp (dhcp.complete 2 (Some Fixture.delResult) [Fixture.edge1Deleting])
     = [Fixture.deleting].
Proof. repeat split; reflexivity. Qed.

(** C2. At the failure of an add job the entry is still [add-wait], at
    the failure of a delete job still [del-wait]: [error] writes the
    failed status to a static route of that id, if there is one. *)
Theorem error_misses_dhcp_entry :
  flat_map dhcp (dhcp.error 1 (Some Fixture.addResult) (devices Fixture.afterAdd))
  = [Fixture.waiting]
  /\ flat_map dhcp (dhcp.error 2 (Some Fixture.delResult) [Fixture.edge1Deleting])
     = [Fixture.deleting].
Proof. repeat split; reflexivity. Qed.

(** C3. When the queued add job is removed the entry is still
    [add-wait]: [remove] writes [job-deleted] to a static route of that
    id, if there is one. *)
Theorem remove_misses_dhcp_entry :
  map _state (queue Fixture.afterAdd) = ["inactive"]
  /\ map (fun job => flat_map dhcp (dhcp.remove job (devices Fixture.afterAdd)))
         (queue Fixture.afterAdd)
     = [[Fixture.waiting]].
Proof. split; reflexivity. Qed.

End Reconciliation.

(** ** [validateDevice] *)

Section Loops.

Variables (A R : Type).

Lemma forOf_returns (body : A -> option R) (xs : list A) (r : R) :
  forOf xs body = Some r -> exists x, In x xs /\ body x = Some r.
Proof.
  induction xs as [|x rest IH]; simpl; [discriminate|].
  destruct (body x) eqn:Hx.
  - intros [= <-]. exists x; auto.
  - intros H. destruct (IH H) as (y & Hy & Hb). exists y; auto.
Qed.

Lemma forOf_falls_through (body : A -> option R) (xs : list A) :
  forOf xs body = None <-> (forall x, In x xs -> body x = None).
Proof.
  induction xs as [|x rest IH]; simpl.
  - split; [intros _ x [] | reflexivity].
  - destruct (body x) eqn:Hx.
    + split; [discriminate|]. intros H. rewrite <- Hx. apply H; auto.
    + rewrite IH. split.
      * intros H y [<-|Hy]; auto.
      * intros H y Hy. apply H; auto.
Qed.

End Loops.

Section DeviceValidation.

Import validators.

(** Case analysis on the innermost test of the goal. *)
Ltac plain c :=
  lazymatch c with
  | context [if _ then _ else _] => fail
  | context [match _ with Some _ => _ | None => _ end] => fail
  | _ => idtac
  end.

Ltac split_ifs :=
  repeat (match goal with
          | |- context [if ?c then _ else _] => plain c; destruct c eqn:?
          | |- context [match ?c with Some _ => _ | None => _ end] =>
              plain c; destruct c eqn:?
          end; cbv beta iota).

(** Whatever a loop body hands back ends the validation with a refusal. *)
Lemma checkInterface_refuses ifc r : checkInterface ifc = Some r -> accepted r = false.
Proof.
  unfold checkInterface, invalid.
  split_ifs; intros H; inversion H; reflexivity.
Qed.

Lemma checkWanLan_refuses w l r : checkWanLan w l = Some r -> accepted r = false.
Proof.
  unfold checkWanLan, invalid.
  destruct (cidr.overlap _ _) as [[|]|e]; intros H; inversion H; reflexivity.
Qed.

Lemma checkOrgSubnet_refuses d o l r : checkOrgSubnet d o l = Some r -> accepted r = false.
Proof.
  unfold checkOrgSubnet, invalid.
  destruct (String.eqb _ _); [discriminate|].
  destruct (cidr.overlap _ _) as [[|]|e]; intros H; inversion H; reflexivity.
Qed.

Lemma assignedOf_In ty device ifc :
  In ifc (assignedOf ty device)
  <-> In ifc device.(interfaces) /\ ifc.(isAssigned) = true /\ ifc.(type) = ty.
Proof.
  unfold assignedOf. rewrite !filter_In, String.eqb_eq. tauto.
Qed.

(** The shape of [validateDevice]: the early refusal, then three loops. *)
Lemma validateDevice_accepts_iff device checkOverlap subnets :
  accepted (validateDevice device checkOverlap subnets) = true <->
  (Nat.ltb (List.length (filter isAssigned device.(interfaces))) 2
   || (Nat.eqb (List.length (assignedOf "WAN" device)) 0
       || Nat.eqb (List.length (assignedOf "LAN" device)) 0) = false)
  /\ forOf (filter isAssigned device.(interfaces)) checkInterface = None
  /\ forOf (assignedOf "WAN" device)
           (fun w => forOf (assignedOf "LAN" device) (checkWanLan w)) = None
  /\ (if checkOverlap && Nat.ltb 0 (List.length subnets) then
        forOf subnets (fun o => forOf (assignedOf "LAN" device) (checkOrgSubnet device o))
      else None) = None.
Proof.
  unfold validateDevice, assignedOf.
  destruct (Nat.ltb _ 2 || _); simpl; [intuition discriminate|].
  destruct (forOf (filter isAssigned _) checkInterface) as [r|] eqn:H1; simpl.
  { apply forOf_returns in H1 as (x & _ & Hx). apply checkInterface_refuses in Hx.
    rewrite Hx. intuition discriminate. }
  destruct (forOf _ (fun w => forOf _ (checkWanLan w))) as [r|] eqn:H2; simpl.
  { apply forOf_returns in H2 as (w & _ & Hw). apply forOf_returns in Hw as (l & _ & Hl).
    apply checkWanLan_refuses in Hl. rewrite Hl. intuition discriminate. }
  destruct (if checkOverlap && _ then _ else None) as [r|] eqn:H3; simpl.
  { destruct (checkOverlap && _); [|discriminate].
    apply forOf_returns in H3 as (o & _ & Ho). apply forOf_returns in Ho as (l & _ & Hl).
    apply checkOrgSubnet_refuses in Hl. rewrite Hl. intuition discriminate. }
  intuition.
Qed.

Lemma validateDevice_verdict device checkOverlap subnets :
  accepted (validateDevice device checkOverlap subnets) = true ->
  validateDevice device checkOverlap subnets = Ok (mkValidation true "").
Proof.
  intros H. pose proof H as H'.
  apply validateDevice_accepts_iff in H' as (H0 & H1 & H2 & H3).
  unfold validateDevice. fold (assignedOf "WAN" device). fold (assignedOf "LAN" device).
  rewrite H0, H1, H2, H3. reflexivity.
Qed.

Lemma checkInterface_passes ifc : interfaceRules ifc -> checkInterface ifc = None.
Proof.
  intros (Hty & Hip & Hmask & Hlan & Hwan).
  unfold checkInterface. rewrite Hip.
  apply String.eqb_neq in Hmask. rewrite Hmask. simpl.
  destruct Hty as [Hty|Hty]; rewrite Hty; simpl.
  - destruct (Hwan Hty) as [Hospf Hgw].
    apply String.eqb_neq in Hospf. rewrite Hospf, Hgw. reflexivity.
  - destruct (Hlan Hty) as [-> ->]. reflexivity.
Qed.

(** Interfaces of two different types are different interfaces. *)
Lemma two_types_two_interfaces (p q : Interface -> bool) (ifs : list Interface) :
  (forall i, p i = true -> q i = false) ->
  List.length (filter p ifs) + List.length (filter q ifs) <= List.length ifs.
Proof.
  intros Hpq. induction ifs as [|i rest IH]; simpl; [lia|].
  destruct (p i) eqn:Hp; [rewrite (Hpq i Hp)|destruct (q i)]; simpl; lia.
Qed.

Lemma assignedOf_length device :
  List.length (assignedOf "WAN" device) + List.length (assignedOf "LAN" device)
  <= List.length (filter isAssigned device.(interfaces)).
Proof.
  unfold assignedOf. apply two_types_two_interfaces.
  intros i Hi. apply String.eqb_eq in Hi. rewrite Hi. reflexivity.
Qed.

(** C4, as the code has it. An assigned WAN interface and an assigned LAN
    interface with overlapping subnets make [validateDevice] refuse the
    device; a device with both kinds of interface, whose assigned
    interfaces keep the interface rules and on which no assigned WAN
    subnet overlaps an assigned LAN subnet, is accepted when the check
    against the organization is off.  Overlap is that of the two address
    ranges; the LAN interfaces of the device are not compared with each
    other. *)
Theorem wan_lan_overlap_decides :
  (forall device checkOverlap subnets wanIfc lanIfc,
      In wanIfc (assignedOf "WAN" device) ->
      In lanIfc (assignedOf "LAN" device) ->
      cidr.overlap (subnetOf wanIfc) (subnetOf lanIfc) = Ok true ->
      accepted (validateDevice device checkOverlap subnets) = false)
  /\
  (forall device subnets,
      assignedOf "WAN" device <> [] ->
      assignedOf "LAN" device <> [] ->
      (forall ifc, In ifc device.(interfaces) -> ifc.(isAssigned) = true ->
                   interfaceRules ifc) ->
      (forall wanIfc lanIfc,
          In wanIfc (assignedOf "WAN" device) ->
          In lanIfc (assignedOf "LAN" device) ->
          cidr.overlap (subnetOf wanIfc) (subnetOf lanIfc) = Ok false) ->
      validateDevice device false subnets = Ok (mkValidation true "")).
Proof.
  split.
  - intros device checkOverlap subnets w l Hw Hl Hov.
    destruct (accepted _) eqn:Hacc; [|reflexivity].
    apply validateDevice_accepts_iff in Hacc as (_ & _ & H2 & _).
    rewrite forOf_falls_through in H2. specialize (H2 w Hw).
    rewrite forOf_falls_through in H2. specialize (H2 l Hl).
    unfold checkWanLan in H2. rewrite Hov in H2. discriminate.
  - intros device subnets Hwan Hlan Hrules Hfree.
    apply validateDevice_verdict. apply validateDevice_accepts_iff.
    repeat split.
    + pose proof (assignedOf_length device) as Hlen.
      destruct (assignedOf "WAN" device) as [|w ws]; [contradiction|].
      destruct (assignedOf "LAN" device) as [|l ls]; [contradiction|].
      simpl in Hlen. simpl Nat.eqb. rewrite !orb_false_r.
      apply Nat.ltb_ge. lia.
    + apply forOf_falls_through. intros ifc Hin.
      apply filter_In in Hin as [Hin Has].
      apply checkInterface_passes, Hrules; assumption.
    + apply forOf_falls_through. intros w Hw.
      apply forOf_falls_through. intros l Hl.
      unfold checkWanLan. rewrite (Hfree w l Hw Hl). reflexivity.
Qed.

Lemma wan_lan_overlap_witness :
  accepted (validateDevice Fixture.overlapping true
                           [mkOrgSubnet "edge9" "10.77.0.0/16"]) = false
  /\ validateDevice Fixture.disjoint false [] = Ok (mkValidation true "").
Proof.
  destruct wan_lan_overlap_decides as [Hrefuse Haccept]. split.
  - apply (Hrefuse Fixture.overlapping true [mkOrgSubnet "edge9" "10.77.0.0/16"]
                   (Fixture.ifc "5f00000000000000000000f1" "eth0" "0000:00:03.00" true "WAN"
                                "10.0.0.0" "24" "10.0.0.254" [])
                   (Fixture.ifc "5f00000000000000000000f2" "eth1" "0000:00:08.00" true "LAN"
                                "10.0.0.128" "25" "" [])).
    + simpl. left. reflexivity.
    + simpl. left. reflexivity.
    + reflexivity.
  - apply (Haccept Fixture.disjoint []).
    + simpl. discriminate.
    + simpl. discriminate.
    + intros ifc Hin _. simpl in Hin.
      destruct Hin as [<-|[<-|[]]]; unfold interfaceRules; simpl;
        repeat split; auto; try discriminate; intros [=].
    + intros w l Hw Hl. simpl in Hw, Hl.
      destruct Hw as [<-|[]]. destruct Hl as [<-|[]]. reflexivity.
Defined.

(** The claim of C4 fails on two LAN interfaces: [edge1] has the
    assigned LAN subnets 10.0.0.0/24 and 10.0.0.128/25, which overlap, and
    is accepted. *)
Lemma lan_lan_overlap_accepted :
  In Fixture.lan1 (assignedOf "LAN" Fixture.edge1)
  /\ In Fixture.lan2 (assignedOf "LAN" Fixture.edge1)
  /\ subnetOf Fixture.lan1 = "10.0.0.0/24"
  /\ subnetOf Fixture.lan2 = "10.0.0.128/25"
  /\ cidr.overlap (subnetOf Fixture.lan1) (subnetOf Fixture.lan2) = Ok true
  /\ validateDevice Fixture.edge1 false [] = Ok (mkValidation true "").
Proof.
  repeat split; try reflexivity; simpl; auto.
Qed.

End DeviceValidation.

(** ** [validateDhcpRequest] *)

Section DhcpValidation.

Variable A : Type.
Variable key : A -> string.

Lemma includes_In (xs : list string) (x : string) : includes xs x = true <-> In x xs.
Proof.
  unfold includes. rewrite existsb_exists. split.
  - intros (y & Hy & Heq). apply String.eqb_eq in Heq. subst. exact Hy.
  - intros H. exists x. split; [exact H|apply String.eqb_refl].
Qed.

Lemma uniqByFrom_length (seen : list string) (array : list A) :
  List.length (lodash.uniqByFrom key seen array) <= List.length array.
Proof.
  revert seen. induction array as [|x rest IH]; intros seen; simpl; [lia|].
  destruct (includes seen (key x)); simpl.
  - specialize (IH seen). lia.
  - specialize (IH (key x :: seen)). lia.
Qed.

Lemma uniqByFrom_all (seen : list string) (array : list A) :
  List.length (lodash.uniqByFrom key seen array) = List.length array
  <-> NoDup (map key array) /\ (forall x, In x array -> ~ In (key x) seen).
Proof.
  revert seen. induction array as [|x rest IH]; intros seen; simpl.
  - split; [intros _; split; [constructor|intros x []] | reflexivity].
  - destruct (includes seen (key x)) eqn:Hx.
    + apply includes_In in Hx. split.
      * intros H. pose proof (uniqByFrom_length seen rest). lia.
      * intros [_ H]. exfalso. apply (H x); auto.
    + assert (Hnot : ~ In (key x) seen).
      { intros Hin. apply includes_In in Hin. congruence. }
      simpl. split.
      * intros H. injection H as H. apply IH in H as [Hnd Hseen]. split.
        -- constructor; [|exact Hnd].
           intros Hin. apply in_map_iff in Hin as (y & Hy & Hin).
           apply (Hseen y Hin). left. auto.
        -- intros y [<-|Hy]; [exact Hnot|].
           intros Hin. apply (Hseen y Hy). right. exact Hin.
      * intros [Hnd Hseen]. f_equal. apply IH. inversion Hnd as [|? ? Hx' Hnd']; subst.
        split; [exact Hnd'|].
        intros y Hy [Heq|Hin].
        -- apply Hx'. rewrite Heq. apply in_map. exact Hy.
        -- apply (Hseen y); auto.
Qed.

(** [uniqBy] keeps the whole array exactly when no key comes twice. *)
Lemma uniqBy_all (array : list A) :
  Nat.eqb (List.length (lodash.uniqBy array key)) (List.length array) = true
  <-> NoDup (map key array).
Proof.
  unfold lodash.uniqBy. rewrite Nat.eqb_eq, uniqByFrom_all.
  split; [tauto|]. intros H. split; [exact H|]. intros x _ [].
Qed.

End DhcpValidation.

Section DhcpRequests.

Import DevicesService.

(** C5, as the code has it. [validateDhcpRequest] lets a request pass
    exactly when it names an interface, the device has an interface with
    that PCI address, the first such interface is of type LAN, and no two
    entries of [macAssign] share a MAC, a host name or an IPv4 address;
    in every other case it raises.  Whether the interface is assigned
    plays no part. *)
Theorem validateDhcpRequest_passes_iff :
  forall (device : Device) (dhcpRequest : DhcpRequest),
    (validateDhcpRequest device dhcpRequest = Ok tt
     <-> dhcpRequest.(req_interface) <> ""
         /\ (exists interfaceObj,
                targetInterface device dhcpRequest = Some interfaceObj
                /\ interfaceObj.(type) = "LAN")
         /\ NoDup (map mac dhcpRequest.(req_macAssign))
         /\ NoDup (map host dhcpRequest.(req_macAssign))
         /\ NoDup (map ipv4 dhcpRequest.(req_macAssign)))
    /\ (validateDhcpRequest device dhcpRequest = Ok tt
        \/ exists e, validateDhcpRequest device dhcpRequest = Throw e).
Proof.
  intros device dhcpRequest. split.
  - unfold validateDhcpRequest, targetInterface, throwIf.
    destruct (String.eqb (req_interface dhcpRequest) "") eqn:Hif; simpl.
    { apply String.eqb_eq in Hif. split; [discriminate|]. intros [H _]. contradiction. }
    apply String.eqb_neq in Hif.
    destruct (find _ _) as [ifc|]; simpl.
    2:{ split; [discriminate|]. intros (_ & (i & Hi & _) & _). discriminate. }
    destruct (String.eqb (type ifc) "LAN") eqn:Hty; simpl.
    2:{ apply String.eqb_neq in Hty. split; [discriminate|].
        intros (_ & (i & [= <-] & Hi) & _). contradiction. }
    apply String.eqb_eq in Hty.
    pose proof (uniqBy_all mac (req_macAssign dhcpRequest)) as Hmac.
    pose proof (uniqBy_all host (req_macAssign dhcpRequest)) as Hhost.
    pose proof (uniqBy_all ipv4 (req_macAssign dhcpRequest)) as Hip.
    destruct (Nat.eqb (List.length (lodash.uniqBy _ mac)) _); simpl.
    2:{ split; [discriminate|]. intros (_ & _ & H & _). apply Hmac in H. discriminate. }
    destruct (Nat.eqb (List.length (lodash.uniqBy _ host)) _); simpl.
    2:{ split; [discriminate|]. intros (_ & _ & _ & H & _). apply Hhost in H. discriminate. }
    destruct (Nat.eqb (List.length (lodash.uniqBy _ ipv4)) _); simpl.
    2:{ split; [discriminate|]. intros (_ & _ & _ & _ & H). apply Hip in H. discriminate. }
    split; [|reflexivity]. intros _.
    repeat split; [exact Hif|exists ifc; auto|apply Hmac|apply Hhost|apply Hip]; reflexivity.
  - destruct (validateDhcpRequest device dhcpRequest) as [[]|e]; [left|right; exists e];
      reflexivity.
Qed.

(** The claim of C5 fails on an interface that is not assigned: [spare]
    is an unassigned LAN interface of [edge1], and a DHCP server on it
    passes the validation and is stored. *)
Lemma dhcp_on_unassigned_interface_passes :
  targetInterface Fixture.edge1 Fixture.dhcpSpare = Some Fixture.spare
  /\ Fixture.spare.(isAssigned) = false
  /\ validateDhcpRequest Fixture.edge1 Fixture.dhcpSpare = Ok tt
  /\ isReject (fst (devicesIdDhcpPOST (C := Fixture.office) Fixture.edge1.(dev_id) None
                                      Fixture.dhcpSpare Fixture.admin Fixture.world0)) = false.
Proof. repeat split; reflexivity. Qed.

End DhcpRequests.

(** ** Deleting a device *)

Unset Implicit Arguments.

Section Deletion.

Context {C : Collaborators}.
Import DevicesService TunnelsService.

Lemma abortTransaction_same (w : World) : abortTransaction w w = w.
Proof. destruct w; reflexivity. Qed.

Lemma withTunnels_same (w : World) : withTunnels w.(tunnels) w = w.
Proof. destruct w; reflexivity. Qed.

Lemma filter_empty (A : Type) (p : A -> bool) (l : list A) :
  Nat.ltb 0 (List.length (filter p l)) = false <-> (forall x, In x l -> p x = false).
Proof.
  rewrite Nat.ltb_ge. split.
  - intros H x Hx. destruct (p x) eqn:Hp; [|reflexivity].
    assert (Hin : In x (filter p l)) by (apply filter_In; auto).
    destruct (filter p l); [destruct Hin|simpl in H; lia].
  - intros H. induction l as [|x rest IH]; simpl; [lia|].
    rewrite (H x (or_introl eq_refl)). apply IH. intros y Hy. apply H. right. exact Hy.
Qed.

(** With unique ids, updating the one document of an id is updating
    every document of that id. *)
Lemma findOneAndUpdate_unique (A : Type) (key : A -> string) (k : string)
      (q : A -> bool) (u : A -> A) (coll : list A) :
  NoDup (map key coll) ->
  (forall d, q d = true -> key d = k) ->
  Mongo.findOneAndUpdate q u coll = map (fun d => if q d then u d else d) coll.
Proof.
  intros Hnd Hq. induction coll as [|d rest IH]; simpl; [reflexivity|].
  inversion Hnd as [|? ? Hnotin Hnd']; subst.
  destruct (q d) eqn:Hd.
  - f_equal. symmetry. erewrite map_ext_in; [apply map_id|].
    intros e He. simpl. destruct (q e) eqn:Hqe; [|reflexivity].
    exfalso. apply Hnotin. rewrite (Hq d Hd), <- (Hq e Hqe). apply in_map. exact He.
  - f_equal. apply IH. exact Hnd'.
Qed.

Lemma tunnelsIdDELETE_world id org' user orgList (w : World) :
  getAccessTokenOrgList user org' true = Ok orgList ->
  NoDup (map tunnel_id w.(tunnels)) ->
  snd (tunnelsIdDELETE id org' user w)
  = withTunnels (map (deactivated [id] orgList) w.(tunnels)) w.
Proof.
  intros Hget Hnd.
  assert (Hmap : Mongo.findOneAndUpdate
                   (fun t => String.eqb t.(tunnel_id) id && includes orgList t.(tunnel_org))
                   (set_isActive false) w.(tunnels)
                 = map (deactivated [id] orgList) w.(tunnels)).
  { rewrite (findOneAndUpdate_unique _ tunnel_id id); [|exact Hnd|].
    - apply map_ext. intros t. unfold deactivated, includes. simpl.
      rewrite orb_false_r. reflexivity.
    - intros t Ht. apply andb_prop in Ht as [Ht _]. apply String.eqb_eq. exact Ht. }
  unfold tunnelsIdDELETE, tryCatch, bindM, lift, get. rewrite Hget.
  destruct (Mongo.findOne _ _) eqn:Hfind; simpl.
  - rewrite Hmap. reflexivity.
  - rewrite <- Hmap, findOneAndUpdate_no_match; [symmetry; apply withTunnels_same|].
    intros t Ht. exact (find_none _ _ Hfind t Ht).
Qed.

Lemma deactivated_cons i ids orgList t :
  deactivated ids orgList (deactivated [i] orgList t) = deactivated (i :: ids) orgList t.
Proof.
  unfold deactivated, includes. simpl existsb.
  destruct (String.eqb (tunnel_id t) i);
    destruct (existsb (String.eqb (tunnel_org t)) orgList) eqn:Ho;
    simpl; rewrite ?Ho; simpl;
    destruct (existsb (String.eqb (tunnel_id t)) ids); simpl; reflexivity.
Qed.

Lemma deactivateAll_world ids org' user orgList (w : World) :
  getAccessTokenOrgList user org' true = Ok orgList ->
  NoDup (map tunnel_id w.(tunnels)) ->
  deactivateAll ids org' user w
  = withTunnels (map (deactivated ids orgList) w.(tunnels)) w.
Proof.
  intros Hget. revert w. induction ids as [|i ids IH]; intros w Hnd.
  - simpl. unfold deactivated. simpl. rewrite map_id. symmetry. apply withTunnels_same.
  - unfold deactivateAll in *. simpl.
    rewrite (tunnelsIdDELETE_world i org' user orgList w Hget Hnd).
    rewrite IH.
    + simpl. rewrite map_map. unfold withTunnels. simpl. f_equal.
      apply map_ext. intros t. apply deactivated_cons.
    + simpl. rewrite map_map.
      erewrite map_ext; [exact Hnd|].
      intros t. unfold deactivated. destruct (_ && _); reflexivity.
Qed.

Lemma filter_nothing (A : Type) (p : A -> bool) (l : list A) :
  (forall x, In x l -> p x = false) -> filter p l = [].
Proof.
  intros H. induction l as [|x rest IH]; simpl; [reflexivity|].
  rewrite (H x (or_introl eq_refl)). apply IH. intros y Hy. apply H. right. exact Hy.
Qed.

Lemma references_eqb id t :
  references id t -> String.eqb t.(deviceA) id || String.eqb t.(deviceB) id = true.
Proof.
  intros [H|H]; apply String.eqb_eq in H; rewrite H; [reflexivity|apply orb_true_r].
Qed.

(** C7. While an active tunnel filed under one of the organizations of
    the caller has the device on one of its sides, the deletion is
    refused with the message about the tunnels and the world stays as it
    was, documents included; once the operator has deactivated every
    active tunnel that references the device, the deletion of a device of
    the caller goes through and the device is gone.  Tunnel ids are taken
    to be unique and the billing to accept the decrement. *)
Theorem device_deletion_guard :
  (forall id org' user (w : World) orgList t,
      getAccessTokenOrgList user org' true = Ok orgList ->
      In t w.(tunnels) -> t.(isActive) = true -> references id t ->
      In t.(tunnel_org) orgList ->
      isReject (fst (devicesIdDELETE id org' user w)) = true
      /\ fst (devicesIdDELETE id org' user w)
         = rejectResponse "All device tunnels must be deleted before deleting a device" 500
      /\ snd (devicesIdDELETE id org' user w) = w)
  /\
  (forall id org' user (w : World) orgList ids d,
      getAccessTokenOrgList user org' true = Ok orgList ->
      NoDup (map tunnel_id w.(tunnels)) ->
      (forall t, In t w.(tunnels) -> t.(isActive) = true -> references id t ->
                 In t.(tunnel_id) ids) ->
      In d w.(devices) -> d.(dev_id) = id -> In d.(org) orgList ->
      (forall account count,
          exists b, registerDevice account count (-1)%Z w.(billing) = Ok b) ->
      fst (devicesIdDELETE id org' user (deactivateAll ids org' user w))
      = successResponse PNull 204
      /\ devices (snd (devicesIdDELETE id org' user (deactivateAll ids org' user w)))
         = Mongo.remove (fun d => String.eqb d.(dev_id) id && includes orgList d.(org))
                        w.(devices)).
Proof.
  split.
  - intros id org' user w orgList t Hget Ht Hactive Href Horg.
    apply references_eqb in Href. apply includes_In in Horg.
    unfold devicesIdDELETE, withSession, bindM, lift, get. rewrite Hget.
    unfold Mongo.countDocuments, throwIf.
    destruct (Nat.ltb 0 _) eqn:Hcount.
    + split; [reflexivity|]. split; [reflexivity|apply abortTransaction_same].
    + pose proof (proj1 (filter_empty _ _ _) Hcount t Ht) as Hscope.
      cbv beta in Hscope. rewrite Href, Hactive, Horg in Hscope. discriminate.
  - intros id org' user w orgList ids d Hget Hnd Hcover Hd Hid Hscope Hbilling.
    rewrite (deactivateAll_world ids org' user orgList w Hget Hnd).
    unfold devicesIdDELETE, withSession, bindM, lift, get. rewrite Hget.
    unfold Mongo.countDocuments, Mongo.find_, throwIf. simpl.
    assert (Hcount : Nat.ltb 0 (List.length
              (filter (fun t => (String.eqb t.(deviceA) id || String.eqb t.(deviceB) id)
                                && t.(isActive) && includes orgList t.(tunnel_org))
                      (map (deactivated ids orgList) w.(tunnels)))) = false).
    { apply filter_empty. intros t' Ht'. apply in_map_iff in Ht' as (t & <- & Ht).
      unfold deactivated.
      destruct (includes orgList (tunnel_org t)) eqn:Ho;
        [|rewrite andb_false_r, Ho; apply andb_false_r].
      rewrite andb_true_r.
      destruct (includes ids (tunnel_id t)) eqn:Hi; simpl;
        [rewrite andb_false_r; reflexivity|].
      rewrite Ho, andb_true_r.
      destruct (isActive t) eqn:Ha; [|apply andb_false_r].
      rewrite andb_true_r.
      destruct (String.eqb (deviceA t) id || String.eqb (deviceB t) id) eqn:Href;
        [|reflexivity].
      assert (Hin : In (tunnel_id t) ids).
      { apply (Hcover t Ht Ha). apply orb_prop in Href as [H|H];
          apply String.eqb_eq in H; [left|right]; exact H. }
      apply includes_In in Hin. congruence. }
    rewrite Hcount.
    destruct (filter _ (devices w)) as [|first rest] eqn:Hdel.
    { exfalso.
      assert (Hin : In d (filter (fun d => String.eqb d.(dev_id) id
                                           && includes orgList d.(org)) w.(devices))).
      { apply filter_In. split; [exact Hd|].
        apply String.eqb_eq in Hid. apply includes_In in Hscope.
        rewrite Hid, Hscope. reflexivity. }
      rewrite Hdel in Hin. destruct Hin. }
    unfold deviceDisconnect, setBilling, setDevices. simpl.
    destruct (Hbilling (account first)
                (List.length (filter (fun d0 => String.eqb (account d0) (account first))
                                     (devices w)))) as [b Hb].
    rewrite Hb. simpl. split; reflexivity.
Qed.

End Deletion.

(** ** Modifying a device *)

Section Modification.

Context {C : Collaborators}.
Import DevicesService.

Lemma withSession_throws (A : Type) (inTransaction : M A) (afterCommit : A -> M Response)
      (w : World) (e : Error) :
  inTransaction w = (Throw e, w) ->
  withSession inTransaction afterCommit w = (rejectOf e, w).
Proof.
  intros H. unfold withSession. rewrite H, abortTransaction_same. reflexivity.
Qed.

(** A request that does not pass [checkIntent] is answered with a
    rejection, and nothing has happened. *)
Lemma devicesIdPUT_refused id org' deviceRequest user (w : World) orgList origDevice e :
  getAccessTokenOrgList user org' true = Ok orgList ->
  Mongo.findOne (fun d => String.eqb d.(dev_id) id && includes orgList d.(org)) w.(devices)
  = Some origDevice ->
  checkIntent origDevice deviceRequest w = Throw e ->
  devicesIdPUT id org' deviceRequest user w = (rejectOf e, w).
Proof.
  intros Hget Hfind Hcheck. unfold devicesIdPUT.
  apply withSession_throws.
  unfold bindM, lift, get. rewrite Hget, Hfind, Hcheck. reflexivity.
Qed.

Lemma mapResult_throws (A B : Type) (f : A -> result B) (xs : list A) (x : A) :
  In x xs -> (exists e, f x = Throw e) -> exists e, mapResult f xs = Throw e.
Proof.
  intros Hin Hx. induction xs as [|y rest IH]; [destruct Hin|].
  simpl. destruct Hin as [->|Hin].
  - destruct Hx as [e ->]. exists e. reflexivity.
  - destruct (f y) as [b|e]; [|exists e; reflexivity].
    destruct (IH Hin) as [e ->]. exists e. reflexivity.
Qed.

Lemma filter_some (A : Type) (p : A -> bool) (l : list A) (x : A) :
  In x l -> p x = true -> Nat.ltb 0 (List.length (filter p l)) = true.
Proof.
  intros Hin Hp.
  assert (H : In x (filter p l)) by (apply filter_In; auto).
  destruct (filter p l); [destruct H|reflexivity].
Qed.

Lemma tunnelOn_activeOn x t : tunnelOn x t -> activeOn x t = true.
Proof.
  intros [Ha Hside]. unfold activeOn. rewrite Ha. simpl.
  destruct Hside as [H|H]; apply String.eqb_eq in H; rewrite H;
    [reflexivity|apply orb_true_r].
Qed.

Lemma checkTunnels_unassigned tunnels origIntf updIntf t :
  origIntf.(isAssigned) = true -> updIntf.(isAssigned) = false ->
  In t tunnels -> tunnelOn origIntf.(if_id) t ->
  exists e, checkTunnels tunnels origIntf updIntf = Throw e.
Proof.
  intros Horig Hupd Ht Hon. unfold checkTunnels, Mongo.countDocuments.
  rewrite Horig, Hupd. simpl.
  rewrite (filter_some _ _ _ t Ht (tunnelOn_activeOn _ _ Hon)).
  eexists. reflexivity.
Qed.

Lemma checkTunnels_label tunnels origIntf updIntf t label :
  origIntf.(isAssigned) = true -> updIntf.(isAssigned) = true ->
  hasLabel origIntf label -> ~ hasLabel updIntf label ->
  In t tunnels -> tunnelOn origIntf.(if_id) t -> t.(pathlabel) = Some label ->
  exists e, checkTunnels tunnels origIntf updIntf = Throw e.
Proof.
  intros Horig Hupd (labels & Hlabels & Hin) Hgone Ht Hon Hlabel.
  apply in_map_iff in Hin as (p & Hp & Hin).
  unfold checkTunnels, Mongo.countDocuments. rewrite Horig, Hupd, Hlabels. simpl.
  set (kept := match pathlabels updIntf with
               | Some ps => map label_id ps
               | None => []
               end).
  assert (Hkept : includes kept label = false).
  { destruct (includes kept label) eqn:Hk; [|reflexivity].
    exfalso. apply includes_In in Hk. apply Hgone. subst kept.
    destruct (pathlabels updIntf) as [ps|] eqn:Hps; [|destruct Hk].
    exists ps. split; [exact Hps|exact Hk]. }
  assert (Hrem : In p (filter (fun p => negb (includes kept p.(label_id))) labels)).
  { apply filter_In. split; [exact Hin|]. rewrite Hp, Hkept. reflexivity. }
  rewrite (filter_some _ _ _ p Hin) by (rewrite Hp, Hkept; reflexivity).
  rewrite (filter_some _ _ _ t Ht).
  - eexists. reflexivity.
  - unfold activeOnWith. rewrite (tunnelOn_activeOn _ _ Hon), Hlabel. simpl.
    apply includes_In. rewrite <- Hp. apply in_map. exact Hrem.
Qed.

(** C8. A request that takes an interface out of assignment while an
    active tunnel runs over it, or that keeps the interface assigned and
    drops a path label which an active tunnel over that interface uses,
    is rejected, and the world stays as it was: the device document is
    not written. *)
Theorem tunnel_guard_on_modify :
  forall id org' deviceRequest user (w : World) orgList origDevice requested
         origIntf updIntf t,
    getAccessTokenOrgList user org' true = Ok orgList ->
    Mongo.findOne (fun d => String.eqb d.(dev_id) id && includes orgList d.(org)) w.(devices)
    = Some origDevice ->
    deviceRequest.(rq_interfaces) = Some requested ->
    In origIntf origDevice.(interfaces) ->
    origIntf.(isAssigned) = true ->
    find (fun rif => String.eqb origIntf.(if_id) rif.(if_id)) requested = Some updIntf ->
    In t w.(tunnels) ->
    tunnelOn origIntf.(if_id) t ->
    (updIntf.(isAssigned) = false
     \/ (updIntf.(isAssigned) = true
         /\ exists label, hasLabel origIntf label /\ ~ hasLabel updIntf label
                          /\ t.(pathlabel) = Some label)) ->
    isReject (fst (devicesIdPUT id org' deviceRequest user w)) = true
    /\ snd (devicesIdPUT id org' deviceRequest user w) = w.
Proof.
  intros id org' deviceRequest user w orgList origDevice requested origIntf updIntf t
         Hget Hfind Hrq Hin Horig Hupd Ht Hon Hcase.
  assert (Hthrow : exists e, checkIntent origDevice deviceRequest w = Throw e).
  { unfold checkIntent, throwIf.
    destruct (negb (isApproved origDevice) && _); [eexists; reflexivity|]. simpl.
    assert (Hmerge : exists e, mergeInterfaces w.(tunnels) origDevice deviceRequest = Throw e).
    { unfold mergeInterfaces. rewrite Hrq.
      destruct (mapResult_throws _ _ (mergeInterface w.(tunnels) requested)
                                 origDevice.(interfaces) origIntf Hin) as [e He].
      - unfold mergeInterface. rewrite Hupd.
        set (upd := set_public _ _ _ updIntf).
        assert (Hguard : exists e, checkTunnels w.(tunnels) origIntf upd = Throw e).
        { destruct Hcase as [Hun|(Has & label & Hhad & Hgone & Hlabel)].
          - apply (checkTunnels_unassigned _ _ _ t); assumption.
          - apply (checkTunnels_label _ _ _ t label); assumption. }
        destruct Hguard as [e ->]. exists e. reflexivity.
      - rewrite He. exists e. reflexivity. }
    destruct Hmerge as [e ->]. exists e. reflexivity. }
  destruct Hthrow as [e He].
  rewrite (devicesIdPUT_refused id org' deviceRequest user w orgList origDevice e Hget Hfind He).
  split; reflexivity.
Qed.

(** A LAN interface with a gateway: [validateDevice] never accepts. *)
Lemma lan_gateway_refused device checkOverlap subnets ifc :
  In ifc (assignedOf "LAN" device) -> ifc.(gateway) <> "" ->
  accepted (validators.validateDevice device checkOverlap subnets) = false.
Proof.
  intros Hin Hgw.
  destruct (accepted _) eqn:Hacc; [|reflexivity].
  apply validateDevice_accepts_iff in Hacc as (_ & H1 & _).
  apply assignedOf_In in Hin as (Hin & Has & Hty).
  rewrite forOf_falls_through in H1.
  assert (Hifc : In ifc (filter isAssigned device.(interfaces))) by (apply filter_In; auto).
  specialize (H1 ifc Hifc).
  apply String.eqb_neq in Hgw.
  unfold validators.checkInterface in H1. rewrite Hty, Hgw in H1. simpl in H1.
  destruct (negb (net.isIPv4 (IPv4 ifc)) || _); [discriminate|].
  destruct (pathlabels ifc) as [labels|]; [|discriminate].
  destruct (negb (Nat.eqb (List.length labels) 0)); discriminate.
Qed.

(** C6. A request whose device does not pass [validateDevice] - such as
    one that leaves an assigned LAN interface with a gateway - is
    rejected and the world stays as it was: no job enters the queue and
    the dispatcher is not called. *)
Theorem invalid_intent_never_dispatched :
  forall id org' deviceRequest user (w : World) orgList origDevice merged,
    getAccessTokenOrgList user org' true = Ok orgList ->
    Mongo.findOne (fun d => String.eqb d.(dev_id) id && includes orgList d.(org)) w.(devices)
    = Some origDevice ->
    mergeInterfaces w.(tunnels) origDevice deviceRequest = Ok merged ->
    (accepted (validators.validateDevice (deviceToValidate origDevice merged)
                                         (isRunning origDevice) (orgLanSubnets origDevice w))
     = false
     \/ exists ifc, In ifc (assignedOf "LAN" (deviceToValidate origDevice merged))
                    /\ ifc.(gateway) <> "") ->
    isReject (fst (devicesIdPUT id org' deviceRequest user w)) = true
    /\ snd (devicesIdPUT id org' deviceRequest user w) = w
    /\ queue (snd (devicesIdPUT id org' deviceRequest user w)) = queue w
    /\ dispatched (snd (devicesIdPUT id org' deviceRequest user w)) = dispatched w.
Proof.
  intros id org' deviceRequest user w orgList origDevice merged Hget Hfind Hmerge Hbad.
  assert (Hinvalid : accepted (validators.validateDevice
                                 (deviceToValidate origDevice merged)
                                 (isRunning origDevice) (orgLanSubnets origDevice w)) = false).
  { destruct Hbad as [H|(ifc & Hin & Hgw)]; [exact H|].
    apply (lan_gateway_refused _ _ _ ifc); assumption. }
  assert (Hthrow : exists e, checkIntent origDevice deviceRequest w = Throw e).
  { unfold checkIntent, throwIf.
    destruct (negb (isApproved origDevice) && _); [eexists; reflexivity|]. simpl.
    rewrite Hmerge. simpl.
    destruct (match rq_dhcp merged with Some _ => _ | None => _ end) as [[]|e];
      [|exists e; reflexivity]. simpl.
    destruct (checkDhcpConfig origDevice merged) as [[]|e]; [|exists e; reflexivity]. simpl.
    destruct (validators.validateDevice _ _ _) as [v|e]; [|exists e; reflexivity].
    simpl in Hinvalid |- *. rewrite Hinvalid. eexists. reflexivity. }
  destruct Hthrow as [e He].
  rewrite (devicesIdPUT_refused id org' deviceRequest user w orgList origDevice e Hget Hfind He).
  repeat split; reflexivity.
Qed.

End Modification.

(** ** Adding a DHCP server *)

Section DhcpCreation.

Context {C : Collaborators}.
Import DevicesService.

Lemma findOneAndUpdate_In (A : Type) (q : A -> bool) (u : A -> A) (coll : list A) (d' : A) :
  In d' (Mongo.findOneAndUpdate q u coll) ->
  In d' coll \/ exists d, In d coll /\ q d = true /\ d' = u d.
Proof.
  induction coll as [|d rest IH]; simpl; [tauto|].
  destruct (q d) eqn:Hd; simpl.
  - intros [<-|H]; [right; exists d; auto|left; auto].
  - intros [<-|H]; [left; auto|].
    destruct (IH H) as [H'|(e & He & Hq & Hu)]; [left; auto|].
    right. exists e. auto.
Qed.

Lemma unique_key (A : Type) (key : A -> string) (coll : list A) (a b : A) :
  NoDup (map key coll) -> In a coll -> In b coll -> key a = key b -> a = b.
Proof.
  induction coll as [|x rest IH]; simpl; [tauto|].
  intros Hnd Ha Hb Hkey. inversion Hnd as [|? ? Hnotin Hnd']; subst.
  destruct Ha as [->|Ha], Hb as [->|Hb]; auto.
  - exfalso. apply Hnotin. rewrite Hkey. apply in_map. exact Hb.
  - exfalso. apply Hnotin. rewrite <- Hkey. apply in_map. exact Ha.
Qed.

(** The two ways [devicesIdDhcpPOST] can leave the devices: as they
    were, or with one new entry, for an interface that had none, at the
    end of the [dhcp] array of the device it found. *)
Lemma devicesIdDhcpPOST_devices id org' dhcpRequest user (w : World) :
  devices (snd (devicesIdDhcpPOST id org' dhcpRequest user w)) = devices w
  \/ exists orgList deviceObject entry,
      Mongo.findOne (fun d => String.eqb d.(dev_id) id && includes orgList d.(org))
                    w.(devices) = Some deviceObject
      /\ filter (fun s => String.eqb s.(dhcp_interface) dhcpRequest.(req_interface))
                deviceObject.(dhcp) = []
      /\ entry.(dhcp_interface) = dhcpRequest.(req_interface)
      /\ devices (snd (devicesIdDhcpPOST id org' dhcpRequest user w))
         = Mongo.findOneAndUpdate
             (fun d => String.eqb d.(dev_id) deviceObject.(dev_id))
             (set_dhcp (Mongo.push entry)) w.(devices).
Proof.
  unfold devicesIdDhcpPOST, withSession, bindM, lift, get.
  destruct (getAccessTokenOrgList user org' true) as [orgList|e]; [|left; reflexivity].
  destruct (Mongo.findOne _ _) as [deviceObject|] eqn:Hfind; [|left; reflexivity].
  unfold throwIf.
  destruct (negb (isApproved deviceObject)); [left; reflexivity|].
  destruct (validateDhcpRequest deviceObject dhcpRequest) as [[]|e]; [|left; reflexivity].
  destruct (filter _ (dhcp deviceObject)) as [|existing others] eqn:Hfilter;
    [|left; reflexivity].
  right. exists orgList, deviceObject.
  eexists (mkDhcp _ _ _ _ _ _ _).
  split; [exact Hfind|]. split; [exact Hfilter|]. split; [reflexivity|].
  unfold newId, setDevices, ret, dispatch. simpl.
  destruct (dispatcherApply _ _) as [[ids|e] q]; reflexivity.
Qed.

(** C10. When the device already has a DHCP server for the interface of
    the request, [devicesIdDhcpPOST] rejects and the world stays as it
    was: no entry is added and the dispatcher is not called.  So, with
    unique device ids, devices that have at most one DHCP server per
    interface still have at most one after any such request.  This is a
    property of [devicesIdDhcpPOST] alone, not of the store. *)
Theorem one_dhcp_server_per_interface :
  (forall id org' dhcpRequest user (w : World) orgList deviceObject existing,
      getAccessTokenOrgList user org' true = Ok orgList ->
      Mongo.findOne (fun d => String.eqb d.(dev_id) id && includes orgList d.(org))
                    w.(devices) = Some deviceObject ->
      In existing deviceObject.(dhcp) ->
      existing.(dhcp_interface) = dhcpRequest.(req_interface) ->
      isReject (fst (devicesIdDhcpPOST id org' dhcpRequest user w)) = true
      /\ snd (devicesIdDhcpPOST id org' dhcpRequest user w) = w)
  /\
  (forall id org' dhcpRequest user (w : World),
      NoDup (map dev_id w.(devices)) ->
      (forall d, In d w.(devices) -> oneDhcpPerInterface d) ->
      forall d, In d (devices (snd (devicesIdDhcpPOST id org' dhcpRequest user w))) ->
                oneDhcpPerInterface d).
Proof.
  split.
  - intros id org' dhcpRequest user w orgList deviceObject existing Hget Hfind Hin Hsame.
    assert (Hthrow : exists e,
               devicesIdDhcpPOST id org' dhcpRequest user w = (rejectOf e, w)).
    { unfold devicesIdDhcpPOST.
      assert (Hfilter : Nat.ltb 0 (List.length
                 (filter (fun s => String.eqb s.(dhcp_interface) dhcpRequest.(req_interface))
                         deviceObject.(dhcp))) = true).
      { apply (filter_some _ _ _ existing Hin). apply String.eqb_eq. exact Hsame. }
      destruct (negb (isApproved deviceObject)) eqn:Happroved;
        [|destruct (validateDhcpRequest deviceObject dhcpRequest) as [[]|e] eqn:Hvalid];
        eexists; apply withSession_throws;
        unfold bindM, lift, get, throwIf;
        rewrite Hget, Hfind, Happroved, ?Hvalid, ?Hfilter; reflexivity. }
    destruct Hthrow as [e ->]. split; reflexivity.
  - intros id org' dhcpRequest user w Hids Hone d Hd.
    destruct (devicesIdDhcpPOST_devices id org' dhcpRequest user w)
      as [Hsame|(orgList & deviceObject & entry & Hfind & Hfree & Hentry & Hnew)].
    { rewrite Hsame in Hd. apply Hone. exact Hd. }
    rewrite Hnew in Hd.
    apply findOneAndUpdate_In in Hd as [Hd|(d0 & Hd0 & Hq & ->)]; [apply Hone; exact Hd|].
    apply String.eqb_eq in Hq.
    apply find_some in Hfind as [Hobj _].
    assert (d0 = deviceObject) as -> by (apply (unique_key Device dev_id w.(devices)); auto).
    unfold oneDhcpPerInterface, set_dhcp, Mongo.push. simpl.
    rewrite map_app. simpl.
    apply NoDup_app; [apply Hone; exact Hobj|repeat constructor; intros []|].
    intros x Hx [<-|[]].
    apply in_map_iff in Hx as (s & Hs & Hin).
    assert (Hmatch : In s (filter (fun s => String.eqb s.(dhcp_interface)
                                                         dhcpRequest.(req_interface))
                                  deviceObject.(dhcp))).
    { apply filter_In. split; [exact Hin|]. apply String.eqb_eq. congruence. }
    rewrite Hfree in Hmatch. destruct Hmatch.
Qed.

End DhcpCreation.

(** ** The theorems on the installation *)

Section Installation.

Import Fixture DevicesService TunnelsService.

Existing Instance office.

Ltac distinct := simpl; repeat constructor; simpl; intuition discriminate.

(** [edge1] cannot be deleted while [tunnel1] is active, and can be once
    the tunnel has been deactivated. *)
Lemma device_deletion_guard_witness :
  (isReject (fst (devicesIdDELETE edge1.(dev_id) None admin world0)) = true
   /\ fst (devicesIdDELETE edge1.(dev_id) None admin world0)
      = rejectResponse "All device tunnels must be deleted before deleting a device" 500
   /\ snd (devicesIdDELETE edge1.(dev_id) None admin world0) = world0)
  /\ fst (devicesIdDELETE edge1.(dev_id) None admin
                          (deactivateAll [tunnel1.(tunnel_id)] None admin world0))
     = successResponse PNull 204
  /\ devices (snd (devicesIdDELETE edge1.(dev_id) None admin
                     (deactivateAll [tunnel1.(tunnel_id)] None admin world0)))
     = [edge2].
Proof.
  destruct (@device_deletion_guard office) as [Hrefuse Hdelete]. split.
  - apply (Hrefuse edge1.(dev_id) None admin world0 [orgA] tunnel1).
    + reflexivity.
    + simpl. auto.
    + reflexivity.
    + left. reflexivity.
    + simpl. auto.
  - apply (Hdelete edge1.(dev_id) None admin world0 [orgA] [tunnel1.(tunnel_id)] edge1).
    + reflexivity.
    + distinct.
    + intros t [<-|[]] _ _. simpl. auto.
    + simpl. auto.
    + reflexivity.
    + simpl. auto.
    + intros account count. eexists. reflexivity.
Defined.

(** The claim of C7 fails on a tunnel outside the organizations of the
    caller: [strayTunnel] is active and has [edge1] on its side A, and
    [admin] deletes [edge1] all the same; the tunnel stays, active. *)
Lemma foreign_tunnel_does_not_block_deletion :
  In Cases.strayTunnel Cases.worldStray.(tunnels)
  /\ Cases.strayTunnel.(isActive) = true
  /\ references edge1.(dev_id) Cases.strayTunnel
  /\ getAccessTokenOrgList admin None true = Ok [orgA]
  /\ fst (devicesIdDELETE edge1.(dev_id) None admin Cases.worldStray)
     = successResponse PNull 204
  /\ devices (snd (devicesIdDELETE edge1.(dev_id) None admin Cases.worldStray)) = [edge2]
  /\ tunnels (snd (devicesIdDELETE edge1.(dev_id) None admin Cases.worldStray))
     = [Cases.strayTunnel].
Proof.
  split; [simpl; auto|]. split; [reflexivity|]. split; [left; reflexivity|].
  repeat split; reflexivity.
Qed.

(** Neither the request that unassigns the WAN interface of [edge1] nor
    the one that drops its path label gets past [tunnel1]. *)
Lemma tunnel_guard_on_modify_witness :
  (isReject (fst (devicesIdPUT edge1.(dev_id) None unassignWan admin world0)) = true
   /\ snd (devicesIdPUT edge1.(dev_id) None unassignWan admin world0) = world0)
  /\ (isReject (fst (devicesIdPUT edge1.(dev_id) None unlabelWan admin world0)) = true
      /\ snd (devicesIdPUT edge1.(dev_id) None unlabelWan admin world0) = world0).
Proof.
  split.
  - apply (@tunnel_guard_on_modify office edge1.(dev_id) None unassignWan admin world0
             [orgA] edge1 [wan1Unassigned] wan1 wan1Unassigned tunnel1);
      try reflexivity.
    + simpl. auto.
    + simpl. auto.
    + split; [reflexivity|left; reflexivity].
    + left. reflexivity.
  - apply (@tunnel_guard_on_modify office edge1.(dev_id) None unlabelWan admin world0
             [orgA] edge1 [wan1Unlabelled] wan1 wan1Unlabelled tunnel1);
      try reflexivity.
    + simpl. auto.
    + simpl. auto.
    + split; [reflexivity|left; reflexivity].
    + right. split; [reflexivity|]. exists green.(label_id). split; [|split].
      * exists [green]. split; [reflexivity|simpl; auto].
      * intros (labels & Hlabels & Hin). injection Hlabels as <-. destruct Hin.
      * reflexivity.
Defined.

(** The request that puts a gateway on the LAN interface of [edge1] is
    rejected, and neither the queue nor the record of dispatcher calls
    has grown. *)
Lemma invalid_intent_never_dispatched_witness :
  isReject (fst (devicesIdPUT edge1.(dev_id) None gatewayOnLan admin world1)) = true
  /\ snd (devicesIdPUT edge1.(dev_id) None gatewayOnLan admin world1) = world1
  /\ queue (snd (devicesIdPUT edge1.(dev_id) None gatewayOnLan admin world1)) = []
  /\ dispatched (snd (devicesIdPUT edge1.(dev_id) None gatewayOnLan admin world1)) = [].
Proof.
  apply (@invalid_intent_never_dispatched office edge1.(dev_id) None gatewayOnLan admin
           world1 [orgA] edge1 gatewayOnLanMerged); try reflexivity.
  right.
  exists (mkInterface "5f00000000000000000000a2" "eth1" "0000:00:08.00" true "LAN"
                      "10.0.0.0" "24" "10.0.0.254" "NONE" "no" "0" (Some [])
                      false "4789" "Static" "yes" true).
  split; [simpl; auto|discriminate].
Defined.

(** A second DHCP server for the interface of [dhcpLan1] is rejected,
    and the first request left [edge1] with one server per interface. *)
Lemma one_dhcp_server_per_interface_witness :
  (isReject (fst (devicesIdDhcpPOST edge1.(dev_id) None dhcpLan1 admin afterAdd)) = true
   /\ snd (devicesIdDhcpPOST edge1.(dev_id) None dhcpLan1 admin afterAdd) = afterAdd)
  /\ oneDhcpPerInterface edge1Waiting.
Proof.
  destruct (@one_dhcp_server_per_interface office) as [Hreject Hkeeps]. split.
  - apply (Hreject edge1.(dev_id) None dhcpLan1 admin afterAdd [orgA] edge1Waiting waiting);
      try reflexivity.
    simpl. auto.
  - apply (Hkeeps edge1.(dev_id) None dhcpLan1 admin world0).
    + distinct.
    + intros d [<-|[<-|[]]]; constructor.
    + simpl. auto.
Defined.

(** The claim of C10 fails through [devicesIdPUT]: on [world1], where no
    device has a DHCP server, the request [twoServers] is accepted, and
    [edge1] is stored with two servers for the interface 0000:00:08.00. *)
Lemma put_stores_two_servers_for_one_interface :
  (forall d, In d world1.(devices) -> oneDhcpPerInterface d)
  /\ isReject (fst (devicesIdPUT edge1.(dev_id) None Cases.twoServers admin world1)) = false
  /\ devices (snd (devicesIdPUT edge1.(dev_id) None Cases.twoServers admin world1))
     = [set_dhcp (fun _ => [waiting; Cases.third]) edge1; edge2]
  /\ waiting.(dhcp_interface) = Cases.third.(dhcp_interface)
  /\ ~ oneDhcpPerInterface (set_dhcp (fun _ => [waiting; Cases.third]) edge1).
Proof.
  split; [intros d [<-|[<-|[]]]; constructor|].
  split; [reflexivity|]. split; [reflexivity|]. split; [reflexivity|].
  unfold oneDhcpPerInterface. simpl. intros Hnd.
  inversion Hnd as [|? ? Hnotin _]. apply Hnotin. simpl. auto.
Qed.

End Installation.


(** * More properties *)

(** ** The job handlers, beyond the claims *)

Section Handlers.

Lemma findOneAndUpdate_first (A : Type) (q : A -> bool) (u : A -> A) (coll : list A) :
  firstMatchUpdated q u coll (Mongo.findOneAndUpdate q u coll).
Proof.
  induction coll as [|d rest IH]; simpl; [left; reflexivity|].
  destruct (q d) eqn:Hd.
  - right. exists [], d, rest. repeat split; auto. intros x [].
  - destruct IH as [IH|(before & e & after & -> & Hbefore & He & IH)].
    + left. rewrite IH. reflexivity.
    + right. exists (d :: before), e, after. rewrite IH. repeat split; auto.
      intros x [<-|Hx]; auto.
Qed.

Lemma findOneAndUpdate_ext (A : Type) (q : A -> bool) (u v : A -> A) (coll : list A) :
  (forall d, u d = v d) -> Mongo.findOneAndUpdate q u coll = Mongo.findOneAndUpdate q v coll.
Proof.
  intros H. induction coll as [|d rest IH]; simpl; [reflexivity|].
  rewrite H, IH. reflexivity.
Qed.

Lemma findOneAndUpdate_after (A : Type) (q : A -> bool) (u v : A -> A) (coll : list A) :
  (forall d, q (v d) = q d) ->
  Mongo.findOneAndUpdate q u (Mongo.findOneAndUpdate q v coll)
  = Mongo.findOneAndUpdate q (fun d => u (v d)) coll.
Proof.
  intros Hq. induction coll as [|d rest IH]; simpl; [reflexivity|].
  destruct (q d) eqn:Hd; simpl.
  - rewrite Hq, Hd. reflexivity.
  - rewrite Hd, IH. reflexivity.
Qed.

Lemma setElem_after (A : Type) (key : A -> ObjectId) (x : ObjectId) (u v : A -> A)
      (arr : list A) :
  (forall e, key (v e) = key e) ->
  Mongo.setElem key x u (Mongo.setElem key x v arr)
  = Mongo.setElem key x (fun e => u (v e)) arr.
Proof.
  intros Hk. unfold Mongo.setElem. rewrite map_map. apply map_ext. intros e.
  destruct (String.eqb (key e) x) eqn:He; [rewrite Hk, He|rewrite He]; reflexivity.
Qed.

Lemma pull_after_setElem (A : Type) (key : A -> ObjectId) (x : ObjectId) (v : A -> A)
      (arr : list A) :
  (forall e, key (v e) = key e) ->
  Mongo.pull key x (Mongo.setElem key x v arr) = Mongo.pull key x arr.
Proof.
  intros Hk. unfold Mongo.pull, Mongo.setElem.
  induction arr as [|e rest IH]; simpl; [reflexivity|].
  destruct (String.eqb (key e) x) eqn:He.
  - rewrite Hk, He. simpl. exact IH.
  - rewrite He. simpl. rewrite IH. reflexivity.
Qed.

Lemma setRouteStatus_routes rid s d :
  map withoutStatus (staticroutes (dhcp.setRouteStatus rid s d))
  = map withoutStatus (staticroutes d).
Proof.
  destruct rid as [rid|]; [|reflexivity]. simpl.
  unfold Mongo.setElem. rewrite map_map. apply map_ext. intros r.
  destruct (String.eqb (route_id r) rid); reflexivity.
Qed.

Lemma withoutRoutes_setRouteStatus rid s d :
  withoutRoutes (dhcp.setRouteStatus rid s d) = withoutRoutes d.
Proof. destruct rid; reflexivity. Qed.

(** X1. The three handlers write nothing but static routes: the devices
    are the same in number and order and, their [staticroutes] apart, in
    every field. *)
Theorem handlers_write_routes_only :
  forall (jobId : nat) (res : option JobResult) (job : Job) (devices : list Device),
    map withoutRoutes (dhcp.complete jobId res devices) = map withoutRoutes devices
    /\ map withoutRoutes (dhcp.error jobId res devices) = map withoutRoutes devices
    /\ map withoutRoutes (dhcp.remove job devices) = map withoutRoutes devices.
Proof.
  intros jobId res job devices. repeat split.
  - unfold dhcp.complete.
    destruct res as [res|]; [|reflexivity].
    destruct (deviceId res); [|reflexivity].
    destruct (routeId res); [|reflexivity].
    destruct (String.eqb (res_message res) ""); [reflexivity|].
    destruct (String.eqb (res_message res) "remove-route");
      apply findOneAndUpdate_map; reflexivity.
  - unfold dhcp.error.
    destruct res as [res|]; [|reflexivity].
    destruct (String.eqb (res_message res) "remove-route");
      apply findOneAndUpdate_map; intros d; apply withoutRoutes_setRouteStatus.
  - unfold dhcp.remove.
    destruct (includes _ _); [|reflexivity].
    apply findOneAndUpdate_map; intros d; apply withoutRoutes_setRouteStatus.
Qed.

(** X2. [error] and [remove] never add, delete or reorder a static route
    and change no field of a route but its status. *)
Theorem failure_and_removal_write_statuses_only :
  forall (jobId : nat) (res : option JobResult) (job : Job) (devices : list Device),
    map (fun d => map withoutStatus (staticroutes d)) (dhcp.error jobId res devices)
    = map (fun d => map withoutStatus (staticroutes d)) devices
    /\ map (fun d => map withoutStatus (staticroutes d)) (dhcp.remove job devices)
       = map (fun d => map withoutStatus (staticroutes d)) devices.
Proof.
  intros jobId res job devices. split.
  - unfold dhcp.error.
    destruct res as [res|]; [|reflexivity].
    destruct (String.eqb (res_message res) "remove-route");
      apply findOneAndUpdate_map; intros d; apply setRouteStatus_routes.
  - unfold dhcp.remove.
    destruct (includes _ _); [|reflexivity].
    apply findOneAndUpdate_map; intros d; apply setRouteStatus_routes.
Qed.

(** X3. Every handler touches at most one device, the first of the
    collection whose id is the [deviceId] of the result; all the others stay
    as they are. *)
Theorem handlers_touch_one_device :
  forall (jobId : nat) (res : JobResult) (job : Job) (devices : list Device),
    (exists u, firstMatchUpdated (byId res.(deviceId)) u devices
                                 (dhcp.complete jobId (Some res) devices))
    /\ (exists u, firstMatchUpdated (byId res.(deviceId)) u devices
                                    (dhcp.error jobId (Some res) devices))
    /\ (exists u, firstMatchUpdated (byId job.(response_data).(deviceId)) u devices
                                    (dhcp.remove job devices)).
Proof.
  intros jobId res job devices. repeat split.
  - unfold dhcp.complete.
    destruct (deviceId res) as [did|] eqn:Hdid; [|exists (fun d => d); left; reflexivity].
    destruct (routeId res); [|exists (fun d => d); left; reflexivity].
    destruct (String.eqb (res_message res) ""); [exists (fun d => d); left; reflexivity|].
    destruct (String.eqb (res_message res) "remove-route");
      eexists; apply findOneAndUpdate_first.
  - unfold dhcp.error.
    destruct (String.eqb (res_message res) "remove-route");
      eexists; apply findOneAndUpdate_first.
  - unfold dhcp.remove.
    destruct (includes _ _); [|exists (fun d => d); left; reflexivity].
    eexists; apply findOneAndUpdate_first.
Qed.

(** X4. Delivering the same failure a second time changes nothing. *)
Theorem error_idempotent :
  forall (jobId : nat) (res : option JobResult) (devices : list Device),
    dhcp.error jobId res (dhcp.error jobId res devices) = dhcp.error jobId res devices.
Proof.
  intros jobId res devices. unfold dhcp.error.
  destruct res as [res|]; [|reflexivity].
  destruct (String.eqb (res_message res) "remove-route");
    (apply findOneAndUpdate_twice; intros d;
     [apply byId_setRouteStatus|];
     destruct (routeId res) as [rid|]; [|reflexivity];
     destruct d; unfold dhcp.setRouteStatus, set_staticroutes; simpl;
     rewrite setElem_twice; reflexivity).
Qed.

(** X5. Removing the same job a second time changes nothing. *)
Theorem remove_idempotent :
  forall (job : Job) (devices : list Device),
    dhcp.remove job (dhcp.remove job devices) = dhcp.remove job devices.
Proof.
  intros job devices. unfold dhcp.remove.
  destruct (includes _ _); [|reflexivity].
  apply findOneAndUpdate_twice; intros d; [apply byId_setRouteStatus|].
  destruct (routeId (response_data job)) as [rid|]; [|reflexivity].
  destruct d; unfold dhcp.setRouteStatus, set_staticroutes; simpl.
  rewrite setElem_twice; reflexivity.
Qed.

(** X6. A completion that arrives after the failure, or after the removal,
    of the same job wins: the store is as if only the completion had been
    delivered.  The result has to carry a device id, an entry id and a
    message, or [complete] does nothing. *)
Theorem completion_overrides :
  forall (jobId : nat) (res : JobResult) (job : Job) (devices : list Device) did rid,
    res.(deviceId) = Some did ->
    res.(routeId) = Some rid ->
    res.(res_message) <> "" ->
    job.(response_data) = res ->
    dhcp.complete jobId (Some res) (dhcp.error jobId (Some res) devices)
    = dhcp.complete jobId (Some res) devices
    /\ dhcp.complete jobId (Some res) (dhcp.remove job devices)
       = dhcp.complete jobId (Some res) devices.
Proof.
  intros jobId res job devices did rid Hdid Hrid Hmsg Hjob.
  apply String.eqb_neq in Hmsg.
  assert (Hafter : forall s,
             dhcp.complete jobId (Some res)
               (Mongo.findOneAndUpdate (byId (Some did))
                                       (dhcp.setRouteStatus (Some rid) s) devices)
             = dhcp.complete jobId (Some res) devices).
  { intros s. unfold dhcp.complete. rewrite Hdid, Hrid, Hmsg.
    destruct (String.eqb (res_message res) "remove-route");
      (rewrite findOneAndUpdate_after by (intros d; apply byId_set_staticroutes);
       apply findOneAndUpdate_ext; intros d;
       destruct d; unfold dhcp.setRouteStatus, set_staticroutes; simpl; f_equal).
    - apply pull_after_setElem. reflexivity.
    - rewrite setElem_after by reflexivity. reflexivity. }
  split.
  - unfold dhcp.error at 1. rewrite Hdid, Hrid.
    destruct (String.eqb (res_message res) "remove-route"); apply Hafter.
  - unfold dhcp.remove at 1. rewrite Hjob, Hdid, Hrid.
    destruct (includes _ _); [apply Hafter|reflexivity].
Qed.

(** X7. Whatever [apply] queues for an agent of version 1 or later - an
    add as well as a delete - comes back to the handlers with the id of the
    device, the id of the entry and a message that is not [remove-route]:
    its completion only marks routes [complete] and deletes none, and its
    failure only marks [add-failed], never [remove-failed]. *)
Theorem applied_jobs_reach_one_branch :
  forall (version : nat) (device : Device) (user : User) (data : DhcpData)
         (jobs : list Job) (job : Job),
    dhcp.apply version device user data = Ok jobs ->
    In job jobs ->
    jobs = [job]
    /\ job.(response_method) = "dhcp"
    /\ (forall (jobId : nat) (devices : list Device),
           dhcp.complete jobId (Some job.(response_data)) devices
           = Mongo.findOneAndUpdate (byId (Some device.(dev_id)))
               (dhcp.setRouteStatus (Some data.(data_id)) "complete") devices
           /\ dhcp.error jobId (Some job.(response_data)) devices
              = Mongo.findOneAndUpdate (byId (Some device.(dev_id)))
                  (dhcp.setRouteStatus (Some data.(data_id)) "add-failed") devices).
Proof.
  intros version device user data jobs job Happly Hin.
  unfold dhcp.apply in Happly.
  destruct (Nat.eqb version 0); [discriminate|].
  injection Happly as <-. destruct Hin as [<-|[]].
  split; [reflexivity|]. split; [reflexivity|].
  intros jobId devices. unfold dhcp.complete, dhcp.error. simpl.
  destruct (String.eqb (action data) "del"); split; reflexivity.
Qed.

End Handlers.

(** ** The validators, beyond the claims *)

Section Validators.

Import validators validatorsMore.

Lemma checkInterface_rules ifc : checkInterface ifc = None -> interfaceRules ifc.
Proof.
  unfold checkInterface, invalid, interfaceRules.
  destruct (includes ["WAN"; "LAN"] (type ifc)) eqn:Hty; simpl; [|discriminate].
  destruct (net.isIPv4 (IPv4 ifc)) eqn:Hip; simpl; [|discriminate].
  destruct (String.eqb (IPv4Mask ifc) "") eqn:Hmask; [discriminate|].
  apply String.eqb_neq in Hmask.
  apply includes_In in Hty. simpl in Hty.
  assert (Htype : type ifc = "WAN" \/ type ifc = "LAN") by (intuition auto).
  clear Hty.
  destruct (String.eqb (type ifc) "LAN") eqn:Hlan.
  - apply String.eqb_eq in Hlan.
    destruct (pathlabels ifc) as [labels|]; [|discriminate].
    destruct labels as [|p ps]; simpl; [|discriminate].
    destruct (String.eqb (gateway ifc) "") eqn:Hgw; simpl; [|discriminate].
    apply String.eqb_eq in Hgw.
    intros _.
    split; [exact Htype|]. split; [reflexivity|]. split; [exact Hmask|].
    split; [intros _; split; [reflexivity|exact Hgw]|].
    intros Hwan. rewrite Hlan in Hwan. discriminate.
  - apply String.eqb_neq in Hlan.
    destruct Htype as [Hwan|Hwan]; [|contradiction].
    rewrite Hwan. simpl.
    destruct (String.eqb (routing ifc) "OSPF") eqn:Hospf; [discriminate|].
    destruct (net.isIPv4 (gateway ifc)) eqn:Hgw; simpl; [|discriminate].
    apply String.eqb_neq in Hospf. intros _.
    split; [left; reflexivity|]. split; [reflexivity|]. split; [exact Hmask|].
    split; [intros [=]|]. intros _. split; [exact Hospf|reflexivity].
Qed.

(** X8. What [validateDevice] accepts keeps the rules of the data model:
    it has an assigned WAN and an assigned LAN interface, every assigned
    interface keeps the interface rules, no assigned WAN subnet overlaps an
    assigned LAN subnet and, with [checkOverlap], every assigned LAN subnet
    is either spelled as a subnet of the organization or apart from it. *)
Theorem validateDevice_sound :
  forall (device : Device) (checkOverlap : bool) (subnets : list OrgSubnet),
    accepted (validateDevice device checkOverlap subnets) = true ->
    assignedOf "WAN" device <> []
    /\ assignedOf "LAN" device <> []
    /\ (forall ifc, In ifc device.(interfaces) -> ifc.(isAssigned) = true ->
                    interfaceRules ifc)
    /\ (forall wanIfc lanIfc,
           In wanIfc (assignedOf "WAN" device) -> In lanIfc (assignedOf "LAN" device) ->
           cidr.overlap (subnetOf wanIfc) (subnetOf lanIfc) = Ok false)
    /\ (checkOverlap = true ->
        forall orgDevice lanIfc,
          In orgDevice subnets -> In lanIfc (assignedOf "LAN" device) ->
          subnetOf lanIfc = orgDevice.(subnet)
          \/ cidr.overlap (subnetOf lanIfc) orgDevice.(subnet) = Ok false).
Proof.
  intros device checkOverlap subnets Hacc.
  apply validateDevice_accepts_iff in Hacc as (H0 & H1 & H2 & H3).
  apply orb_false_elim in H0 as [_ H0]. apply orb_false_elim in H0 as [Hwan Hlan].
  rewrite forOf_falls_through in H1, H2.
  split; [intros E; rewrite E in Hwan; discriminate|].
  split; [intros E; rewrite E in Hlan; discriminate|].
  split; [|split].
  - intros ifc Hin Has. apply checkInterface_rules, H1, filter_In. auto.
  - intros w l Hw Hl. specialize (H2 w Hw). rewrite forOf_falls_through in H2.
    specialize (H2 l Hl). unfold checkWanLan, invalid in H2.
    destruct (cidr.overlap _ _) as [[|]|e]; try discriminate. reflexivity.
  - intros -> o l Ho Hl.
    assert (Hlen : Nat.ltb 0 (List.length subnets) = true)
      by (destruct subnets; [destruct Ho|reflexivity]).
    rewrite Hlen in H3. simpl in H3.
    rewrite forOf_falls_through in H3. specialize (H3 o Ho).
    rewrite forOf_falls_through in H3. specialize (H3 l Hl).
    unfold checkOrgSubnet, invalid in H3.
    destruct (String.eqb (subnetOf l) (subnet o)) eqn:Heq.
    + left. apply String.eqb_eq. exact Heq.
    + right. destruct (cidr.overlap _ _) as [[|]|e]; try discriminate. reflexivity.
Qed.

Lemma filter_twice (A : Type) (p : A -> bool) (l : list A) :
  filter p (filter p l) = filter p l.
Proof.
  induction l as [|x rest IH]; simpl; [reflexivity|].
  destruct (p x) eqn:Hp; simpl; [rewrite Hp, IH|]; auto.
Qed.

(** X9. The interfaces that are not assigned play no part: [validateDevice]
    answers for a device what it answers for the device without them. *)
Theorem validateDevice_ignores_unassigned :
  forall (device : Device) (checkOverlap : bool) (subnets : list OrgSubnet),
    validateDevice (set_interfaces (filter isAssigned device.(interfaces)) device)
                   checkOverlap subnets
    = validateDevice device checkOverlap subnets.
Proof.
  intros device checkOverlap subnets. unfold validateDevice. simpl.
  rewrite filter_twice. reflexivity.
Qed.

Lemma org_overlap_refused device subnets orgDevice lanIfc :
  In orgDevice subnets ->
  In lanIfc (assignedOf "LAN" device) ->
  subnetOf lanIfc <> orgDevice.(subnet) ->
  cidr.overlap (subnetOf lanIfc) orgDevice.(subnet) = Ok true ->
  accepted (validateDevice device true subnets) = false.
Proof.
  intros Ho Hl Hneq Hov.
  destruct (accepted _) eqn:Hacc; [|reflexivity].
  apply validateDevice_accepts_iff in Hacc as (_ & _ & _ & H3).
  assert (Hlen : Nat.ltb 0 (List.length subnets) = true)
    by (destruct subnets; [destruct Ho|reflexivity]).
  rewrite Hlen in H3. simpl in H3.
  rewrite forOf_falls_through in H3. specialize (H3 orgDevice Ho).
  rewrite forOf_falls_through in H3. specialize (H3 lanIfc Hl).
  unfold checkOrgSubnet in H3. apply String.eqb_neq in Hneq.
  rewrite Hneq, Hov in H3. discriminate.
Qed.

(** X10. With [checkOverlap], an assigned LAN subnet that overlaps a subnet
    of the organization spelled differently makes [validateDevice] refuse
    the device. *)
Theorem org_subnet_overlap_refused :
  forall (device : Device) (subnets : list OrgSubnet) (orgDevice : OrgSubnet)
         (lanIfc : Interface),
    In orgDevice subnets ->
    In lanIfc (assignedOf "LAN" device) ->
    subnetOf lanIfc <> orgDevice.(subnet) ->
    cidr.overlap (subnetOf lanIfc) orgDevice.(subnet) = Ok true ->
    accepted (validateDevice device true subnets) = false.
Proof. exact org_overlap_refused. Qed.

Lemma fold_left_app_flat (A : Type) (ls : list (list A)) (acc : list A) :
  fold_left (fun acc val => acc ++ val) ls acc = acc ++ List.concat ls.
Proof.
  revert acc. induction ls as [|l rest IH]; intros acc; simpl.
  - rewrite app_nil_r. reflexivity.
  - rewrite IH, app_assoc. reflexivity.
Qed.

(** The subnets of an organization are those of the assigned LAN
    interfaces of its devices, under the name of the device. *)
Lemma getAllOrganiztionLanSubnets_In orgId devices o :
  In o (getAllOrganiztionLanSubnets orgId devices)
  <-> exists d ifc, In d devices /\ d.(org) = orgId
                    /\ In ifc (assignedOf "LAN" d)
                    /\ o = mkOrgSubnet d.(dev_name) (subnetOf ifc).
Proof.
  unfold getAllOrganiztionLanSubnets. rewrite fold_left_app_flat. simpl.
  rewrite in_concat. split.
  - intros (l & Hl & Ho). apply in_map_iff in Hl as (d & <- & Hd).
    apply filter_In in Hd as [Hd Horg]. apply String.eqb_eq in Horg.
    apply in_map_iff in Ho as (ifc & <- & Hifc).
    apply filter_In in Hifc as [Hifc Hc]. apply andb_prop in Hc as [Has Hty].
    exists d, ifc. repeat split; auto.
    apply assignedOf_In. repeat split; auto.
    + destruct (isAssigned ifc); [reflexivity|discriminate].
    + apply String.eqb_eq. exact Hty.
  - intros (d & ifc & Hd & Horg & Hifc & ->).
    apply assignedOf_In in Hifc as (Hifc & Has & Hty).
    exists (map (fun lanSubnet =>
                   mkOrgSubnet d.(dev_name) (lanSubnet.(IPv4) ++ "/" ++ lanSubnet.(IPv4Mask)))
                (filter (fun interface => Bool.eqb interface.(isAssigned) true
                                          && String.eqb interface.(type) "LAN")
                        d.(interfaces))).
    split.
    + apply in_map_iff. exists d. split; [reflexivity|].
      apply filter_In. split; [exact Hd|]. apply String.eqb_eq. exact Horg.
    + apply in_map_iff. exists ifc. split; [reflexivity|].
      apply filter_In. split; [exact Hifc|]. rewrite Has, Hty. reflexivity.
Qed.

(** X11. Checked against the subnets of its own organization, a stored
    device with two assigned LAN subnets that overlap and are spelled
    differently is refused: the list of the organization holds the device's
    own subnets, and only equal spellings are skipped. *)
Theorem own_lan_overlap_refused_against_organization :
  forall (devices : list Device) (device : Device) (lanA lanB : Interface),
    In device devices ->
    In lanA (assignedOf "LAN" device) ->
    In lanB (assignedOf "LAN" device) ->
    subnetOf lanA <> subnetOf lanB ->
    cidr.overlap (subnetOf lanA) (subnetOf lanB) = Ok true ->
    accepted (validateDevice device true
                             (getAllOrganiztionLanSubnets device.(org) devices)) = false.
Proof.
  intros devices device lanA lanB Hd Ha Hb Hneq Hov.
  apply (org_overlap_refused device _ (mkOrgSubnet device.(dev_name) (subnetOf lanB)) lanA);
    auto.
  apply getAllOrganiztionLanSubnets_In. exists device, lanB. auto.
Qed.

End Validators.

(** ** Modify-device messages *)

Section ModifyMessages.

Import validatorsMore.

Lemma digit_bounds c d : net.digit c = Some d -> (d <= 9)%N /\ (48 <= N_of_ascii c <= 57)%N.
Proof.
  unfold net.digit.
  destruct ((48 <=? N_of_ascii c)%N && (N_of_ascii c <=? 57)%N) eqn:H; [|discriminate].
  apply andb_prop in H as [H1 H2]. apply N.leb_le in H1, H2.
  intros [= <-]. lia.
Qed.

Lemma digit_not_space c d : net.digit c = Some d -> js.isWhiteSpace c = false.
Proof.
  intros H. apply digit_bounds in H as [_ H]. unfold js.isWhiteSpace. simpl.
  repeat match goal with
         | |- context [N.eqb ?a ?b] =>
             replace (N.eqb a b) with false by (symmetry; apply N.eqb_neq; lia)
         end.
  reflexivity.
Qed.

(** A prefix length that the CIDR parser reads is a valid mask. *)
Lemma trim_one a : js.isWhiteSpace a = false -> js.trim (String a "") = String a "".
Proof.
  intros Ha. unfold js.trim. cbn [js.trimStart js.reverse]. rewrite Ha.
  cbn [js.trimStart js.reverse]. rewrite Ha. reflexivity.
Qed.

Lemma trim_two a b :
  js.isWhiteSpace a = false -> js.isWhiteSpace b = false ->
  js.trim (String a (String b "")) = String a (String b "").
Proof.
  intros Ha Hb. unfold js.trim. cbn [js.trimStart js.reverse]. rewrite Ha.
  cbn [js.trimStart js.reverse]. rewrite Hb. reflexivity.
Qed.

Lemma canonical_mask_valid p n :
  net.number 2 32 p = Some n -> validateIPv4Mask (Some p) = true.
Proof.
  unfold net.number.
  destruct p as [|a rest]; [discriminate|].
  destruct (Nat.ltb 2 (String.length (String a rest))) eqn:Hlen; [discriminate|].
  destruct (Ascii.eqb a "0" && negb (String.eqb rest "")); [discriminate|].
  destruct rest as [|b rest].
  - cbn [net.decimal]. destruct (net.digit a) as [x|] eqn:Ha; [|discriminate].
    destruct (_ <=? 32)%N eqn:Hx; [|discriminate]. intros _.
    apply N.leb_le in Hx.
    unfold validateIPv4Mask, js.numberOfShort.
    rewrite (trim_one _ (digit_not_space _ _ Ha)), Ha.
    cbn [isEmpty String.eqb negb String.length Nat.ltb Nat.leb andb].
    apply andb_true_intro. split; apply Z.leb_le; lia.
  - destruct rest as [|c rest]; [|simpl in Hlen; discriminate].
    cbn [net.decimal]. destruct (net.digit a) as [x|] eqn:Ha; [|discriminate].
    destruct (net.digit b) as [y|] eqn:Hb; [|discriminate].
    destruct (_ <=? 32)%N eqn:Hx; [|discriminate]. intros _.
    apply N.leb_le in Hx.
    unfold validateIPv4Mask, js.numberOfShort.
    rewrite (trim_two _ _ (digit_not_space _ _ Ha) (digit_not_space _ _ Hb)), Ha, Hb.
    cbn [isEmpty String.eqb negb String.length Nat.ltb Nat.leb andb].
    apply andb_true_intro. split; apply Z.leb_le; lia.
Qed.

Lemma parsed_address_passes ifc a ip prefix network :
  ifc.(addr) = Some a ->
  net.split "/" a = [ip; prefix] ->
  cidr.parse a = Ok network ->
  checkAddress ifc = None.
Proof.
  intros Haddr Hsplit Hparse.
  unfold cidr.parse in Hparse. rewrite Hsplit in Hparse.
  destruct (net.parseIPv4 ip) as [x|] eqn:Hip; [|discriminate].
  destruct (net.number 2 32 prefix) as [n|] eqn:Hn; [|discriminate].
  unfold checkAddress. rewrite Haddr.
  destruct (String.eqb a "") eqn:Ha.
  { apply String.eqb_eq in Ha. subst a. discriminate. }
  rewrite Hsplit. cbn [hd tl hd_error]. unfold net.isIPv4. rewrite Hip.
  rewrite (canonical_mask_valid _ _ Hn). reflexivity.
Qed.

(** X12. A message each of whose interfaces has an address [a.b.c.d/n]
    that the CIDR parser reads as a network is accepted, whether it is an
    array of interfaces or one interface; so is the empty array. *)
Theorem parsed_addresses_accepted :
  forall (msg : ModifyDeviceMsg) (ifcs : list ModifyInterface),
    (msg = interfaceArray ifcs \/ exists ifc, msg = oneInterface ifc /\ ifcs = [ifc]) ->
    (forall ifc, In ifc ifcs ->
                 exists a ip prefix network,
                   ifc.(addr) = Some a
                   /\ net.split "/" a = [ip; prefix]
                   /\ cidr.parse a = Ok network) ->
    validateModifyDeviceMsg msg = mkValidation true "".
Proof.
  intros msg ifcs Hmsg Hall.
  assert (Hloop : forOf ifcs checkAddress = None).
  { apply forOf_falls_through. intros ifc Hin.
    destruct (Hall ifc Hin) as (a & ip & prefix & network & Ha & Hs & Hp).
    apply (parsed_address_passes ifc a ip prefix network); assumption. }
  unfold validateModifyDeviceMsg.
  destruct Hmsg as [->|(ifc & -> & ->)]; rewrite Hloop; reflexivity.
Qed.

(** X13. A message with an interface that has no address, an empty one,
    or one without a slash is refused, wherever the interface stands in
    the array. *)
Theorem address_without_mask_refused :
  forall (ifcs : list ModifyInterface) (ifc : ModifyInterface),
    In ifc ifcs ->
    (ifc.(addr) = None \/ exists a, ifc.(addr) = Some a /\ List.length (net.split "/" a) = 1) ->
    (validateModifyDeviceMsg (interfaceArray ifcs)).(valid) = false.
Proof.
  intros ifcs ifc Hin Hbad.
  assert (Hifc : checkAddress ifc <> None).
  { unfold checkAddress.
    destruct Hbad as [->|(a & -> & Hlen)]; [simpl; discriminate|].
    destruct (String.eqb a ""); [simpl; discriminate|].
    destruct (net.split "/" a) as [|ip [|mask rest]]; try discriminate.
    simpl. rewrite orb_true_r. discriminate. }
  unfold validateModifyDeviceMsg.
  destruct (forOf ifcs checkAddress) as [r|] eqn:Hloop.
  - apply forOf_returns in Hloop as (x & _ & Hx).
    unfold checkAddress in Hx. destruct (negb _ || negb _); [|discriminate].
    injection Hx as <-. reflexivity.
  - exfalso. apply Hifc. rewrite forOf_falls_through in Hloop. exact (Hloop ifc Hin).
Qed.

End ModifyMessages.

(** ** The other DHCP methods *)

Section DhcpMethods.

Context {C : Collaborators}.
Import DevicesService DevicesServiceDhcp.

Lemma firstn_min (A : Type) (l : list A) (k : nat) :
  firstn (Nat.min k (List.length l)) l = firstn k l.
Proof.
  destruct (Nat.le_ge_cases k (List.length l)) as [H|H].
  - rewrite Nat.min_l by exact H. reflexivity.
  - rewrite Nat.min_r by exact H. rewrite !firstn_all2; auto.
Qed.

(** A page asked for with a natural offset and a positive limit is the
    [k] entries after the first [o]. *)
Lemma page_nat (entries : list Dhcp) (o k : nat) :
  0 < k ->
  page (Some (Z.of_nat o)) (Some (Z.of_nat k)) entries = firstn k (skipn o entries).
Proof.
  intros Hk. unfold page, orElseZ.
  assert (Hstart : (if (Z.of_nat o =? 0)%Z then 0%Z else Z.of_nat o) = Z.of_nat o).
  { destruct (Z.of_nat o =? 0)%Z eqn:E; [apply Z.eqb_eq in E; lia|reflexivity]. }
  assert (Hsize : (if (Z.of_nat k =? 0)%Z then Z.of_nat (List.length entries)
                   else Z.of_nat k) = Z.of_nat k).
  { destruct (Z.of_nat k =? 0)%Z eqn:E; [apply Z.eqb_eq in E; lia|reflexivity]. }
  rewrite Hstart, Hsize.
  destruct ((0 <? Z.of_nat (List.length entries))%Z
            && (Z.of_nat o <? Z.of_nat (List.length entries))%Z) eqn:Hin.
  - apply andb_prop in Hin as [_ Hlt]. apply Z.ltb_lt in Hlt.
    unfold js.slice.
    assert (H1 : (Z.of_nat o <? 0)%Z = false) by (apply Z.ltb_ge; lia).
    assert (H2 : (Z.min (Z.of_nat o + Z.of_nat k) (Z.of_nat (List.length entries)) <? 0)%Z
                 = false) by (apply Z.ltb_ge; lia).
    rewrite H1, H2.
    replace (Z.to_nat (Z.min (Z.of_nat o) (Z.of_nat (List.length entries)))) with o by lia.
    replace (Z.to_nat _) with (Nat.min k (List.length (skipn o entries)))
      by (rewrite length_skipn; lia).
    apply firstn_min.
  - rewrite skipn_all2; [destruct k; reflexivity|].
    apply andb_false_iff in Hin as [H|H]; apply Z.ltb_ge in H; lia.
Qed.

Lemma page_all (entries : list Dhcp) : page None None entries = entries.
Proof.
  unfold page, orElseZ.
  destruct (0 <? Z.of_nat (List.length entries))%Z eqn:Hlen.
  - cbn [andb]. unfold js.slice.
    assert (H1 : (0 <? 0)%Z = false) by reflexivity.
    assert (H2 : (Z.min (0 + Z.of_nat (List.length entries))
                        (Z.of_nat (List.length entries)) <? 0)%Z = false)
      by (apply Z.ltb_ge; lia).
    rewrite H1, H2.
    replace (Z.to_nat (Z.min 0 (Z.of_nat (List.length entries)))) with 0 by lia.
    replace (Z.to_nat _) with (List.length entries) by lia.
    apply firstn_all.
  - cbn [andb]. apply Z.ltb_ge in Hlen.
    destruct entries; [reflexivity|simpl in Hlen; lia].
Qed.

(** X14. [devicesIdDhcpGET] pages through the DHCP servers of a device:
    with natural offsets and positive limits, a page of [k] entries and
    the next page of [k'] entries are together the page of [k + k']
    entries; a page has at most as many entries as its limit; without
    offset and limit the answer is the whole list. *)
Theorem dhcp_pages_concatenate :
  forall (id : ObjectId) (org' : option string) (user : User) (w : World)
         (orgList : list ObjectId) (device : Device) (o k k' : nat),
    getAccessTokenOrgList user org' false = Ok orgList ->
    Mongo.findOne (inScope id orgList) w.(devices) = Some device ->
    0 < k -> 0 < k' ->
    exists first next both,
      devicesIdDhcpGET id (Some (Z.of_nat o)) (Some (Z.of_nat k)) org' user w
      = successList first 200
      /\ devicesIdDhcpGET id (Some (Z.of_nat (o + k))) (Some (Z.of_nat k')) org' user w
         = successList next 200
      /\ devicesIdDhcpGET id (Some (Z.of_nat o)) (Some (Z.of_nat (k + k'))) org' user w
         = successList both 200
      /\ first ++ next = both
      /\ List.length first <= k
      /\ devicesIdDhcpGET id None None org' user w = successList device.(dhcp) 200.
Proof.
  intros id org' user w orgList device o k k' Hget Hfind Hk Hk'.
  unfold devicesIdDhcpGET. rewrite Hget, Hfind.
  do 3 eexists. repeat split.
  - rewrite !page_nat by lia.
    rewrite <- (firstn_skipn k (firstn (k + k') (skipn o (dhcp device)))).
    rewrite firstn_firstn, Nat.min_l by lia. f_equal.
    rewrite skipn_firstn_comm. replace (k + k' - k) with k' by lia.
    rewrite skipn_skipn. f_equal. f_equal. lia.
  - rewrite page_nat by lia. rewrite length_firstn. lia.
  - rewrite page_all. reflexivity.
Qed.

Lemma rejectOf_isReject (e : Error) : isReject (rejectOf e) = true.
Proof. reflexivity. Qed.

(** X15. [devicesIdDhcpDhcpIdPATCH] writes no document: whatever the
    request and its outcome, devices, tunnels and billing are as before. *)
Theorem patch_writes_no_document :
  forall (id dhcpId : ObjectId) (org' : option string) (user : User) (w : World),
    devices (snd (devicesIdDhcpDhcpIdPATCH id dhcpId org' user w)) = devices w
    /\ tunnels (snd (devicesIdDhcpDhcpIdPATCH id dhcpId org' user w)) = tunnels w
    /\ billing (snd (devicesIdDhcpDhcpIdPATCH id dhcpId org' user w)) = billing w.
Proof.
  intros id dhcpId org' user w.
  unfold devicesIdDhcpDhcpIdPATCH, tryCatch, bindM, lift, get, throwIf.
  destruct (getAccessTokenOrgList user org' true) as [orgList|e]; [|auto].
  destruct (Mongo.findOne _ _) as [deviceObject|]; [|simpl; auto].
  destruct (negb (isApproved deviceObject)); [simpl; auto|].
  destruct (existsb _ _); [simpl; auto|].
  destruct (filter _ _) as [|dhcpObject [|other others]]; [simpl; auto| |simpl; auto].
  destruct (negb _ && negb _); [simpl; auto|].
  unfold dispatch, ret.
  destruct (dispatcherApply _ _) as [[ids|e] q]; simpl; auto.
Qed.

(** X16. When [devicesIdDhcpDhcpIdPATCH] does not reject, the device was
    found and approved, none of its DHCP servers was waiting, the server
    asked for was in a failed state, and the dispatcher has been called
    once: with [add] for [add-failed] and with [del] for [remove-failed]. *)
Theorem patch_resends_failed_only :
  forall (id dhcpId : ObjectId) (org' : option string) (user : User) (w : World),
    isReject (fst (devicesIdDhcpDhcpIdPATCH id dhcpId org' user w)) = false ->
    exists orgList deviceObject dhcpObject action,
      getAccessTokenOrgList user org' true = Ok orgList
      /\ Mongo.findOne (inScope id orgList) w.(devices) = Some deviceObject
      /\ deviceObject.(isApproved) = true
      /\ (forall h, In h deviceObject.(dhcp) -> js.includes "wait" h.(dhcp_status) = false)
      /\ In dhcpObject deviceObject.(dhcp)
      /\ dhcpObject.(dhcp_id) = dhcpId
      /\ ((dhcpObject.(dhcp_status) = "add-failed" /\ action = "add")
          \/ (dhcpObject.(dhcp_status) = "remove-failed" /\ action = "del"))
      /\ dispatched (snd (devicesIdDhcpDhcpIdPATCH id dhcpId org' user w))
         = dispatched w
           ++ [mkDispatchCall [deviceObject] "dhcp" user
                 (DhcpJobData (hd_error orgList)
                              (jobData dhcpObject.(dhcp_id) dhcpObject action))].
Proof.
  intros id dhcpId org' user w.
  unfold devicesIdDhcpDhcpIdPATCH, tryCatch, bindM, lift, get, throwIf.
  destruct (getAccessTokenOrgList user org' true) as [orgList|e]; [|discriminate].
  destruct (Mongo.findOne _ _) as [deviceObject|] eqn:Hfind; [|discriminate].
  destruct (negb (isApproved deviceObject)) eqn:Happroved; [discriminate|].
  destruct (existsb _ _) eqn:Hwait; [discriminate|].
  destruct (filter _ _) as [|dhcpObject [|other others]] eqn:Hfilter;
    [discriminate| |discriminate].
  destruct (negb _ && negb _) eqn:Hfailed; [discriminate|].
  unfold dispatch, ret.
  destruct (dispatcherApply _ _) as [[ids|e] q] eqn:Hdispatch; [|discriminate].
  intros _.
  assert (Hin : In dhcpObject (filter (fun s => String.eqb s.(dhcp_id) dhcpId)
                                      deviceObject.(dhcp)))
    by (rewrite Hfilter; left; reflexivity).
  apply filter_In in Hin as [Hin Hid]. apply String.eqb_eq in Hid.
  exists orgList, deviceObject, dhcpObject,
    (if String.eqb dhcpObject.(dhcp_status) "add-failed" then "add" else "del").
  split; [reflexivity|]. split; [exact Hfind|].
  split; [destruct (isApproved deviceObject); [reflexivity|discriminate]|].
  split.
  { intros h Hh. destruct (js.includes "wait" (dhcp_status h)) eqn:E; [|reflexivity].
    assert (Hex : existsb (fun d => js.includes "wait" d.(dhcp_status)) deviceObject.(dhcp)
                  = true) by (apply existsb_exists; exists h; auto).
    congruence. }
  split; [exact Hin|]. split; [exact Hid|]. split.
  - destruct (String.eqb (dhcp_status dhcpObject) "add-failed") eqn:Hadd.
    + left. split; [apply String.eqb_eq; exact Hadd|reflexivity].
    + right. simpl in Hfailed.
      destruct (String.eqb (dhcp_status dhcpObject) "remove-failed") eqn:Hrem;
        [|discriminate].
      split; [apply String.eqb_eq; exact Hrem|reflexivity].
  - simpl. reflexivity.
Qed.

Lemma find_findOneAndUpdate (A : Type) (q : A -> bool) (u : A -> A) (coll : list A) :
  (forall x, q (u x) = q x) ->
  find q (Mongo.findOneAndUpdate q u coll) = option_map u (find q coll).
Proof.
  intros Hq. induction coll as [|d rest IH]; simpl; [reflexivity|].
  destruct (q d) eqn:Hd; simpl; [rewrite Hq, Hd|rewrite Hd, IH]; reflexivity.
Qed.

Lemma findOneAndUpdate_fixed (A : Type) (q : A -> bool) (u : A -> A) (coll : list A) (d : A) :
  find q coll = Some d -> u d = d -> Mongo.findOneAndUpdate q u coll = coll.
Proof.
  induction coll as [|x rest IH]; simpl; [discriminate|].
  destruct (q x); [intros [= ->] ->; reflexivity|].
  intros Hf Hu. rewrite (IH Hf Hu). reflexivity.
Qed.

Lemma filter_map_commute (A : Type) (p : A -> bool) (f : A -> A) (l : list A) :
  (forall x, p (f x) = p x) -> filter p (map f l) = map f (filter p l).
Proof.
  intros H. induction l as [|x rest IH]; simpl; [reflexivity|].
  rewrite H. destruct (p x); simpl; rewrite IH; reflexivity.
Qed.

Lemma withDevices_same (w : World) : withDevices w.(devices) w = w.
Proof. destruct w; reflexivity. Qed.

Lemma notForced (force : option string) :
  force <> Some "yes" ->
  match force with Some f => String.eqb f "yes" | None => false end = false.
Proof.
  intros H. destruct force as [f|]; [|reflexivity].
  destruct (String.eqb f "yes") eqn:E; [|reflexivity].
  apply String.eqb_eq in E. subst. contradiction.
Qed.

Lemma delete_marks id dhcpId force org' user (w : World) orgList device entry :
  getAccessTokenOrgList user org' true = Ok orgList ->
  Mongo.findOne (inScope id orgList) w.(devices) = Some device ->
  filter (fun s => String.eqb s.(dhcp_id) dhcpId) device.(dhcp) = [entry] ->
  force <> Some "yes" ->
  devices (snd (devicesIdDhcpDhcpIdDELETE id dhcpId force org' user w))
  = Mongo.findOneAndUpdate (inScope id orgList) (markDeleting dhcpId) w.(devices).
Proof.
  intros Hget Hfind Hfilter Hforce.
  unfold devicesIdDhcpDhcpIdDELETE, tryCatch, bindM, lift, get, setDevices.
  rewrite Hget, Hfind, Hfilter, (notForced force Hforce).
  destruct (negb (String.eqb (dhcp_status entry) "del-wait")); [|reflexivity].
  unfold dispatch, ret. simpl.
  destruct (dispatcherApply _ _) as [[ids|e] q]; reflexivity.
Qed.

Lemma delete_on_deleting id dhcpId force org' user (w : World) orgList device entry :
  getAccessTokenOrgList user org' true = Ok orgList ->
  Mongo.findOne (inScope id orgList) w.(devices) = Some device ->
  filter (fun s => String.eqb s.(dhcp_id) dhcpId) device.(dhcp) = [entry] ->
  entry.(dhcp_status) = "del-wait" ->
  force <> Some "yes" ->
  devicesIdDhcpDhcpIdDELETE id dhcpId force org' user w = (successResponse PEmpty 202, w).
Proof.
  intros Hget Hfind Hfilter Hstatus Hforce.
  assert (Hsame : markDeleting dhcpId device = device).
  { unfold markDeleting, Mongo.setElem.
    assert (Hmap : map (fun e => if String.eqb (dhcp_id e) dhcpId
                                 then set_dhcp_status "del-wait" e else e) (dhcp device)
                   = dhcp device).
    { erewrite map_ext_in; [apply map_id|].
      intros h Hh. simpl. destruct (String.eqb (dhcp_id h) dhcpId) eqn:Hid; [|reflexivity].
      assert (Hin : In h (filter (fun s => String.eqb s.(dhcp_id) dhcpId) device.(dhcp)))
        by (apply filter_In; auto).
      rewrite Hfilter in Hin. destruct Hin as [<-|[]].
      destruct entry; simpl in *. subst. reflexivity. }
    unfold set_dhcp. rewrite Hmap. destruct device; reflexivity. }
  unfold devicesIdDhcpDhcpIdDELETE, tryCatch, bindM, lift, get, setDevices.
  rewrite Hget, Hfind, Hfilter, (notForced force Hforce), Hstatus.
  change (set_dhcp (Mongo.setElem dhcp_id dhcpId (set_dhcp_status "del-wait")))
    with (markDeleting dhcpId).
  rewrite (findOneAndUpdate_fixed _ _ _ _ device Hfind Hsame).
  simpl. rewrite withDevices_same. reflexivity.
Qed.

(** X17. Delete requests are absorbed after the first: once
    [devicesIdDhcpDhcpIdDELETE] has run for an entry of a device (without
    [force]), whatever it answered, running it again answers 202 and
    changes nothing - no document, no further call of the dispatcher. *)
Theorem repeated_delete_absorbed :
  forall (id dhcpId : ObjectId) (force org' : option string) (user : User) (w : World)
         (orgList : list ObjectId) (device : Device) (entry : Dhcp),
    getAccessTokenOrgList user org' true = Ok orgList ->
    Mongo.findOne (inScope id orgList) w.(devices) = Some device ->
    filter (fun s => String.eqb s.(dhcp_id) dhcpId) device.(dhcp) = [entry] ->
    force <> Some "yes" ->
    devicesIdDhcpDhcpIdDELETE id dhcpId force org' user
      (snd (devicesIdDhcpDhcpIdDELETE id dhcpId force org' user w))
    = (successResponse PEmpty 202,
       snd (devicesIdDhcpDhcpIdDELETE id dhcpId force org' user w)).
Proof.
  intros id dhcpId force org' user w orgList device entry Hget Hfind Hfilter Hforce.
  pose proof (delete_marks id dhcpId force org' user w orgList device entry
                           Hget Hfind Hfilter Hforce) as Hmarked.
  apply (delete_on_deleting id dhcpId force org' user _ orgList
                            (markDeleting dhcpId device)
                            (set_dhcp_status "del-wait" entry)); auto.
  - rewrite Hmarked. unfold Mongo.findOne in *.
    rewrite find_findOneAndUpdate by reflexivity. rewrite Hfind. reflexivity.
  - unfold markDeleting, Mongo.setElem. simpl.
    rewrite filter_map_commute.
    + rewrite Hfilter. simpl.
      assert (Hin : In entry (filter (fun s => String.eqb s.(dhcp_id) dhcpId) device.(dhcp)))
        by (rewrite Hfilter; left; reflexivity).
      apply filter_In in Hin as [_ Hid]. rewrite Hid. reflexivity.
    + intros h. destruct (String.eqb (dhcp_id h) dhcpId) eqn:E; simpl; rewrite E; reflexivity.
Qed.

(** X18. [devicesIdDhcpDhcpIdDELETE] is not atomic: when the dispatcher
    raises, the request is rejected with the dispatcher's error and the
    entry is nevertheless left marked [del-wait]. *)
Theorem delete_marks_before_dispatch :
  forall (id dhcpId : ObjectId) (force org' : option string) (user : User) (w : World)
         (orgList : list ObjectId) (device : Device) (entry : Dhcp) (e : Error),
    getAccessTokenOrgList user org' true = Ok orgList ->
    Mongo.findOne (inScope id orgList) w.(devices) = Some device ->
    filter (fun s => String.eqb s.(dhcp_id) dhcpId) device.(dhcp) = [entry] ->
    entry.(dhcp_status) <> "del-wait" ->
    fst (dispatcherApply
           (mkDispatchCall [device] "dhcp" user
              (DhcpJobData (hd_error orgList) (jobData dhcpId entry "del")))
           w.(queue)) = Throw e ->
    fst (devicesIdDhcpDhcpIdDELETE id dhcpId force org' user w) = rejectOf e
    /\ devices (snd (devicesIdDhcpDhcpIdDELETE id dhcpId force org' user w))
       = Mongo.findOneAndUpdate (inScope id orgList) (markDeleting dhcpId) w.(devices).
Proof.
  intros id dhcpId force org' user w orgList device entry e Hget Hfind Hfilter Hstatus Hthrow.
  apply String.eqb_neq in Hstatus.
  unfold devicesIdDhcpDhcpIdDELETE, tryCatch, bindM, lift, get, setDevices.
  rewrite Hget, Hfind, Hfilter, Hstatus.
  unfold dispatch, ret. simpl.
  destruct (dispatcherApply _ _) as [r q]. simpl in Hthrow. subst r.
  split; reflexivity.
Qed.

Lemma find_of_updated (q : Device -> bool) (u : Device -> Device) (coll : list Device)
      (d : Device) :
  NoDup (map dev_id coll) ->
  find q coll = Some d ->
  (forall x, q (u x) = q x) ->
  find q (Mongo.findOneAndUpdate (fun x => String.eqb x.(dev_id) d.(dev_id)) u coll)
  = Some (u d).
Proof.
  intros Hnd Hfind Hq. induction coll as [|x rest IH]; simpl in *; [discriminate|].
  inversion Hnd as [|? ? Hnotin Hnd']; subst.
  destruct (q x) eqn:Hx.
  - injection Hfind as <-. rewrite String.eqb_refl. simpl. rewrite Hq, Hx. reflexivity.
  - destruct (String.eqb (dev_id x) (dev_id d)) eqn:Hid.
    + exfalso. apply String.eqb_eq in Hid. apply Hnotin. rewrite Hid.
      apply in_map. apply (find_some _ _ Hfind).
    + simpl. rewrite Hx. apply IH; assumption.
Qed.

(** X19. With [force], a delete request that is not rejected leaves no
    DHCP server of that id on the device (device ids being unique). *)
Theorem forced_delete_removes :
  forall (id dhcpId : ObjectId) (org' : option string) (user : User) (w : World),
    NoDup (map dev_id w.(devices)) ->
    isReject (fst (devicesIdDhcpDhcpIdDELETE id dhcpId (Some "yes") org' user w)) = false ->
    forall d h,
      In d (devices (snd (devicesIdDhcpDhcpIdDELETE id dhcpId (Some "yes") org' user w))) ->
      d.(dev_id) = id ->
      In h d.(dhcp) ->
      h.(dhcp_id) <> dhcpId.
Proof.
  intros id dhcpId org' user w Hnd.
  unfold devicesIdDhcpDhcpIdDELETE, tryCatch, bindM, lift, get, setDevices.
  destruct (getAccessTokenOrgList user org' true) as [orgList|e]; [|discriminate].
  destruct (Mongo.findOne _ _) as [device|] eqn:Hfind; [|discriminate].
  destruct (filter _ _) as [|entry [|other others]]; [discriminate| |discriminate].
  change (set_dhcp (Mongo.setElem dhcp_id dhcpId (set_dhcp_status "del-wait")))
    with (markDeleting dhcpId).
  set (marked := Mongo.findOneAndUpdate (inScope id orgList) (markDeleting dhcpId)
                                        (devices w)).
  assert (Hdevice : device.(dev_id) = id).
  { apply find_some in Hfind as [_ Hq]. apply andb_prop in Hq as [Hq _].
    apply String.eqb_eq. exact Hq. }
  assert (Hpulled : forall d h,
             In d (Mongo.findOneAndUpdate (fun d => String.eqb d.(dev_id) device.(dev_id))
                                          (set_dhcp (Mongo.pull dhcp_id dhcpId)) marked) ->
             d.(dev_id) = id -> In h d.(dhcp) -> h.(dhcp_id) <> dhcpId).
  { intros d h Hd Hid Hh.
    rewrite (findOneAndUpdate_unique Device dev_id device.(dev_id)) in Hd.
    - apply in_map_iff in Hd as (x & <- & Hx).
      destruct (String.eqb (dev_id x) (dev_id device)) eqn:E.
      + simpl in Hh. unfold Mongo.pull in Hh. apply filter_In in Hh as [_ Hh].
        intros Heq. rewrite Heq, String.eqb_refl in Hh. discriminate.
      + apply String.eqb_neq in E. congruence.
    - unfold marked. rewrite findOneAndUpdate_map; [exact Hnd|]. reflexivity.
    - intros x Hx. apply String.eqb_eq. exact Hx. }
  destruct (negb (String.eqb (dhcp_status entry) "del-wait")).
  - unfold dispatch, ret. simpl.
    destruct (dispatcherApply _ _) as [[ids|e] q]; simpl; [|discriminate].
    intros _. exact Hpulled.
  - simpl. intros _. exact Hpulled.
Qed.

(** X20. [devicesIdDhcpPOST] commits before it dispatches: when all its
    checks pass and the dispatcher raises, the request is rejected with the
    dispatcher's error and the new entry is nevertheless stored, in
    [add-wait]. *)
Theorem post_commits_before_dispatch :
  forall (id : ObjectId) (org' : option string) (dhcpRequest : DhcpRequest) (user : User)
         (w : World) (orgList : list ObjectId) (deviceObject : Device) (e : Error),
    getAccessTokenOrgList user org' true = Ok orgList ->
    Mongo.findOne (inScope id orgList) w.(devices) = Some deviceObject ->
    deviceObject.(isApproved) = true ->
    validateDhcpRequest deviceObject dhcpRequest = Ok tt ->
    filter (fun s => String.eqb s.(dhcp_interface) dhcpRequest.(req_interface))
           deviceObject.(dhcp) = [] ->
    fst (dispatcherApply
           (mkDispatchCall [deviceObject] "dhcp" user
              (DhcpJobData (hd_error orgList)
                 (mkDhcpData (newObjectId w.(created)) dhcpRequest.(req_interface)
                             dhcpRequest.(req_rangeStart) dhcpRequest.(req_rangeEnd)
                             dhcpRequest.(req_dns) dhcpRequest.(req_macAssign) "add")))
           w.(queue)) = Throw e ->
    fst (devicesIdDhcpPOST id org' dhcpRequest user w) = rejectOf e
    /\ devices (snd (devicesIdDhcpPOST id org' dhcpRequest user w))
       = Mongo.findOneAndUpdate
           (fun d => String.eqb d.(dev_id) deviceObject.(dev_id))
           (set_dhcp (Mongo.push
                        (mkDhcp (newObjectId w.(created)) dhcpRequest.(req_interface)
                                dhcpRequest.(req_rangeStart) dhcpRequest.(req_rangeEnd)
                                dhcpRequest.(req_dns) dhcpRequest.(req_macAssign)
                                "add-wait")))
           w.(devices).
Proof.
  intros id org' dhcpRequest user w orgList deviceObject e
         Hget Hfind Happroved Hvalid Hfree Hthrow.
  unfold inScope in Hfind.
  unfold devicesIdDhcpPOST, withSession, bindM, lift, get, throwIf.
  rewrite Hget, Hfind, Happroved, Hvalid, Hfree.
  unfold newId, setDevices, ret, dispatch. simpl.
  destruct (dispatcherApply _ _) as [r q]. simpl in Hthrow. subst r.
  split; reflexivity.
Qed.

(** X21. What [devicesIdDhcpPOST] answers can be read back: after a
    request answered with 202, [devicesIdDhcpDhcpIdGET] with the id of the
    answer gives the same entry - the fields of the request, under a fresh
    id, in [add-wait].  Device ids are unique and the fresh id is not the
    id of a stored DHCP server. *)
Theorem post_then_get :
  forall (id : ObjectId) (org' : option string) (dhcpRequest : DhcpRequest) (user : User)
         (w : World) (entry : Dhcp),
    NoDup (map dev_id w.(devices)) ->
    (forall d h, In d w.(devices) -> In h d.(dhcp) ->
                 h.(dhcp_id) <> newObjectId w.(created)) ->
    fst (devicesIdDhcpPOST id org' dhcpRequest user w) = successResponse (PDhcp entry) 202 ->
    entry = mkDhcp (newObjectId w.(created)) dhcpRequest.(req_interface)
                   dhcpRequest.(req_rangeStart) dhcpRequest.(req_rangeEnd)
                   dhcpRequest.(req_dns) dhcpRequest.(req_macAssign) "add-wait"
    /\ fst (devicesIdDhcpDhcpIdGET id entry.(dhcp_id) org' user
              (snd (devicesIdDhcpPOST id org' dhcpRequest user w)))
       = successResponse (PDhcp entry) 200.
Proof.
  intros id org' dhcpRequest user w entry Hnd Hfresh.
  unfold devicesIdDhcpPOST, withSession, bindM, lift, get, throwIf.
  destruct (getAccessTokenOrgList user org' true) as [orgList|e] eqn:Hget; [|discriminate].
  destruct (Mongo.findOne _ _) as [deviceObject|] eqn:Hfind; [|discriminate].
  destruct (negb (isApproved deviceObject)); [discriminate|].
  destruct (validateDhcpRequest deviceObject dhcpRequest) as [[]|e]; [|discriminate].
  destruct (filter _ (dhcp deviceObject)) as [|existing others]; [|discriminate].
  unfold newId, setDevices, ret, dispatch. simpl.
  destruct (dispatcherApply _ _) as [[ids|e] q]; [|discriminate].
  simpl. intros [= <-]. split; [reflexivity|].
  unfold devicesIdDhcpDhcpIdGET, tryCatch, bindM, lift, get. rewrite Hget. simpl.
  unfold Mongo.findOne, inScope in *.
  rewrite (find_of_updated _ _ _ deviceObject Hnd Hfind) by reflexivity.
  simpl. unfold Mongo.push. rewrite filter_app. simpl.
  rewrite String.eqb_refl.
  rewrite filter_nothing; [reflexivity|].
  intros h Hh. apply String.eqb_neq.
  apply (Hfresh deviceObject h); [apply (find_some _ _ Hfind)|exact Hh].
Qed.

End DhcpMethods.

(** ** Modifying and deleting a device, beyond the claims *)

Section DeviceMethods.

Context {C : Collaborators}.
Import DevicesService.

Lemma mapResult_Forall2 (A B : Type) (f : A -> result B) (xs : list A) (ys : list B) :
  mapResult f xs = Ok ys -> Forall2 (fun x y => f x = Ok y) xs ys.
Proof.
  revert ys. induction xs as [|x rest IH]; simpl; intros ys.
  - intros [= <-]. constructor.
  - destruct (f x) as [y|e] eqn:Hx; simpl; [|discriminate].
    destruct (mapResult f rest) as [ys'|e]; simpl; [|discriminate].
    intros [= <-]. constructor; auto.
Qed.

Lemma findOneAndUpdate_Forall2 (A : Type) (R : A -> A -> Prop) (q : A -> bool) (u : A -> A)
      (coll : list A) :
  (forall d, R d d) ->
  (forall d, find q coll = Some d -> R d (u d)) ->
  Forall2 R coll (Mongo.findOneAndUpdate q u coll).
Proof.
  intros Hrefl. induction coll as [|x rest IH]; simpl; intros Hu; [constructor|].
  destruct (q x).
  - constructor; [apply Hu; reflexivity|].
    clear IH Hu. induction rest; constructor; auto.
  - constructor; [apply Hrefl|apply IH; exact Hu].
Qed.

(** X22. What [mergeInterface] puts in the place of a stored interface
    keeps its id and its [internetAccess]; when it is not assigned it
    keeps the stored address, mask, gateway and metric; when it takes its
    address from DHCP it keeps the stored address, mask and gateway; with
    STUN it keeps the stored public port and NAT type; and when it differs
    from the stored interface in assignment, type, DHCP, address, mask or
    gateway it is flagged [modified]. *)
Theorem merged_interface_keeps_system_fields :
  forall (tunnels : list Tunnel) (requested : list Interface) (origIntf merged : Interface),
    mergeInterface tunnels requested origIntf = Ok merged ->
    merged.(if_id) = origIntf.(if_id)
    /\ merged.(internetAccess) = origIntf.(internetAccess)
    /\ (merged.(isAssigned) = false ->
        merged.(IPv4) = origIntf.(IPv4) /\ merged.(IPv4Mask) = origIntf.(IPv4Mask)
        /\ merged.(gateway) = origIntf.(gateway) /\ merged.(metric) = origIntf.(metric))
    /\ (merged.(if_dhcp) = "yes" ->
        merged.(IPv4) = origIntf.(IPv4) /\ merged.(IPv4Mask) = origIntf.(IPv4Mask)
        /\ merged.(gateway) = origIntf.(gateway))
    /\ (merged.(useStun) = true ->
        merged.(PublicPort) = origIntf.(PublicPort)
        /\ merged.(NatType) = origIntf.(NatType))
    /\ (merged.(isAssigned) <> origIntf.(isAssigned)
        \/ merged.(type) <> origIntf.(type)
        \/ merged.(if_dhcp) <> origIntf.(if_dhcp)
        \/ merged.(IPv4) <> origIntf.(IPv4)
        \/ merged.(IPv4Mask) <> origIntf.(IPv4Mask)
        \/ merged.(gateway) <> origIntf.(gateway) ->
        merged.(modified) = true).
Proof.
  intros tunnels requested origIntf merged.
  unfold mergeInterface.
  destruct (find _ requested) as [updIntf|] eqn:Hfind.
  2:{ intros [= <-]. repeat split; auto. intros H. exfalso. tauto. }
  apply find_some in Hfind as [_ Hid]. apply String.eqb_eq in Hid.
  destruct (checkTunnels _ _ _) as [[]|e]; simpl; [|discriminate].
  intros [= <-].
  destruct updIntf as [uid uname upci uas uty uip umask ugw urt udh umet ulab ustun
                       uport unat uacc umod].
  destruct origIntf as [oid oname opci oas oty oip omask ogw ort odh omet olab ostun
                        oport onat oacc omod].
  simpl in Hid. subst uid.
  destruct uas; destruct (String.eqb udh "yes") eqn:Hdhcp; destruct ustun; simpl;
    rewrite ?Hdhcp; simpl;
    match goal with
    | |- context [if ?c then _ else _] => destruct c eqn:Hmod
    end; simpl;
    (split; [reflexivity|]); (split; [reflexivity|]);
    (split; [intros; try discriminate; auto|]);
    (split; [intros Hyes; try (apply String.eqb_neq in Hdhcp; contradiction); auto|]);
    (split; [intros; try discriminate; auto|]);
    try (intros _; reflexivity);
    intros Hdiff; exfalso;
    repeat (apply orb_false_elim in Hmod as [Hmod ?]);
    repeat match goal with
           | H : negb _ = false |- _ => apply negb_false_iff in H
           | H : Bool.eqb _ _ = true |- _ => apply Bool.eqb_prop in H
           | H : String.eqb _ _ = true |- _ => apply String.eqb_eq in H
           end;
    destruct oas; simpl in *; try discriminate; intuition congruence.
Qed.

Lemma mergeInterface_id tunnels requested origIntf merged :
  mergeInterface tunnels requested origIntf = Ok merged ->
  merged.(if_id) = origIntf.(if_id).
Proof.
  unfold mergeInterface.
  destruct (find _ requested) as [updIntf|] eqn:Hfind; [|intros [= <-]; reflexivity].
  apply find_some in Hfind as [_ Hid]. apply String.eqb_eq in Hid.
  destruct (checkTunnels _ _ _) as [[]|e]; simpl; [|discriminate].
  intros [= <-].
  repeat match goal with
         | |- context [if ?c then _ else _] => destruct c
         end; simpl; auto.
Qed.

Lemma checkIntent_merged origDevice deviceRequest (w : World) merged :
  checkIntent origDevice deviceRequest w = Ok merged ->
  mergeInterfaces w.(tunnels) origDevice deviceRequest = Ok merged.
Proof.
  unfold checkIntent, throwIf.
  destruct (negb (isApproved origDevice) && _); [discriminate|]. simpl.
  destruct (mergeInterfaces _ _ _) as [rq|e]; simpl; [|discriminate].
  destruct (match rq_dhcp rq with Some _ => _ | None => _ end) as [[]|e]; simpl;
    [|discriminate].
  destruct (checkDhcpConfig origDevice rq) as [[]|e]; simpl; [|discriminate].
  destruct (validators.validateDevice _ _ _) as [v|e]; simpl; [|discriminate].
  destruct (negb (valid v)); [discriminate|]. intros [= <-]. reflexivity.
Qed.

Lemma mergeInterfaces_ids tunnels origDevice deviceRequest merged :
  mergeInterfaces tunnels origDevice deviceRequest = Ok merged ->
  map if_id (interfaces (applyRequest merged origDevice))
  = map if_id (interfaces origDevice).
Proof.
  unfold mergeInterfaces.
  destruct (rq_interfaces deviceRequest) as [requested|] eqn:Hrq.
  - destruct (mapResult _ _) as [ifs|e] eqn:Hmap; simpl; [|discriminate].
    intros [= <-]. simpl.
    apply mapResult_Forall2 in Hmap.
    induction Hmap as [|x y xs ys Hxy _ IH]; simpl; [reflexivity|].
    rewrite (mergeInterface_id _ _ _ _ Hxy), IH. reflexivity.
  - intros [= <-]. simpl. rewrite Hrq. reflexivity.
Qed.

(** X23. [devicesIdPUT] never adds, removes or reorders an interface:
    whatever the request and its outcome, every stored device has after it
    the interface ids it had before, in the same order, and the devices are
    the same in number and id. *)
Theorem modify_keeps_interface_list :
  forall (id : ObjectId) (org' : option string) (deviceRequest : DeviceRequest)
         (user : User) (w : World),
    Forall2 (fun d d' => d'.(dev_id) = d.(dev_id)
                         /\ map if_id d'.(interfaces) = map if_id d.(interfaces))
            w.(devices)
            (devices (snd (devicesIdPUT id org' deviceRequest user w))).
Proof.
  intros id org' deviceRequest user w.
  assert (Hsame : Forall2 (fun d d' => d'.(dev_id) = d.(dev_id)
                                       /\ map if_id d'.(interfaces) = map if_id d.(interfaces))
                          w.(devices) w.(devices)).
  { induction (devices w); constructor; auto. }
  unfold devicesIdPUT, withSession, bindM, lift, get.
  destruct (getAccessTokenOrgList user org' true) as [orgList|e]; [|exact Hsame].
  destruct (Mongo.findOne _ _) as [origDevice|] eqn:Hfind; [|exact Hsame].
  destruct (checkIntent origDevice deviceRequest w) as [merged|e] eqn:Hcheck;
    [|exact Hsame].
  assert (Hupdated :
            Forall2 (fun d d' => d'.(dev_id) = d.(dev_id)
                                 /\ map if_id d'.(interfaces) = map if_id d.(interfaces))
                    w.(devices)
                    (Mongo.findOneAndUpdate
                       (fun d => String.eqb d.(dev_id) id && includes orgList d.(org))
                       (applyRequest merged) w.(devices))).
  { apply findOneAndUpdate_Forall2; [auto|].
    intros d Hd. unfold Mongo.findOne in Hfind. rewrite Hfind in Hd. injection Hd as <-.
    split; [reflexivity|].
    apply (mergeInterfaces_ids w.(tunnels) origDevice deviceRequest).
    apply checkIntent_merged. exact Hcheck. }
  destruct (rq_isApproved merged) as [[|]|]; unfold deviceDisconnect, ret;
    cbv beta iota;
    (destruct (runValidators merged) as [[]|e]; [|exact Hsame]);
    unfold setDevices, dispatch, raise; cbn [fst snd withDevices devices queue];
    (destruct (dispatcherApply _ _) as [[ids|e] q]; cbn [fst snd devices];
     [destruct (Mongo.findOne _ (Mongo.findOneAndUpdate _ _ _)); exact Hupdated
     |exact Hupdated]).
Qed.

(** X24. A deletion that [devicesIdDELETE] rejects has written nothing:
    devices, tunnels and billing are as before, whatever made it fail. *)
Theorem rejected_deletion_writes_nothing :
  forall (id : ObjectId) (org' : option string) (user : User) (w : World),
    isReject (fst (devicesIdDELETE id org' user w)) = true ->
    devices (snd (devicesIdDELETE id org' user w)) = devices w
    /\ tunnels (snd (devicesIdDELETE id org' user w)) = tunnels w
    /\ billing (snd (devicesIdDELETE id org' user w)) = billing w.
Proof.
  intros id org' user w.
  unfold devicesIdDELETE, withSession, bindM, lift, get, throwIf.
  destruct (getAccessTokenOrgList user org' true) as [orgList|e]; [|simpl; auto].
  destruct (Nat.ltb 0 _); [simpl; auto|].
  destruct (Mongo.find_ _ _) as [|first rest]; [simpl; auto|].
  unfold deviceDisconnect, setBilling, setDevices, ret. simpl.
  destruct (registerDevice _ _ _ _) as [b|e]; simpl; [discriminate|auto].
Qed.

(** X25. A deletion that [devicesIdDELETE] answers with 204 found no
    active tunnel of the caller's organizations on the device, has taken
    every device of that id and those organizations out of the store, and
    has kept every other device. *)
Theorem accepted_deletion :
  forall (id : ObjectId) (org' : option string) (user : User) (w : World),
    fst (devicesIdDELETE id org' user w) = successResponse PNull 204 ->
    exists orgList,
      getAccessTokenOrgList user org' true = Ok orgList
      /\ (forall t, In t w.(tunnels) -> t.(isActive) = true ->
                    In t.(tunnel_org) orgList -> ~ references id t)
      /\ (forall d, In d (devices (snd (devicesIdDELETE id org' user w)))
                    <-> In d w.(devices)
                        /\ ~ (d.(dev_id) = id /\ In d.(org) orgList)).
Proof.
  intros id org' user w.
  unfold devicesIdDELETE, withSession, bindM, lift, get, throwIf.
  destruct (getAccessTokenOrgList user org' true) as [orgList|e]; [|discriminate].
  destruct (Nat.ltb 0 _) eqn:Hcount; [discriminate|].
  destruct (Mongo.find_ _ _) as [|first rest]; [discriminate|].
  unfold deviceDisconnect, setBilling, setDevices, ret. simpl.
  destruct (registerDevice _ _ _ _) as [b|e]; simpl; [|discriminate].
  intros _. exists orgList. split; [reflexivity|]. split.
  - intros t Ht Hactive Horg Href.
    unfold Mongo.countDocuments in Hcount.
    pose proof (proj1 (filter_empty _ _ _) Hcount t Ht) as Hpred. cbv beta in Hpred.
    apply references_eqb in Href. apply includes_In in Horg.
    rewrite Href, Hactive, Horg in Hpred. discriminate.
  - intros d. unfold Mongo.remove. rewrite filter_In.
    rewrite negb_true_iff, andb_false_iff, String.eqb_neq.
    split; intros [Hd Hq]; (split; [exact Hd|]).
    + intros [Hid Horg]. apply includes_In in Horg. destruct Hq; congruence.
    + destruct (String.eqb (dev_id d) id) eqn:Hid.
      * right. destruct (includes orgList (org d)) eqn:Ho; [|reflexivity].
        exfalso. apply Hq. split; [apply String.eqb_eq; exact Hid|].
        apply includes_In. exact Ho.
      * left. apply String.eqb_neq. exact Hid.
Qed.

End DeviceMethods.

(** ** [TunnelsService.tunnelsIdDELETE] *)

Section TunnelMethods.

Context {C : Collaborators}.
Import TunnelsService.

(** X26. [tunnelsIdDELETE] removes no tunnel document and rewrites none
    beyond its [isActive] flag: after the call the tunnels are, one by one
    and in the same order, the tunnels of before or their copies with
    [isActive] false, and devices and billing are untouched. *)
Theorem tunnel_deletion_keeps_documents :
  forall (id : ObjectId) (org' : option string) (user : User) (w : World),
    Forall2 (fun t t' => t' = t \/ t' = set_isActive false t)
            w.(tunnels) (tunnels (snd (tunnelsIdDELETE id org' user w)))
    /\ devices (snd (tunnelsIdDELETE id org' user w)) = devices w
    /\ billing (snd (tunnelsIdDELETE id org' user w)) = billing w.
Proof.
  intros id org' user w.
  assert (Hsame : Forall2 (fun t t' => t' = t \/ t' = set_isActive false t)
                          w.(tunnels) w.(tunnels)).
  { induction (tunnels w); constructor; auto. }
  unfold tunnelsIdDELETE, tryCatch, bindM, lift, get.
  destruct (getAccessTokenOrgList user org' true) as [orgList|e]; [|simpl; auto].
  destruct (Mongo.findOne _ _); unfold setTunnels, ret; simpl; [|auto].
  split; [|auto].
  apply findOneAndUpdate_Forall2; auto.
Qed.

(** X27. Deleting a tunnel again changes nothing and is answered as the
    first time: a second [tunnelsIdDELETE] of the same id by the same
    caller returns the response of the first and leaves its world. *)
Theorem tunnel_deletion_repeats :
  forall (id : ObjectId) (org' : option string) (user : User) (w : World),
    tunnelsIdDELETE id org' user (snd (tunnelsIdDELETE id org' user w))
    = tunnelsIdDELETE id org' user w.
Proof.
  intros id org' user w.
  unfold tunnelsIdDELETE, tryCatch, bindM, lift, get.
  destruct (getAccessTokenOrgList user org' true) as [orgList|e]; [|reflexivity].
  unfold Mongo.findOne.
  destruct (find _ (tunnels w)) as [t|] eqn:Hfind; unfold setTunnels, ret; simpl.
  - rewrite find_findOneAndUpdate by (intros x; reflexivity).
    rewrite Hfind. simpl.
    rewrite findOneAndUpdate_twice by (intros x; reflexivity).
    reflexivity.
  - rewrite Hfind. reflexivity.
Qed.

End TunnelMethods.

(** ** [migrations/1607600926132-pci_to_dev_id.js] *)

Section Migration.

Import pci_to_dev_id.

Variable Rest : Type.

Lemma migrate_documents (f : LeanInterface Rest -> LeanInterface Rest)
      (coll : list (LeanDevice Rest)) :
  NoDup (map (@lean_id Rest) coll) ->
  migrate f coll = map (onDocument f) coll.
Proof.
  unfold migrate.
  enough (H : forall docs done,
             NoDup (map (@lean_id Rest) docs) ->
             (forall d e, In d done -> In e docs -> lean_id d <> lean_id e) ->
             fold_left
               (fun store deviceDoc =>
                  match deviceDoc.(lean_interfaces) with
                  | Some interfaces =>
                      Mongo.findOneAndUpdate
                        (fun d => String.eqb d.(lean_id) deviceDoc.(lean_id))
                        (fun d => mkLeanDevice d.(lean_id) (Some (map f interfaces))) store
                  | None => store
                  end)
               docs (done ++ docs)
             = done ++ map (onDocument f) docs).
  { intros Hnd. apply (H coll [] Hnd). intros d e []. }
  induction docs as [|doc docs IH]; intros done Hnd Hdis; simpl; [reflexivity|].
  inversion Hnd as [|? ? Hnotin Hnd']; subst.
  assert (Hstep :
            match doc.(lean_interfaces) with
            | Some interfaces =>
                Mongo.findOneAndUpdate
                  (fun d => String.eqb d.(lean_id) doc.(lean_id))
                  (fun d => mkLeanDevice d.(lean_id) (Some (map f interfaces)))
                  (done ++ doc :: docs)
            | None => done ++ doc :: docs
            end = (done ++ [onDocument f doc]) ++ docs).
  { rewrite <- app_assoc. simpl. unfold onDocument.
    destruct (lean_interfaces doc) as [interfaces|]; [|reflexivity].
    clear IH. induction done as [|x done IHd]; simpl.
    - rewrite String.eqb_refl. reflexivity.
    - destruct (String.eqb (lean_id x) (lean_id doc)) eqn:Hx.
      + exfalso. apply String.eqb_eq in Hx.
        apply (Hdis x doc); simpl; auto.
      + f_equal. apply IHd. intros d e Hd He. apply Hdis; simpl; auto. }
  rewrite Hstep, IH.
  - rewrite <- app_assoc. reflexivity.
  - exact Hnd'.
  - intros d e Hd He. apply in_app_or in Hd as [Hd|[<-|[]]].
    + apply Hdis; simpl; auto.
    + assert (Hid : lean_id (onDocument f doc) = lean_id doc).
      { unfold onDocument. destruct (lean_interfaces doc); reflexivity. }
      rewrite Hid. intros Heq. apply Hnotin. rewrite Heq. apply in_map. exact He.
Qed.

Lemma migrate_ids (f : LeanInterface Rest -> LeanInterface Rest)
      (coll : list (LeanDevice Rest)) :
  NoDup (map (@lean_id Rest) coll) ->
  map (@lean_id Rest) (migrate f coll) = map (@lean_id Rest) coll.
Proof.
  intros Hnd. rewrite (migrate_documents f coll Hnd), map_map.
  apply map_ext. intros d. unfold onDocument. destruct (lean_interfaces d); reflexivity.
Qed.

Lemma migrate_twice (f g : LeanInterface Rest -> LeanInterface Rest)
      (coll : list (LeanDevice Rest)) :
  NoDup (map (@lean_id Rest) coll) ->
  migrate g (migrate f coll) = migrate (fun i => g (f i)) coll.
Proof.
  intros Hnd.
  rewrite (migrate_documents g (migrate f coll)) by (rewrite migrate_ids; assumption).
  rewrite !(migrate_documents _ coll Hnd), map_map.
  apply map_ext. intros d. unfold onDocument.
  destruct (lean_interfaces d) as [interfaces|] eqn:Hd; simpl; [|rewrite Hd; reflexivity].
  rewrite map_map. reflexivity.
Qed.

(** X28. [down] does not undo [up].  On a collection with unique ids,
    [up] followed by [down] leaves every interface with a [pciaddr] that
    is its old one behind the prefix [pci:], without [devId], and with a
    [deviceType]; the other fields, the documents without interfaces and
    the order are as before. *)
Theorem down_after_up :
  forall coll : list (LeanDevice Rest),
    NoDup (map (@lean_id Rest) coll) ->
    down (up coll)
    = map (fun d =>
             match d.(lean_interfaces) with
             | Some interfaces =>
                 mkLeanDevice d.(lean_id)
                   (Some (map (fun i =>
                                 mkLeanInterface
                                   (Some ("pci:" ++ orEmpty i.(lean_pciaddr))%string)
                                   None
                                   (Some (orEmpty i.(deviceType)))
                                   i.(rest))
                              interfaces))
             | None => d
             end) coll.
Proof.
  intros coll Hnd. unfold down, up.
  rewrite (migrate_twice _ _ coll Hnd), (migrate_documents _ coll Hnd).
  apply map_ext. intros d. unfold onDocument.
  destruct (lean_interfaces d) as [interfaces|]; [|reflexivity].
  reflexivity.
Qed.

(** X29. [up] must not run twice: on a collection with unique ids a
    second [up] leaves every interface with the bare [devId] [pci:] and
    with no [pciaddr] but an empty one, whatever address it had. *)
Theorem up_twice_loses_addresses :
  forall (coll : list (LeanDevice Rest)) (d : LeanDevice Rest)
         (interfaces : list (LeanInterface Rest)) (i : LeanInterface Rest),
    NoDup (map (@lean_id Rest) coll) ->
    In d (up (up coll)) ->
    d.(lean_interfaces) = Some interfaces ->
    In i interfaces ->
    i.(devId) = Some "pci:" /\ orEmpty i.(lean_pciaddr) = EmptyString.
Proof.
  intros coll d interfaces i Hnd Hd Hifs Hi. unfold up in Hd.
  rewrite (migrate_twice _ _ coll Hnd), (migrate_documents _ coll Hnd) in Hd.
  apply in_map_iff in Hd as (d0 & <- & _). unfold onDocument in Hifs.
  destruct (lean_interfaces d0) as [ifs0|] eqn:H0; simpl in Hifs;
    [|rewrite H0 in Hifs; discriminate].
  injection Hifs as <-. apply in_map_iff in Hi as (i0 & <- & _).
  unfold upInterface, deleteIfSet, orEmpty. simpl.
  destruct (lean_pciaddr i0) as [s|]; [|split; reflexivity].
  destruct (String.eqb s "") eqn:Hs; [|split; reflexivity].
  apply String.eqb_eq in Hs. subst. split; reflexivity.
Qed.

End Migration.

(** ** The properties on the small installation *)

Section MoreInstallation.

Import Fixture Cases validators validatorsMore DevicesService DevicesServiceDhcp.
Import pci_to_dev_id.

Existing Instance office.

(** On [edge1Routed] the completion of the delete job, delivered after
    its failure or after its removal, leaves what it leaves alone. *)
Lemma completion_overrides_witness :
  dhcp.complete 7 (Some delResult) (dhcp.error 7 (Some delResult) [edge1Routed])
  = dhcp.complete 7 (Some delResult) [edge1Routed]
  /\ dhcp.complete 7 (Some delResult) (dhcp.remove delJob [edge1Routed])
     = dhcp.complete 7 (Some delResult) [edge1Routed].
Proof.
  apply (completion_overrides 7 delResult delJob [edge1Routed]
           edge1.(dev_id) waiting.(dhcp_id)).
  - reflexivity.
  - reflexivity.
  - discriminate.
  - reflexivity.
Defined.

(** The delete job of [delData] on [edge1]. *)
Lemma applied_jobs_reach_one_branch_witness :
  [delJob] = [delJob]
  /\ delJob.(response_method) = "dhcp"
  /\ (forall (jobId : nat) (devices : list Device),
         dhcp.complete jobId (Some delJob.(response_data)) devices
         = Mongo.findOneAndUpdate (byId (Some edge1.(dev_id)))
             (dhcp.setRouteStatus (Some delData.(data_id)) "complete") devices
         /\ dhcp.error jobId (Some delJob.(response_data)) devices
            = Mongo.findOneAndUpdate (byId (Some edge1.(dev_id)))
                (dhcp.setRouteStatus (Some delData.(data_id)) "add-failed") devices).
Proof.
  apply (applied_jobs_reach_one_branch 1 edge1 admin delData [delJob] delJob).
  - reflexivity.
  - simpl. auto.
Defined.

(** [disjoint] is accepted. *)
Lemma validateDevice_sound_witness :
  assignedOf "WAN" disjoint <> []
  /\ assignedOf "LAN" disjoint <> []
  /\ (forall ifc, In ifc disjoint.(interfaces) -> ifc.(isAssigned) = true ->
                  interfaceRules ifc)
  /\ (forall wanIfc lanIfc,
         In wanIfc (assignedOf "WAN" disjoint) -> In lanIfc (assignedOf "LAN" disjoint) ->
         cidr.overlap (subnetOf wanIfc) (subnetOf lanIfc) = Ok false)
  /\ (false = true ->
      forall orgDevice lanIfc,
        In orgDevice [] -> In lanIfc (assignedOf "LAN" disjoint) ->
        subnetOf lanIfc = orgDevice.(subnet)
        \/ cidr.overlap (subnetOf lanIfc) orgDevice.(subnet) = Ok false).
Proof.
  apply (validateDevice_sound disjoint false []).
  vm_compute. reflexivity.
Defined.

(** [edge1] against [branch]. *)
Lemma org_subnet_overlap_refused_witness :
  accepted (validateDevice edge1 true [branch]) = false.
Proof.
  apply (org_subnet_overlap_refused edge1 [branch] branch lan1).
  - simpl. auto.
  - vm_compute. auto.
  - vm_compute. discriminate.
  - vm_compute. reflexivity.
Defined.

(** [edge1], whose two LAN subnets overlap, against its own
    organization. *)
Lemma own_lan_overlap_refused_against_organization_witness :
  accepted (validateDevice edge1 true
              (getAllOrganiztionLanSubnets edge1.(org) [edge1; edge2])) = false.
Proof.
  apply (own_lan_overlap_refused_against_organization [edge1; edge2] edge1 lan1 lan2).
  - simpl. auto.
  - vm_compute. auto.
  - vm_compute. auto.
  - vm_compute. discriminate.
  - vm_compute. reflexivity.
Defined.

(** A message with the one interface [addressed]. *)
Lemma parsed_addresses_accepted_witness :
  validateModifyDeviceMsg (oneInterface addressed) = mkValidation true "".
Proof.
  apply (parsed_addresses_accepted (oneInterface addressed) [addressed]).
  - right. exists addressed. split; reflexivity.
  - intros ifc [<-|[]].
    exists "10.0.0.1/24", "10.0.0.1", "24".
    eexists. split; [reflexivity|]. split; [reflexivity|]. vm_compute. reflexivity.
Defined.

(** A message with [unaddressed] behind [addressed]. *)
Lemma address_without_mask_refused_witness :
  (validateModifyDeviceMsg (interfaceArray [addressed; unaddressed])).(valid) = false.
Proof.
  apply (address_without_mask_refused [addressed; unaddressed] unaddressed).
  - simpl. auto.
  - right. exists "10.0.0.1". split; reflexivity.
Defined.

(** The two DHCP servers of [edge1Both], one per page. *)
Lemma dhcp_pages_concatenate_witness :
  exists first next both,
    devicesIdDhcpGET edge1.(dev_id) (Some (Z.of_nat 0)) (Some (Z.of_nat 1)) None admin
                     (worldOf edge1Both)
    = successList first 200
    /\ devicesIdDhcpGET edge1.(dev_id) (Some (Z.of_nat (0 + 1))) (Some (Z.of_nat 1)) None admin
                        (worldOf edge1Both)
       = successList next 200
    /\ devicesIdDhcpGET edge1.(dev_id) (Some (Z.of_nat 0)) (Some (Z.of_nat (1 + 1))) None admin
                        (worldOf edge1Both)
       = successList both 200
    /\ first ++ next = both
    /\ List.length first <= 1
    /\ devicesIdDhcpGET edge1.(dev_id) None None None admin (worldOf edge1Both)
       = successList edge1Both.(dhcp) 200.
Proof.
  apply (@dhcp_pages_concatenate office edge1.(dev_id) None admin (worldOf edge1Both)
           [orgA] edge1Both 0 1 1).
  - reflexivity.
  - reflexivity.
  - lia.
  - lia.
Defined.

(** The failed entry of [edge1Failed] is sent again. *)
Lemma patch_resends_failed_only_witness :
  exists orgList deviceObject dhcpObject action,
    getAccessTokenOrgList admin None true = Ok orgList
    /\ Mongo.findOne (inScope edge1.(dev_id) orgList) (worldOf edge1Failed).(devices)
       = Some deviceObject
    /\ deviceObject.(isApproved) = true
    /\ (forall h, In h deviceObject.(dhcp) -> js.includes "wait" h.(dhcp_status) = false)
    /\ In dhcpObject deviceObject.(dhcp)
    /\ dhcpObject.(dhcp_id) = failed.(dhcp_id)
    /\ ((dhcpObject.(dhcp_status) = "add-failed" /\ action = "add")
        \/ (dhcpObject.(dhcp_status) = "remove-failed" /\ action = "del"))
    /\ dispatched (snd (devicesIdDhcpDhcpIdPATCH edge1.(dev_id) failed.(dhcp_id) None admin
                          (worldOf edge1Failed)))
       = dispatched (worldOf edge1Failed)
         ++ [mkDispatchCall [deviceObject] "dhcp" admin
               (DhcpJobData (hd_error orgList)
                            (jobData dhcpObject.(dhcp_id) dhcpObject action))].
Proof.
  apply (@patch_resends_failed_only office edge1.(dev_id) failed.(dhcp_id) None admin
           (worldOf edge1Failed)).
  vm_compute. reflexivity.
Defined.

(** A second delete of the entry of [edge1Waiting]. *)
Lemma repeated_delete_absorbed_witness :
  devicesIdDhcpDhcpIdDELETE edge1.(dev_id) waiting.(dhcp_id) None None admin
    (snd (devicesIdDhcpDhcpIdDELETE edge1.(dev_id) waiting.(dhcp_id) None None admin
            (worldOf edge1Waiting)))
  = (successResponse PEmpty 202,
     snd (devicesIdDhcpDhcpIdDELETE edge1.(dev_id) waiting.(dhcp_id) None None admin
            (worldOf edge1Waiting))).
Proof.
  apply (@repeated_delete_absorbed office edge1.(dev_id) waiting.(dhcp_id) None None admin
           (worldOf edge1Waiting) [orgA] edge1Waiting waiting).
  - reflexivity.
  - reflexivity.
  - reflexivity.
  - discriminate.
Defined.

(** The delete of the entry of [legacyWaiting], whose agent the
    dispatcher refuses. *)
Lemma delete_marks_before_dispatch_witness :
  fst (devicesIdDhcpDhcpIdDELETE legacy.(dev_id) waiting.(dhcp_id) None None admin
         (worldOf legacyWaiting))
  = rejectOf (newError "Command is not supported for the current agent version")
  /\ devices (snd (devicesIdDhcpDhcpIdDELETE legacy.(dev_id) waiting.(dhcp_id) None None admin
                     (worldOf legacyWaiting)))
     = Mongo.findOneAndUpdate (inScope legacy.(dev_id) [orgA])
         (markDeleting waiting.(dhcp_id)) (worldOf legacyWaiting).(devices).
Proof.
  apply (@delete_marks_before_dispatch office legacy.(dev_id) waiting.(dhcp_id) None None
           admin (worldOf legacyWaiting) [orgA] legacyWaiting waiting
           (newError "Command is not supported for the current agent version")).
  - reflexivity.
  - reflexivity.
  - reflexivity.
  - discriminate.
  - reflexivity.
Defined.

(** The forced delete of the failed entry of [edge1Both] leaves the
    device with [second], which has another id. *)
Lemma forced_delete_removes_witness :
  second.(dhcp_id) <> failed.(dhcp_id).
Proof.
  refine (@forced_delete_removes office edge1.(dev_id) failed.(dhcp_id) None admin
            (worldOf edge1Both) _ _ (set_dhcp (fun _ => [second]) edge1) second _ _ _).
  - simpl. repeat constructor; simpl; intuition discriminate.
  - vm_compute. reflexivity.
  - vm_compute. auto.
  - reflexivity.
  - simpl. auto.
Defined.

(** [dhcpLan1] on [legacy]. *)
Lemma post_commits_before_dispatch_witness :
  fst (devicesIdDhcpPOST legacy.(dev_id) None dhcpLan1 admin (worldOf legacy))
  = rejectOf (newError "Command is not supported for the current agent version")
  /\ devices (snd (devicesIdDhcpPOST legacy.(dev_id) None dhcpLan1 admin (worldOf legacy)))
     = Mongo.findOneAndUpdate
         (fun d => String.eqb d.(dev_id) legacy.(dev_id))
         (set_dhcp (Mongo.push
                      (mkDhcp (newObjectId (worldOf legacy).(created))
                              dhcpLan1.(req_interface)
                              dhcpLan1.(req_rangeStart) dhcpLan1.(req_rangeEnd)
                              dhcpLan1.(req_dns) dhcpLan1.(req_macAssign)
                              "add-wait")))
         (worldOf legacy).(devices).
Proof.
  apply (@post_commits_before_dispatch office legacy.(dev_id) None dhcpLan1 admin
           (worldOf legacy) [orgA] legacy
           (newError "Command is not supported for the current agent version")).
  - reflexivity.
  - reflexivity.
  - reflexivity.
  - vm_compute. reflexivity.
  - reflexivity.
  - reflexivity.
Defined.

(** [dhcpLan1] on [edge1], read back. *)
Lemma post_then_get_witness :
  waiting = mkDhcp (newObjectId world0.(created)) dhcpLan1.(req_interface)
                   dhcpLan1.(req_rangeStart) dhcpLan1.(req_rangeEnd)
                   dhcpLan1.(req_dns) dhcpLan1.(req_macAssign) "add-wait"
  /\ fst (devicesIdDhcpDhcpIdGET edge1.(dev_id) waiting.(dhcp_id) None admin
            (snd (devicesIdDhcpPOST edge1.(dev_id) None dhcpLan1 admin world0)))
     = successResponse (PDhcp waiting) 200.
Proof.
  apply (@post_then_get office edge1.(dev_id) None dhcpLan1 admin world0 waiting).
  - simpl. repeat constructor; simpl; intuition discriminate.
  - intros d h [<-|[<-|[]]] [].
  - vm_compute. reflexivity.
Defined.

(** The gateway asked for on [lan1]. *)
Lemma merged_interface_keeps_system_fields_witness :
  exists merged,
    mergeInterface [] [lan1Gateway] lan1 = Ok merged
    /\ merged.(if_id) = lan1.(if_id)
    /\ merged.(modified) = true.
Proof.
  eexists. split; [reflexivity|].
  destruct (merged_interface_keeps_system_fields [] [lan1Gateway] lan1 _ eq_refl)
    as (Hid & _ & _ & _ & _ & Hmodified).
  split; [exact Hid|].
  apply Hmodified. do 5 right. discriminate.
Defined.

(** [edge1] cannot be deleted under [tunnel1]. *)
Lemma rejected_deletion_writes_nothing_witness :
  devices (snd (devicesIdDELETE edge1.(dev_id) None admin world0)) = devices world0
  /\ tunnels (snd (devicesIdDELETE edge1.(dev_id) None admin world0)) = tunnels world0
  /\ billing (snd (devicesIdDELETE edge1.(dev_id) None admin world0)) = billing world0.
Proof.
  apply (@rejected_deletion_writes_nothing office edge1.(dev_id) None admin world0).
  vm_compute. reflexivity.
Defined.

(** [edge1] is deleted where there is no tunnel. *)
Lemma accepted_deletion_witness :
  exists orgList,
    getAccessTokenOrgList admin None true = Ok orgList
    /\ (forall t, In t world1.(tunnels) -> t.(isActive) = true ->
                  In t.(tunnel_org) orgList -> ~ references edge1.(dev_id) t)
    /\ (forall d, In d (devices (snd (devicesIdDELETE edge1.(dev_id) None admin world1)))
                  <-> In d world1.(devices)
                      /\ ~ (d.(dev_id) = edge1.(dev_id) /\ In d.(org) orgList)).
Proof.
  apply (@accepted_deletion office edge1.(dev_id) None admin world1).
  vm_compute. reflexivity.
Defined.

(** The two documents through [up] and [down]. *)
Lemma down_after_up_witness :
  down (up [leanEdge; leanBare])
  = [mkLeanDevice "5f0000000000000000000001"
       (Some [mkLeanInterface (Some "pci:0000:00:03.00") None (Some "") 0;
              mkLeanInterface (Some "pci:0000:00:08.00") None (Some "dpdk") 1]);
     leanBare].
Proof.
  rewrite (down_after_up nat [leanEdge; leanBare]).
  - reflexivity.
  - simpl. repeat constructor; simpl; intuition discriminate.
Defined.

(** The first interface of [leanEdge] after two runs of [up]. *)
Lemma up_twice_loses_addresses_witness :
  (mkLeanInterface None (Some "pci:") (Some "") 0).(devId) = Some "pci:"
  /\ orEmpty (mkLeanInterface None (Some "pci:") (Some "") 0).(lean_pciaddr) = EmptyString.
Proof.
  apply (up_twice_loses_addresses nat [leanEdge; leanBare]
           (mkLeanDevice "5f0000000000000000000001"
              (Some [mkLeanInterface None (Some "pci:") (Some "") 0;
                     mkLeanInterface None (Some "pci:") (Some "dpdk") 1]))
           [mkLeanInterface None (Some "pci:") (Some "") 0;
            mkLeanInterface None (Some "pci:") (Some "dpdk") 1]
           (mkLeanInterface None (Some "pci:") (Some "") 0)).
  - simpl. repeat constructor; simpl; intuition discriminate.
  - vm_compute. auto.
  - reflexivity.
  - simpl. auto.
Defined.

End MoreInstallation.
